(** * SP 800-90 post-processor driver (drivers/trng/eip76_sp80090.c)

    A shallow embedding of the EIP-76 post-processor interface: the
    register transport is an explicit trace of device accesses, the I/O area
    and the caller's out-parameters are threaded through a small state and
    fault monad, and every C function of the module is a monadic
    definition of the same name. *)

From Stdlib Require Import ZArith List Bool Lia.
Import ListNotations.
Local Open Scope Z_scope.

(** ** Machine words (basic_defs.h) *)

Definition wrap32 (x : Z) : Z := x mod 2 ^ 32.
Definition not32 (x : Z) : Z := wrap32 (Z.lnot x).

Definition MASK_1_BIT : Z := 0x1.
Definition MASK_8_BITS : Z := 0xFF.
Definition MASK_12_BITS : Z := 0xFFF.
Definition MASK_31_BITS : Z := 0x7FFFFFFF.

(** ** Types of the driver library *)

(** Status codes.  The module names [EIP76_NO_ERROR],
    [EIP76_ILLEGAL_IN_STATE], [EIP76_BUSY_RETRY_LATER] and
    [EIP76_PROCESSING]; the code returned by the argument-check macros is the
    specification's [InvalidParameter]. *)
Inductive EIP76_Status_t : Type :=
| EIP76_NO_ERROR
| EIP76_INVALID_PARAMETER
| EIP76_BUSY_RETRY_LATER
| EIP76_ILLEGAL_IN_STATE
| EIP76_PROCESSING.

Inductive EIP76_State_t : Type :=
| EIP76_STATE_RANDOM_GENERATING
| EIP76_STATE_SP80090_RESEED_START
| EIP76_STATE_SP80090_RESEED_READY
| EIP76_STATE_SP80090_RESEED_WRITING
| EIP76_STATE_KAT_START
| EIP76_STATE_KAT_SP80090_PROCESSING
| EIP76_STATE_KAT_SP80090_BCDF_RESEEDED
| EIP76_STATE_KAT_SP80090_BCDF_NOISE
| EIP76_STATE_KAT_SP80090_BCDF_READY
| EIP76_STATE_KAT_SP80090_BCDF_PROCESSING.

(** The build-time selector [EIP76_POST_PROCESSOR_TYPE]. *)
Inductive EIP76_PostProcessor_Type : Type :=
| EIP76_POST_PROCESSOR_NONE
| EIP76_POST_PROCESSOR_SP80090
| EIP76_POST_PROCESSOR_BC_DF.

(** A device handle; [None] is the C [NULL]. *)
Definition Device_Handle_t : Type := option nat.

(** A pointer argument whose pointee lives in the caller's memory: the
    module only ever tests such a pointer against [NULL] and dereferences
    it. *)
Inductive pointer : Type := NULL | PTR.

Definition is_null (p : pointer) : bool :=
  match p with NULL => true | PTR => false end.

(** A read-only word buffer argument; [None] is [NULL]. *)
Definition buffer : Type := option (list Z).

Definition buffer_is_null (b : buffer) : bool :=
  match b with None => true | Some _ => false end.

Record EIP76_True_IOArea_t : Type := mkIOArea {
  Device : Device_Handle_t;
  State : EIP76_State_t;
  SavedControl : Z;
  Index : Z;
  Flag : bool
}.

(** Register offsets, bit masks and limits of eip76_level0.h and c_eip76.h,
    which the module uses by name only. *)
Record EIP76_Constants : Type := mkConstants {
  EIP76_REG_STATUS : Z;
  EIP76_REG_INTACK : Z;
  EIP76_REG_CONTROL : Z;
  EIP76_REG_TEST : Z;
  EIP76_REG_BLOCKCNT : Z;
  EIP76_REG_OUTPUT_0 : Z;
  EIP76_REG_OUTPUT_1 : Z;
  EIP76_REG_OUTPUT_2 : Z;
  EIP76_REG_OUTPUT_3 : Z;
  EIP76_REG_INPUT_0 : Z;
  EIP76_REG_INPUT_1 : Z;
  EIP76_REG_INPUT_2 : Z;
  EIP76_REG_INPUT_3 : Z;
  EIP76_REG_KEY_0 : Z;
  EIP76_REG_PS_AI_0 : Z;
  EIP76_REG_PS_AI_11 : Z;
  EIP76_REG_MAINSHIFTREG_L : Z;
  EIP76_REG_MAINSHIFTREG_H : Z;
  EIP76_EVENTS_MASK : Z;
  EIP76_STATUS_READY : Z;
  EIP76_STATUS_TEST_READY : Z;
  EIP76_STATUS_RESEED_AI : Z;
  EIP76_CONTROL_ENABLE_RESEED : Z;
  EIP76_REQUEST_DATA : Z;
  EIP76_TEST_POST_PROC : Z;
  EIP76_TEST_SP_800_90 : Z;
  EIP76_TEST_KNOWN_NOISE : Z;
  CLEAR_READY_BIT : Z;
  EIP76_MIN_PS_AI_WORD_COUNT : Z;
  EIP76_MAX_PS_AI_WORD_COUNT : Z;
  EIP76_REQUEST_DATA_MAX_BLK_COUNT : Z
}.

(** ** The machine: I/O area, caller memory and the device trace *)

Inductive io_event : Type :=
| EvRead (d : Device_Handle_t) (offset value : Z)
| EvWrite (d : Device_Handle_t) (offset value : Z)
| EvPrintf (line : Z).

Definition is_write (e : io_event) : bool :=
  match e with EvWrite _ _ _ => true | _ => false end.

Record machine : Type := mkMachine {
  IOArea : EIP76_True_IOArea_t;   (* the object behind IOArea_p *)
  Events : Z;                     (* the object behind Events_p *)
  BlockCount : Z;                 (* the object behind BlockCount_p *)
  Data : list Z;                  (* the caller's output buffer *)
  trace : list io_event           (* device accesses, oldest first *)
}.

(** The outcome of running a function: it returns, it dereferences a null
    or out-of-bounds pointer, or a busy-wait loop is still spinning when the
    fuel is spent. *)
Inductive result (A : Type) : Type :=
| Done (a : A) (m : machine)
| Fault (m : machine)
| Spin (m : machine).
Arguments Done {A} a m.
Arguments Fault {A} m.
Arguments Spin {A} m.

Definition M (A : Type) : Type := machine -> result A.

Definition ret {A} (a : A) : M A := fun m => Done a m.

Definition bind {A B} (c : M A) (k : A -> M B) : M B :=
  fun m => match c m with
           | Done a m' => k a m'
           | Fault m' => Fault m'
           | Spin m' => Spin m'
           end.

Definition spin {A} : M A := fun m => Spin m.

Declare Scope eip_scope.
Delimit Scope eip_scope with eip.
Notation "x <- c ;; k" := (bind c (fun x => k))
  (at level 61, c at next level, right associativity) : eip_scope.
Notation "c ;; k" := (bind c (fun _ => k))
  (at level 61, right associativity) : eip_scope.
Local Open Scope eip_scope.

Definition set_IOArea (a : EIP76_True_IOArea_t) (m : machine) : machine :=
  mkMachine a (Events m) (BlockCount m) (Data m) (trace m).
Definition set_Events (e : Z) (m : machine) : machine :=
  mkMachine (IOArea m) e (BlockCount m) (Data m) (trace m).
Definition set_BlockCount (b : Z) (m : machine) : machine :=
  mkMachine (IOArea m) (Events m) b (Data m) (trace m).
Definition set_Data (d : list Z) (m : machine) : machine :=
  mkMachine (IOArea m) (Events m) (BlockCount m) d (trace m).
Definition log (e : io_event) (m : machine) : machine :=
  mkMachine (IOArea m) (Events m) (BlockCount m) (Data m) (trace m ++ [e]).

Definition set_State (s : EIP76_State_t) (a : EIP76_True_IOArea_t) :=
  mkIOArea (Device a) s (SavedControl a) (Index a) (Flag a).
Definition set_Index (i : Z) (a : EIP76_True_IOArea_t) :=
  mkIOArea (Device a) (State a) (SavedControl a) i (Flag a).
Definition set_Flag (f : bool) (a : EIP76_True_IOArea_t) :=
  mkIOArea (Device a) (State a) (SavedControl a) (Index a) f.

(** Field accesses through [TrueIOArea_p]. *)
Definition get_Device : M Device_Handle_t := fun m => Done (Device (IOArea m)) m.
Definition get_Index : M Z := fun m => Done (Index (IOArea m)) m.
Definition get_Flag : M bool := fun m => Done (Flag (IOArea m)) m.
Definition get_SavedControl : M Z := fun m => Done (SavedControl (IOArea m)) m.
Definition put_Index (i : Z) : M unit :=
  fun m => Done tt (set_IOArea (set_Index i (IOArea m)) m).
Definition put_Flag (f : bool) : M unit :=
  fun m => Done tt (set_IOArea (set_Flag f (IOArea m)) m).

(** [*Events_p = v] and [*BlockCount_p = v]. *)
Definition store_Events (Events_p : pointer) (v : Z) : M unit :=
  fun m => if is_null Events_p then Fault m else Done tt (set_Events v m).
Definition store_BlockCount (BlockCount_p : pointer) (v : Z) : M unit :=
  fun m => if is_null BlockCount_p then Fault m else Done tt (set_BlockCount v m).

(** [p[i]] for a read-only buffer. *)
Definition load (p : buffer) (i : Z) : M Z :=
  fun m => match p with
           | None => Fault m
           | Some l => if i <? 0 then Fault m else
                       match nth_error l (Z.to_nat i) with
                       | Some w => Done w m
                       | None => Fault m
                       end
           end.

Fixpoint list_set (l : list Z) (n : nat) (v : Z) : list Z :=
  match l, n with
  | [], _ => []
  | _ :: t, O => v :: t
  | h :: t, S n' => h :: list_set t n' v
  end.

(** [p[i] = v] for the caller's output buffer. *)
Definition store_Data (p : pointer) (i v : Z) : M unit :=
  fun m => if is_null p then Fault m
           else if (i <? 0) || (Z.of_nat (length (Data m)) <=? i) then Fault m
           else Done tt (set_Data (list_set (Data m) (Z.to_nat i) v) m).

Definition printf (line : Z) : M unit := fun m => Done tt (log (EvPrintf line) m).

(** ** The module *)

Section Driver.

(** The build variant, the named constants of the absent headers, and the
    device: the word a read returns is a function of the handle, the offset
    and everything done to the device so far. *)
Variable PP : EIP76_PostProcessor_Type.
Variable K : EIP76_Constants.
Variable hw : list io_event -> Device_Handle_t -> Z -> Z.

(** Modelled from the spec: the register transport, "read/write a 32-bit
    word at a named offset on an opaque device handle", synchronous and
    without internal logic. *)
Definition EIP76_Read32 (d : Device_Handle_t) (offset : Z) : M Z :=
  fun m => let v := wrap32 (hw (trace m) d offset) in
           Done v (log (EvRead d offset v) m).

Definition EIP76_Write32 (d : Device_Handle_t) (offset value : Z) : M unit :=
  fun m => Done tt (log (EvWrite d offset value) m).

(** Modelled from the spec: the level-0 accessors of eip76_level0.h, each a
    single access to the register it names. *)
Definition EIP76_STATUS_RD d := EIP76_Read32 d (EIP76_REG_STATUS K).
Definition EIP76_CONTROL_RD d := EIP76_Read32 d (EIP76_REG_CONTROL K).
Definition EIP76_CONTROL_WR d v := EIP76_Write32 d (EIP76_REG_CONTROL K) v.
Definition EIP76_TEST_RD d := EIP76_Read32 d (EIP76_REG_TEST K).
Definition EIP76_TEST_WR d v := EIP76_Write32 d (EIP76_REG_TEST K) v.
Definition EIP76_INTACK_WR d v := EIP76_Write32 d (EIP76_REG_INTACK K) v.
Definition EIP76_BLOCKCNT_RD_BLOCKCOUNT d := EIP76_Read32 d (EIP76_REG_BLOCKCNT K).
Definition EIP76_OUTPUT_0_RD d := EIP76_Read32 d (EIP76_REG_OUTPUT_0 K).
Definition EIP76_OUTPUT_1_RD d := EIP76_Read32 d (EIP76_REG_OUTPUT_1 K).
Definition EIP76_OUTPUT_2_RD d := EIP76_Read32 d (EIP76_REG_OUTPUT_2 K).
Definition EIP76_OUTPUT_3_RD d := EIP76_Read32 d (EIP76_REG_OUTPUT_3 K).
Definition EIP76_INPUT_0_WR d v := EIP76_Write32 d (EIP76_REG_INPUT_0 K) v.
Definition EIP76_INPUT_1_WR d v := EIP76_Write32 d (EIP76_REG_INPUT_1 K) v.
Definition EIP76_INPUT_2_WR d v := EIP76_Write32 d (EIP76_REG_INPUT_2 K) v.
Definition EIP76_INPUT_3_WR d v := EIP76_Write32 d (EIP76_REG_INPUT_3 K) v.
Definition EIP76_MAINSHIFTREG_L_WR d v := EIP76_Write32 d (EIP76_REG_MAINSHIFTREG_L K) v.
Definition EIP76_MAINSHIFTREG_H_WR d v := EIP76_Write32 d (EIP76_REG_MAINSHIFTREG_H K) v.

Definition EIP76_STATUS_IS_READY (RegVal : Z) : bool :=
  negb (Z.land RegVal (EIP76_STATUS_READY K) =? 0).

(** Modelled from the spec: [EIP76_KEY_WR] of eip76_level0.h, "writes the
    fixed 8-word key block" to consecutive key registers. *)
Fixpoint EIP76_KEY_WR_from (n : nat) (i : Z) (d : Device_Handle_t)
    (Key_Data_p : buffer) : M unit :=
  match n with
  | O => ret tt
  | S n' =>
      w <- load Key_Data_p i ;;
      EIP76_Write32 d (wrap32 (EIP76_REG_KEY_0 K + i * 4)) w ;;
      EIP76_KEY_WR_from n' (i + 1) d Key_Data_p
  end.

Definition EIP76_KEY_WR d Key_Data_p (count : Z) : M unit :=
  EIP76_KEY_WR_from (Z.to_nat count) 0 d Key_Data_p.

(** Modelled from the spec: [EIP76_State_Set] of eip76_fsm.c, which
    "unconditionally overwrites [state] and returns success". *)
Definition EIP76_State_Set (NewState : EIP76_State_t) : M EIP76_Status_t :=
  fun m => Done EIP76_NO_ERROR (set_IOArea (set_State NewState (IOArea m)) m).

(** Modelled from the spec: the argument checks of eip76_internal.h, which
    leave the function with [InvalidParameter] on a null pointer or on a
    count outside its bounds. *)
Definition EIP76_CHECK_POINTER (null : bool) (k : M EIP76_Status_t) :=
  if null then ret EIP76_INVALID_PARAMETER else k.

Definition EIP76_CHECK_INT_INRANGE (i lo hi : Z) (k : M EIP76_Status_t) :=
  if (i <? lo) || (hi <? i) then ret EIP76_INVALID_PARAMETER else k.

Definition EIP76_CHECK_INT_ATMOST (i hi : Z) (k : M EIP76_Status_t) :=
  if hi <? i then ret EIP76_INVALID_PARAMETER else k.

Notation "'CHECK' c ';;' k" := (c k)
  (at level 61, c at next level, right associativity, only parsing) : eip_scope.

(** *** EIP76_Internal_PostProcessor_PS_AI_Write *)

Fixpoint PS_AI_Write_from (n : nat) (i : Z) (d : Device_Handle_t)
    (PS_AI_Data_p : buffer) : M unit :=
  match n with
  | O => ret tt
  | S n' =>
      w <- load PS_AI_Data_p i ;;
      EIP76_Write32 d (wrap32 (EIP76_REG_PS_AI_0 K + i * 4)) w ;;
      PS_AI_Write_from n' (i + 1) d PS_AI_Data_p
  end.

Definition EIP76_Internal_PostProcessor_PS_AI_Write (d : Device_Handle_t)
    (PS_AI_Data_p : buffer) (PS_AI_WordCount : Z) : M unit :=
  PS_AI_Write_from (Z.to_nat PS_AI_WordCount) 0 d PS_AI_Data_p.

(** *** EIP76Lib_PS_AI_Write *)

Definition EIP76Lib_PS_AI_Write (d : Device_Handle_t) (PS_AI_Data_p : buffer)
    (PS_AI_WordCount : Z) (Events_p : pointer) : M EIP76_Status_t :=
  RegVal <- EIP76_STATUS_RD d ;;
  store_Events Events_p (Z.land RegVal (EIP76_EVENTS_MASK K)) ;;
  if (Z.land RegVal (EIP76_STATUS_TEST_READY K) =? 0) &&
     (Z.land RegVal (EIP76_STATUS_RESEED_AI K) =? 0)
  then ret EIP76_ILLEGAL_IN_STATE
  else
    EIP76_Internal_PostProcessor_PS_AI_Write d PS_AI_Data_p PS_AI_WordCount ;;
    (if PS_AI_WordCount <? EIP76_MAX_PS_AI_WORD_COUNT K
     then EIP76_Write32 d (EIP76_REG_PS_AI_11 K) 0 else ret tt) ;;
    ret EIP76_NO_ERROR.

(** *** EIP76_PostProcessor_BlockCount_Get *)

Definition EIP76_PostProcessor_BlockCount_Get (IOArea_p BlockCount_p : pointer)
  : M EIP76_Status_t :=
  match PP with
  | EIP76_POST_PROCESSOR_NONE =>
      store_BlockCount BlockCount_p 0 ;;
      ret EIP76_NO_ERROR
  | _ =>
      CHECK EIP76_CHECK_POINTER (is_null IOArea_p) ;;
      CHECK EIP76_CHECK_POINTER (is_null BlockCount_p) ;;
      d <- get_Device ;;
      v <- EIP76_BLOCKCNT_RD_BLOCKCOUNT d ;;
      store_BlockCount BlockCount_p v ;;
      ret EIP76_NO_ERROR
  end.

(** *** EIP76_PostProcessor_IsBusy *)

Definition EIP76_PostProcessor_IsBusy (IOArea_p Events_p : pointer)
  : M EIP76_Status_t :=
  CHECK EIP76_CHECK_POINTER (is_null IOArea_p) ;;
  CHECK EIP76_CHECK_POINTER (is_null Events_p) ;;
  store_Events Events_p 0 ;;
  d <- get_Device ;;
  StatusRegVal <- EIP76_STATUS_RD d ;;
  store_Events Events_p (Z.land StatusRegVal (EIP76_EVENTS_MASK K)) ;;
  ControlRegVal <- EIP76_CONTROL_RD d ;;
  if Z.land ControlRegVal (EIP76_CONTROL_ENABLE_RESEED K) =? 0
  then EIP76_State_Set EIP76_STATE_RANDOM_GENERATING
  else ret EIP76_BUSY_RETRY_LATER.

(** *** EIP76_PostProcessor_Reseed_Start *)

(** [while ((RegVal & Mask) == 0) RegVal = EIP76_STATUS_RD(Device);] with at
    most [fuel] further reads. *)
Fixpoint Reseed_Start_wait (fuel : nat) (d : Device_Handle_t) (Mask RegVal : Z)
    {struct fuel} : M unit :=
  if Z.land RegVal Mask =? 0 then
    match fuel with
    | O => spin
    | S fuel' =>
        RegVal' <- EIP76_STATUS_RD d ;;
        Reseed_Start_wait fuel' d Mask RegVal'
    end
  else ret tt.

Definition EIP76_PostProcessor_Reseed_Start (fuel : nat)
    (IOArea_p Events_p : pointer) : M EIP76_Status_t :=
  let Mask := match PP with
              | EIP76_POST_PROCESSOR_BC_DF => EIP76_STATUS_RESEED_AI K
              | _ => EIP76_STATUS_TEST_READY K
              end in
  CHECK EIP76_CHECK_POINTER (is_null IOArea_p) ;;
  CHECK EIP76_CHECK_POINTER (is_null Events_p) ;;
  store_Events Events_p 0 ;;
  rv <- EIP76_State_Set EIP76_STATE_SP80090_RESEED_START ;;
  match rv with
  | EIP76_NO_ERROR =>
      d <- get_Device ;;
      RegVal <- EIP76_STATUS_RD d ;;
      store_Events Events_p (Z.land RegVal (EIP76_EVENTS_MASK K)) ;;
      printf 231 ;;
      EIP76_Write32 None (EIP76_REG_CONTROL K) 0x10000 ;;
      printf 233 ;;
      EIP76_CONTROL_WR d (EIP76_CONTROL_ENABLE_RESEED K) ;;
      RegVal <- EIP76_STATUS_RD d ;;
      Reseed_Start_wait fuel d Mask RegVal ;;
      EIP76_State_Set EIP76_STATE_SP80090_RESEED_READY
  | _ => ret rv
  end.

(** *** EIP76_PostProcessor_Reseed_Write *)

(** [while ((EIP76_Read32(NULL, EIP76_REG_CONTROL) & 0x00008000) != 0) ;]
    with at most [fuel] reads. *)
Fixpoint Reseed_Write_wait (fuel : nat) : M unit :=
  match fuel with
  | O => spin
  | S fuel' =>
      v <- EIP76_Read32 None (EIP76_REG_CONTROL K) ;;
      if Z.land v 0x00008000 =? 0 then ret tt else Reseed_Write_wait fuel'
  end.

Definition EIP76_PostProcessor_Reseed_Write (fuel : nat) (IOArea_p : pointer)
    (PS_AI_Data_p : buffer) (PS_AI_WordCount : Z) (Events_p : pointer)
  : M EIP76_Status_t :=
  CHECK EIP76_CHECK_POINTER (is_null IOArea_p) ;;
  CHECK EIP76_CHECK_POINTER (buffer_is_null PS_AI_Data_p) ;;
  CHECK EIP76_CHECK_INT_INRANGE PS_AI_WordCount
        (EIP76_MIN_PS_AI_WORD_COUNT K) (EIP76_MAX_PS_AI_WORD_COUNT K) ;;
  CHECK EIP76_CHECK_POINTER (is_null Events_p) ;;
  store_Events Events_p 0 ;;
  d <- get_Device ;;
  rv <- EIP76Lib_PS_AI_Write d PS_AI_Data_p PS_AI_WordCount Events_p ;;
  match rv with
  | EIP76_NO_ERROR =>
      printf 292 ;;
      Reseed_Write_wait fuel ;;
      printf 296 ;;
      rv <- EIP76_State_Set EIP76_STATE_SP80090_RESEED_WRITING ;;
      match rv with
      | EIP76_NO_ERROR => ret EIP76_NO_ERROR
      | _ => ret rv
      end
  | _ => ret rv
  end.

(** *** EIP76_PostProcessor_NIST_Write *)

Definition EIP76_PostProcessor_NIST_Write (IOArea_p : pointer)
    (PS_AI_Data_p : buffer) (PS_AI_WordCount VectorType : Z)
    (Events_p : pointer) : M EIP76_Status_t :=
  CHECK EIP76_CHECK_POINTER (is_null IOArea_p) ;;
  CHECK EIP76_CHECK_POINTER (buffer_is_null PS_AI_Data_p) ;;
  CHECK EIP76_CHECK_INT_INRANGE PS_AI_WordCount
        (EIP76_MIN_PS_AI_WORD_COUNT K) (EIP76_MAX_PS_AI_WORD_COUNT K) ;;
  CHECK EIP76_CHECK_POINTER (is_null Events_p) ;;
  store_Events Events_p 0 ;;
  d <- get_Device ;;
  (if negb (VectorType =? 0) then
     EIP76_OUTPUT_0_RD d ;;
     EIP76_OUTPUT_1_RD d ;;
     EIP76_OUTPUT_2_RD d ;;
     EIP76_OUTPUT_3_RD d ;;
     ret tt
   else ret tt) ;;
  rv <- EIP76Lib_PS_AI_Write d PS_AI_Data_p PS_AI_WordCount Events_p ;;
  match rv with
  | EIP76_NO_ERROR => EIP76_State_Set EIP76_STATE_KAT_SP80090_PROCESSING
  | _ => ret rv
  end.

(** *** EIP76_PostProcessor_PS_AI_Write *)

Definition EIP76_PostProcessor_PS_AI_Write (IOArea_p : pointer)
    (PS_AI_Data_p : buffer) (PS_AI_WordCount : Z) (Events_p : pointer)
  : M EIP76_Status_t :=
  CHECK EIP76_CHECK_POINTER (is_null IOArea_p) ;;
  CHECK EIP76_CHECK_POINTER (buffer_is_null PS_AI_Data_p) ;;
  CHECK EIP76_CHECK_INT_INRANGE PS_AI_WordCount
        (EIP76_MIN_PS_AI_WORD_COUNT K) (EIP76_MAX_PS_AI_WORD_COUNT K) ;;
  CHECK EIP76_CHECK_POINTER (is_null Events_p) ;;
  d <- get_Device ;;
  RegVal <- EIP76_STATUS_RD d ;;
  store_Events Events_p (Z.land RegVal (EIP76_EVENTS_MASK K)) ;;
  EIP76_Internal_PostProcessor_PS_AI_Write d PS_AI_Data_p PS_AI_WordCount ;;
  (if PS_AI_WordCount <? EIP76_MAX_PS_AI_WORD_COUNT K
   then EIP76_Write32 d (EIP76_REG_PS_AI_11 K) 0 else ret tt) ;;
  EIP76_State_Set EIP76_STATE_RANDOM_GENERATING.

(** *** EIP76_PostProcessor_Key_Write *)

Definition EIP76_PostProcessor_Key_Write (IOArea_p : pointer)
    (Key_Data_p : buffer) : M EIP76_Status_t :=
  CHECK EIP76_CHECK_POINTER (is_null IOArea_p) ;;
  CHECK EIP76_CHECK_POINTER (buffer_is_null Key_Data_p) ;;
  d <- get_Device ;;
  EIP76_KEY_WR d Key_Data_p 8 ;;
  ret EIP76_NO_ERROR.

(** *** EIP76_PostProcessor_Input_Write *)

Definition EIP76_PostProcessor_Input_Write (IOArea_p : pointer)
    (Input_Data_p : buffer) (Events_p : pointer) : M EIP76_Status_t :=
  CHECK EIP76_CHECK_POINTER (is_null IOArea_p) ;;
  CHECK EIP76_CHECK_POINTER (is_null Events_p) ;;
  CHECK EIP76_CHECK_POINTER (buffer_is_null Input_Data_p) ;;
  store_Events Events_p 0 ;;
  d <- get_Device ;;
  StatusRegVal <- EIP76_STATUS_RD d ;;
  store_Events Events_p (Z.land StatusRegVal (EIP76_EVENTS_MASK K)) ;;
  w0 <- load Input_Data_p 0 ;; EIP76_INPUT_0_WR d w0 ;;
  w1 <- load Input_Data_p 1 ;; EIP76_INPUT_1_WR d w1 ;;
  w2 <- load Input_Data_p 2 ;; EIP76_INPUT_2_WR d w2 ;;
  w3 <- load Input_Data_p 3 ;; EIP76_INPUT_3_WR d w3 ;;
  EIP76_State_Set EIP76_STATE_KAT_SP80090_PROCESSING.

(** *** EIP76_PostProcessor_Result_Read *)

Definition EIP76_TEST_ALL : Z :=
  Z.lor (Z.lor (EIP76_TEST_POST_PROC K) (EIP76_TEST_SP_800_90 K))
        (EIP76_TEST_KNOWN_NOISE K).

Definition EIP76_PostProcessor_Result_Read (IOArea_p Output_Data_p
    Events_p : pointer) : M EIP76_Status_t :=
  CHECK EIP76_CHECK_POINTER (is_null IOArea_p) ;;
  CHECK EIP76_CHECK_POINTER (is_null Events_p) ;;
  CHECK EIP76_CHECK_POINTER (is_null Output_Data_p) ;;
  store_Events Events_p 0 ;;
  d <- get_Device ;;
  RegVal <- EIP76_STATUS_RD d ;;
  store_Events Events_p (Z.land RegVal (EIP76_EVENTS_MASK K)) ;;
  if Z.land RegVal (EIP76_STATUS_TEST_READY K) =? 0
  then ret EIP76_ILLEGAL_IN_STATE
  else
    v0 <- EIP76_OUTPUT_0_RD d ;; store_Data Output_Data_p 0 v0 ;;
    v1 <- EIP76_OUTPUT_1_RD d ;; store_Data Output_Data_p 1 v1 ;;
    v2 <- EIP76_OUTPUT_2_RD d ;; store_Data Output_Data_p 2 v2 ;;
    v3 <- EIP76_OUTPUT_3_RD d ;; store_Data Output_Data_p 3 v3 ;;
    RegVal <- EIP76_TEST_RD d ;;
    EIP76_TEST_WR d (Z.land RegVal (not32 EIP76_TEST_ALL)) ;;
    sc <- get_SavedControl ;;
    EIP76_CONTROL_WR d sc ;;
    EIP76_State_Set EIP76_STATE_RANDOM_GENERATING.

(** *** EIP76_PostProcessor_IsReady *)

Definition EIP76_PostProcessor_IsReady (IOArea_p Events_p : pointer)
  : M EIP76_Status_t :=
  CHECK EIP76_CHECK_POINTER (is_null IOArea_p) ;;
  CHECK EIP76_CHECK_POINTER (is_null Events_p) ;;
  store_Events Events_p 0 ;;
  d <- get_Device ;;
  StatusRegVal <- EIP76_STATUS_RD d ;;
  store_Events Events_p (Z.land StatusRegVal (EIP76_EVENTS_MASK K)) ;;
  match PP with
  | EIP76_POST_PROCESSOR_BC_DF =>
      if negb (Z.land StatusRegVal (EIP76_STATUS_RESEED_AI K) =? 0)
      then EIP76_State_Set EIP76_STATE_SP80090_RESEED_READY
      else ret EIP76_BUSY_RETRY_LATER
  | _ =>
      if negb (Z.land StatusRegVal (EIP76_STATUS_TEST_READY K) =? 0)
      then EIP76_State_Set EIP76_STATE_RANDOM_GENERATING
      else ret EIP76_BUSY_RETRY_LATER
  end.

(** *** The BC_DF operations
    (compiled when [EIP76_POST_PROCESSOR_TYPE == EIP76_POST_PROCESSOR_BC_DF];
    [Index] is an unsigned 32-bit field) *)

Definition EIP76_PostProcessor_BCDF_PS_AI_Write (IOArea_p : pointer)
    (PS_AI_Data_p : buffer) (PS_AI_WordCount : Z) (Events_p : pointer)
  : M EIP76_Status_t :=
  CHECK EIP76_CHECK_POINTER (is_null IOArea_p) ;;
  CHECK EIP76_CHECK_POINTER (buffer_is_null PS_AI_Data_p) ;;
  CHECK EIP76_CHECK_INT_INRANGE PS_AI_WordCount
        (EIP76_MAX_PS_AI_WORD_COUNT K) (EIP76_MAX_PS_AI_WORD_COUNT K) ;;
  CHECK EIP76_CHECK_POINTER (is_null Events_p) ;;
  d <- get_Device ;;
  RegVal <- EIP76_STATUS_RD d ;;
  store_Events Events_p (Z.land RegVal (EIP76_EVENTS_MASK K)) ;;
  EIP76_Internal_PostProcessor_PS_AI_Write d PS_AI_Data_p PS_AI_WordCount ;;
  put_Index 0 ;;
  EIP76_State_Set EIP76_STATE_KAT_SP80090_BCDF_RESEEDED.

(** [((x & 0x7FFFFFFF) << 1) | ((y >> 31) & 0x00000001)] on 32-bit words. *)
Definition BCDF_Noise_Pack (x y : Z) : Z :=
  Z.lor (wrap32 (Z.shiftl (Z.land x 0x7FFFFFFF) 1))
        (Z.land (Z.shiftr y 31) 0x00000001).

Definition EIP76_PostProcessor_BCDF_Noise_Write (IOArea_p : pointer)
    (Noise_Data : buffer) (Noise_Count : Z) : M EIP76_Status_t :=
  CHECK EIP76_CHECK_POINTER (is_null IOArea_p) ;;
  d <- get_Device ;;
  i <- get_Index ;;
  a <- load Noise_Data i ;;
  b <- load Noise_Data (wrap32 (i + 1)) ;;
  EIP76_MAINSHIFTREG_L_WR d (BCDF_Noise_Pack a b) ;;
  b <- load Noise_Data (wrap32 (i + 1)) ;;
  a <- load Noise_Data i ;;
  EIP76_MAINSHIFTREG_H_WR d (BCDF_Noise_Pack b a) ;;
  put_Index (wrap32 (i + 2)) ;;
  i <- get_Index ;;
  (if Noise_Count <=? i then put_Index 0 else ret tt) ;;
  EIP76_State_Set EIP76_STATE_KAT_SP80090_BCDF_NOISE.

Definition EIP76_PostProcessor_BCDF_Status_Get (IOArea_p Events_p : pointer)
  : M EIP76_Status_t :=
  CHECK EIP76_CHECK_POINTER (is_null IOArea_p) ;;
  CHECK EIP76_CHECK_POINTER (is_null Events_p) ;;
  d <- get_Device ;;
  StatusRegVal <- EIP76_STATUS_RD d ;;
  store_Events Events_p (Z.land StatusRegVal (EIP76_EVENTS_MASK K)) ;;
  if negb (Z.land StatusRegVal (EIP76_STATUS_TEST_READY K) =? 0) then
    i <- get_Index ;;
    if negb (i =? 0) then
      rv <- EIP76_State_Set EIP76_STATE_KAT_SP80090_BCDF_RESEEDED ;;
      match rv with
      | EIP76_NO_ERROR => ret EIP76_PROCESSING
      | _ => ret rv
      end
    else EIP76_State_Set EIP76_STATE_KAT_SP80090_BCDF_READY
  else
    rv <- EIP76_State_Set EIP76_STATE_KAT_SP80090_BCDF_NOISE ;;
    match rv with
    | EIP76_NO_ERROR => ret EIP76_BUSY_RETRY_LATER
    | _ => ret rv
    end.

Definition EIP76_PostProcessor_BCDF_Generate_Start (IOArea_p : pointer)
    (WordCount : Z) (Events_p : pointer) : M EIP76_Status_t :=
  CHECK EIP76_CHECK_POINTER (is_null IOArea_p) ;;
  d <- get_Device ;;
  ControlValue <- EIP76_CONTROL_RD d ;;
  if negb (Z.land (Z.shiftr ControlValue 20) MASK_12_BITS =? 0)
  then ret EIP76_BUSY_RETRY_LATER
  else
    let ReqBlkCnt := wrap32 (WordCount + 3) / 4 in
    StatusValue <- EIP76_STATUS_RD d ;;
    store_Events Events_p (Z.land StatusValue (EIP76_EVENTS_MASK K)) ;;
    let AvailBlkCnt :=
      wrap32 (Z.land StatusValue MASK_1_BIT +
              Z.land (Z.shiftr StatusValue 16) MASK_8_BITS) in
    (* the check inside the [if] can leave the function, so the closing
       [EIP76_State_Set] is written at the end of both branches *)
    (if AvailBlkCnt <? ReqBlkCnt then
       CHECK EIP76_CHECK_INT_ATMOST (wrap32 (ReqBlkCnt - AvailBlkCnt))
             (EIP76_REQUEST_DATA_MAX_BLK_COUNT K) ;;
       let WriteValue :=
         Z.lor (EIP76_REQUEST_DATA K)
               (wrap32 (Z.shiftl
                  (Z.land (wrap32 (ReqBlkCnt - AvailBlkCnt)) MASK_12_BITS) 20)) in
       EIP76_CONTROL_WR d WriteValue ;;
       EIP76_State_Set EIP76_STATE_KAT_SP80090_BCDF_PROCESSING
     else
       EIP76_State_Set EIP76_STATE_KAT_SP80090_BCDF_PROCESSING).

(** The tail shared by the paths of [EIP76_PostProcessor_BCDF_Result_Read]
    that fall out of the [if]: "stay in current state". *)
Definition BCDF_Result_Read_stay : M EIP76_Status_t :=
  rv <- EIP76_State_Set EIP76_STATE_KAT_SP80090_BCDF_PROCESSING ;;
  match rv with
  | EIP76_NO_ERROR => ret EIP76_BUSY_RETRY_LATER
  | _ => ret rv
  end.

Definition EIP76_PostProcessor_BCDF_Result_Read (IOArea_p Events_p
    Data_p : pointer) (Data_WordCount : Z) : M EIP76_Status_t :=
  CHECK EIP76_CHECK_POINTER (is_null IOArea_p) ;;
  CHECK EIP76_CHECK_POINTER (is_null Events_p) ;;
  CHECK EIP76_CHECK_INT_ATMOST Data_WordCount MASK_31_BITS ;;
  d <- get_Device ;;
  RegVal <- EIP76_STATUS_RD d ;;
  store_Events Events_p (Z.land RegVal (EIP76_EVENTS_MASK K)) ;;
  if EIP76_STATUS_IS_READY RegVal then
    i <- get_Index ;;
    v0 <- EIP76_OUTPUT_0_RD d ;; store_Data Data_p (wrap32 (i + 0)) v0 ;;
    v1 <- EIP76_OUTPUT_1_RD d ;; store_Data Data_p (wrap32 (i + 1)) v1 ;;
    v2 <- EIP76_OUTPUT_2_RD d ;; store_Data Data_p (wrap32 (i + 2)) v2 ;;
    v3 <- EIP76_OUTPUT_3_RD d ;; store_Data Data_p (wrap32 (i + 3)) v3 ;;
    put_Index (wrap32 (i + 4)) ;;
    EIP76_INTACK_WR d (CLEAR_READY_BIT K) ;;
    i <- get_Index ;;
    if Data_WordCount <=? i then
      put_Index 0 ;;
      f <- get_Flag ;;
      if f then
        RegVal <- EIP76_TEST_RD d ;;
        EIP76_TEST_WR d (Z.land RegVal (not32 EIP76_TEST_ALL)) ;;
        sc <- get_SavedControl ;;
        EIP76_CONTROL_WR d sc ;;
        put_Flag false ;;
        rv <- EIP76_State_Set EIP76_STATE_RANDOM_GENERATING ;;
        match rv with
        | EIP76_NO_ERROR => EIP76_State_Set EIP76_STATE_SP80090_RESEED_START
        | _ => ret rv
        end
      else
        rv <- EIP76_State_Set EIP76_STATE_KAT_START ;;
        match rv with
        | EIP76_NO_ERROR =>
            put_Flag true ;;
            EIP76_CONTROL_WR d (EIP76_CONTROL_ENABLE_RESEED K) ;;
            ret EIP76_PROCESSING
        | _ => ret rv
        end
    else BCDF_Result_Read_stay
  else BCDF_Result_Read_stay.

(** ** Calls of the public interface *)

Inductive call : Type :=
| BlockCount_Get (IOArea_p BlockCount_p : pointer)
| IsBusy (IOArea_p Events_p : pointer)
| Reseed_Start (IOArea_p Events_p : pointer)
| Reseed_Write (IOArea_p : pointer) (PS_AI_Data_p : buffer)
    (PS_AI_WordCount : Z) (Events_p : pointer)
| NIST_Write (IOArea_p : pointer) (PS_AI_Data_p : buffer)
    (PS_AI_WordCount VectorType : Z) (Events_p : pointer)
| PS_AI_Write (IOArea_p : pointer) (PS_AI_Data_p : buffer)
    (PS_AI_WordCount : Z) (Events_p : pointer)
| Key_Write (IOArea_p : pointer) (Key_Data_p : buffer)
| Input_Write (IOArea_p : pointer) (Input_Data_p : buffer) (Events_p : pointer)
| Result_Read (IOArea_p Output_Data_p Events_p : pointer)
| IsReady (IOArea_p Events_p : pointer)
| BCDF_PS_AI_Write (IOArea_p : pointer) (PS_AI_Data_p : buffer)
    (PS_AI_WordCount : Z) (Events_p : pointer)
| BCDF_Noise_Write (IOArea_p : pointer) (Noise_Data : buffer) (Noise_Count : Z)
| BCDF_Status_Get (IOArea_p Events_p : pointer)
| BCDF_Generate_Start (IOArea_p : pointer) (WordCount : Z) (Events_p : pointer)
| BCDF_Result_Read (IOArea_p Events_p Data_p : pointer) (Data_WordCount : Z).

(** One call of the interface; [fuel] bounds the two busy-wait loops. *)
Definition run (fuel : nat) (c : call) : M EIP76_Status_t :=
  match c with
  | BlockCount_Get a b => EIP76_PostProcessor_BlockCount_Get a b
  | IsBusy a e => EIP76_PostProcessor_IsBusy a e
  | Reseed_Start a e => EIP76_PostProcessor_Reseed_Start fuel a e
  | Reseed_Write a p n e => EIP76_PostProcessor_Reseed_Write fuel a p n e
  | NIST_Write a p n v e => EIP76_PostProcessor_NIST_Write a p n v e
  | PS_AI_Write a p n e => EIP76_PostProcessor_PS_AI_Write a p n e
  | Key_Write a k => EIP76_PostProcessor_Key_Write a k
  | Input_Write a p e => EIP76_PostProcessor_Input_Write a p e
  | Result_Read a o e => EIP76_PostProcessor_Result_Read a o e
  | IsReady a e => EIP76_PostProcessor_IsReady a e
  | BCDF_PS_AI_Write a p n e => EIP76_PostProcessor_BCDF_PS_AI_Write a p n e
  | BCDF_Noise_Write a p n => EIP76_PostProcessor_BCDF_Noise_Write a p n
  | BCDF_Status_Get a e => EIP76_PostProcessor_BCDF_Status_Get a e
  | BCDF_Generate_Start a n e => EIP76_PostProcessor_BCDF_Generate_Start a n e
  | BCDF_Result_Read a e p n => EIP76_PostProcessor_BCDF_Result_Read a e p n
  end.

(** ** Vocabulary for the statements *)

(** The words the device returns for the next read of the status and of the
    control register. *)
Definition next_status (m : machine) : Z :=
  wrap32 (hw (trace m) (Device (IOArea m)) (EIP76_REG_STATUS K)).

Definition next_control (m : machine) : Z :=
  wrap32 (hw (trace m) (Device (IOArea m)) (EIP76_REG_CONTROL K)).

(** The status word [s] asserts neither test-ready nor reseed-AI-ready. *)
Definition no_PS_AI_ready (s : Z) : Prop :=
  Z.land s (EIP76_STATUS_TEST_READY K) = 0 /\
  Z.land s (EIP76_STATUS_RESEED_AI K) = 0.

(** The reads of the four output registers made through [d] after the
    accesses [t], with the words the device returns for them. *)
Definition output_reads (d : Device_Handle_t) (t : list io_event)
  : list io_event :=
  let e0 := EvRead d (EIP76_REG_OUTPUT_0 K)
              (wrap32 (hw t d (EIP76_REG_OUTPUT_0 K))) in
  let e1 := EvRead d (EIP76_REG_OUTPUT_1 K)
              (wrap32 (hw (t ++ [e0]) d (EIP76_REG_OUTPUT_1 K))) in
  let e2 := EvRead d (EIP76_REG_OUTPUT_2 K)
              (wrap32 (hw (t ++ [e0; e1]) d (EIP76_REG_OUTPUT_2 K))) in
  let e3 := EvRead d (EIP76_REG_OUTPUT_3 K)
              (wrap32 (hw (t ++ [e0; e1; e2]) d (EIP76_REG_OUTPUT_3 K))) in
  [e0; e1; e2; e3].

(** The register writes that load [ws] into the PS/AI slots [i], [i+1], ... *)
Fixpoint PS_AI_events (d : Device_Handle_t) (i : Z) (ws : list Z)
  : list io_event :=
  match ws with
  | [] => []
  | w :: ws' =>
      EvWrite d (wrap32 (EIP76_REG_PS_AI_0 K + i * 4)) w
      :: PS_AI_events d (i + 1) ws'
  end.

(** The buffer and word count of a call that writes the PS/AI registers. *)
Definition PS_AI_args (c : call) : option (buffer * Z) :=
  match c with
  | Reseed_Write _ p n _ | NIST_Write _ p n _ _ | PS_AI_Write _ p n _
  | BCDF_PS_AI_Write _ p n _ => Some (p, n)
  | _ => None
  end.

(** The caller's output buffer has the four words at [Index .. Index+3]. *)
Definition room (m : machine) : Prop :=
  Forall (fun k => wrap32 (Index (IOArea m) + k) < Z.of_nat (length (Data m)))
         [0; 1; 2; 3].

(** A call of [EIP76_PostProcessor_BCDF_Result_Read] is a full completion
    when it passes the argument checks, finds the status ready and the block
    it reads takes [Index] to the requested word count. *)
Definition completes (c : call) (m : machine) : Prop :=
  match c with
  | BCDF_Result_Read PTR PTR _ n =>
      n <= MASK_31_BITS /\
      EIP76_STATUS_IS_READY (next_status m) = true /\
      n <= wrap32 (Index (IOArea m) + 4)
  | _ => False
  end.

(** Any number of returning calls none of which is a full completion. *)
Inductive quiet_run (fuel : nat) : machine -> machine -> Prop :=
| quiet_nil m : quiet_run fuel m m
| quiet_cons c st m m1 m2 :
    run fuel c m = Done st m1 ->
    ~ completes c m ->
    quiet_run fuel m1 m2 ->
    quiet_run fuel m m2.

(** Some argument of the call fails the validation the specification
    describes: a null pointer or a word count outside its bounds. *)
Definition in_range (n lo hi : Z) : bool := (lo <=? n) && (n <=? hi).

Definition invalid_args (c : call) : bool :=
  match c with
  | BlockCount_Get a b => is_null a || is_null b
  | IsBusy a e | Reseed_Start a e | IsReady a e | BCDF_Status_Get a e =>
      is_null a || is_null e
  | Reseed_Write a p n e | NIST_Write a p n _ e | PS_AI_Write a p n e =>
      is_null a || buffer_is_null p || is_null e ||
      negb (in_range n (EIP76_MIN_PS_AI_WORD_COUNT K) (EIP76_MAX_PS_AI_WORD_COUNT K))
  | BCDF_PS_AI_Write a p n e =>
      is_null a || buffer_is_null p || is_null e ||
      negb (in_range n (EIP76_MAX_PS_AI_WORD_COUNT K) (EIP76_MAX_PS_AI_WORD_COUNT K))
  | Key_Write a k => is_null a || buffer_is_null k
  | Input_Write a p e => is_null a || buffer_is_null p || is_null e
  | Result_Read a o e => is_null a || is_null o || is_null e
  | BCDF_Noise_Write a p _ => is_null a || buffer_is_null p
  | BCDF_Generate_Start a _ e => is_null a || is_null e
  | BCDF_Result_Read a e p n =>
      is_null a || is_null e || is_null p || negb (n <=? MASK_31_BITS)
  end.

(** The calls whose function checks every argument [invalid_args] looks
    at. *)
Definition checks_all_args (c : call) : bool :=
  match c with
  | BlockCount_Get _ _ =>
      match PP with EIP76_POST_PROCESSOR_NONE => false | _ => true end
  | BCDF_Noise_Write _ _ _ | BCDF_Generate_Start _ _ _
  | BCDF_Result_Read _ _ _ _ => false
  | _ => true
  end.

End Driver.

Definition add_trace (t : list io_event) (m : machine) : machine :=
  mkMachine (IOArea m) (Events m) (BlockCount m) (Data m) (trace m ++ t).

(** The output buffer after a ready
    [EIP76_PostProcessor_BCDF_Result_Read] has stored its block at [i]. *)
Definition stored (dat : list Z) (i v0 v1 v2 v3 : Z) : list Z :=
  list_set (list_set (list_set (list_set dat
    (Z.to_nat (wrap32 (i + 0))) v0)
    (Z.to_nat (wrap32 (i + 1))) v1)
    (Z.to_nat (wrap32 (i + 2))) v2)
    (Z.to_nat (wrap32 (i + 3))) v3.

(** [v] is the word the device returns for a read of [offset] after the
    accesses [t]. *)
Definition read_of (hw : list io_event -> Device_Handle_t -> Z -> Z)
    (t : list io_event) (d : Device_Handle_t) (offset v : Z) : Prop :=
  v = wrap32 (hw t d offset).

Definition writes_of (t : list io_event) : list io_event := filter is_write t.

(** Modelled from the spec: a register map with the layout of the spec's
    section 6 (twelve PS/AI slots, the outstanding-block field in bits 20-31
    of the control register, status bit 0 for a block in the output
    registers); the offsets and bit positions the spec leaves open are
    representative.  It serves to run the module on concrete inputs. *)
Definition EIP76_Example_Constants : EIP76_Constants :=
  {| EIP76_REG_STATUS := 0x10; EIP76_REG_INTACK := 0x10;
     EIP76_REG_CONTROL := 0x14; EIP76_REG_TEST := 0x70;
     EIP76_REG_BLOCKCNT := 0x74;
     EIP76_REG_OUTPUT_0 := 0x00; EIP76_REG_OUTPUT_1 := 0x04;
     EIP76_REG_OUTPUT_2 := 0x08; EIP76_REG_OUTPUT_3 := 0x0C;
     EIP76_REG_INPUT_0 := 0x00; EIP76_REG_INPUT_1 := 0x04;
     EIP76_REG_INPUT_2 := 0x08; EIP76_REG_INPUT_3 := 0x0C;
     EIP76_REG_KEY_0 := 0x40;
     EIP76_REG_PS_AI_0 := 0x40; EIP76_REG_PS_AI_11 := 0x6C;
     EIP76_REG_MAINSHIFTREG_L := 0x30; EIP76_REG_MAINSHIFTREG_H := 0x34;
     EIP76_EVENTS_MASK := 0xFE;
     EIP76_STATUS_READY := 0x1;
     EIP76_STATUS_TEST_READY := 0x100;
     EIP76_STATUS_RESEED_AI := 0x400;
     EIP76_CONTROL_ENABLE_RESEED := 0x8000;
     EIP76_REQUEST_DATA := 0x10000;
     EIP76_TEST_POST_PROC := 0x20;
     EIP76_TEST_SP_800_90 := 0x80;
     EIP76_TEST_KNOWN_NOISE := 0x40;
     CLEAR_READY_BIT := 0x1;
     EIP76_MIN_PS_AI_WORD_COUNT := 1;
     EIP76_MAX_PS_AI_WORD_COUNT := 12;
     EIP76_REQUEST_DATA_MAX_BLK_COUNT := 4095 |}.

(** A device that answers every read with the same word. *)
Definition hw_const (v : Z) : list io_event -> Device_Handle_t -> Z -> Z :=
  fun _ _ _ => v.

Definition example_IOArea (s : EIP76_State_t) (i : Z) (f : bool)
  : EIP76_True_IOArea_t :=
  mkIOArea (Some O) s 0x5A i f.

Definition example_machine (s : EIP76_State_t) (i : Z) (f : bool)
    (data : list Z) : machine :=
  mkMachine (example_IOArea s i f) 0 0 data [].

(** ** Vocabulary for whole calls and for sequences of calls *)

Section Vocabulary.

Variable PP : EIP76_PostProcessor_Type.
Variable K : EIP76_Constants.
Variable hw : list io_event -> Device_Handle_t -> Z -> Z.

(** A register access made through handle [d]. *)
Definition on_device (d : Device_Handle_t) (e : io_event) : Prop :=
  match e with
  | EvRead d' _ _ | EvWrite d' _ _ => d' = d
  | EvPrintf _ => False
  end.

(** A register access made through handle [d], an access to the control
    register made through the null handle, or a line printed. *)
Definition on_device_or_null (d : Device_Handle_t) (e : io_event) : Prop :=
  match e with
  | EvRead d' offset _ | EvWrite d' offset _ =>
      d' = d \/ (d' = None /\ offset = EIP76_REG_CONTROL K)
  | EvPrintf _ => True
  end.

(** The state a call leaves behind when it returns status [st] from state
    [s]; [None] where the call never returns that status. *)
Definition state_after (c : call) (st : EIP76_Status_t) (s : EIP76_State_t)
  : option EIP76_State_t :=
  match st with
  | EIP76_INVALID_PARAMETER =>
      match c, PP with
      | BlockCount_Get _ _, EIP76_POST_PROCESSOR_NONE => None
      | _, _ => Some s
      end
  | EIP76_ILLEGAL_IN_STATE =>
      match c with
      | Reseed_Write _ _ _ _ | NIST_Write _ _ _ _ _ | Result_Read _ _ _ =>
          Some s
      | _ => None
      end
  | EIP76_BUSY_RETRY_LATER =>
      match c with
      | IsBusy _ _ | IsReady _ _ | BCDF_Generate_Start _ _ _ => Some s
      | BCDF_Status_Get _ _ => Some EIP76_STATE_KAT_SP80090_BCDF_NOISE
      | BCDF_Result_Read _ _ _ _ =>
          Some EIP76_STATE_KAT_SP80090_BCDF_PROCESSING
      | _ => None
      end
  | EIP76_PROCESSING =>
      match c with
      | BCDF_Status_Get _ _ => Some EIP76_STATE_KAT_SP80090_BCDF_RESEEDED
      | BCDF_Result_Read _ _ _ _ => Some EIP76_STATE_KAT_START
      | _ => None
      end
  | EIP76_NO_ERROR =>
      match c with
      | BlockCount_Get _ _ | Key_Write _ _ => Some s
      | IsBusy _ _ | PS_AI_Write _ _ _ _ | Result_Read _ _ _ =>
          Some EIP76_STATE_RANDOM_GENERATING
      | Reseed_Start _ _ => Some EIP76_STATE_SP80090_RESEED_READY
      | Reseed_Write _ _ _ _ => Some EIP76_STATE_SP80090_RESEED_WRITING
      | NIST_Write _ _ _ _ _ | Input_Write _ _ _ =>
          Some EIP76_STATE_KAT_SP80090_PROCESSING
      | IsReady _ _ =>
          Some match PP with
               | EIP76_POST_PROCESSOR_BC_DF => EIP76_STATE_SP80090_RESEED_READY
               | _ => EIP76_STATE_RANDOM_GENERATING
               end
      | BCDF_PS_AI_Write _ _ _ _ => Some EIP76_STATE_KAT_SP80090_BCDF_RESEEDED
      | BCDF_Noise_Write _ _ _ => Some EIP76_STATE_KAT_SP80090_BCDF_NOISE
      | BCDF_Status_Get _ _ => Some EIP76_STATE_KAT_SP80090_BCDF_READY
      | BCDF_Generate_Start _ _ _ =>
          Some EIP76_STATE_KAT_SP80090_BCDF_PROCESSING
      | BCDF_Result_Read _ _ _ _ => Some EIP76_STATE_SP80090_RESEED_START
      end
  end.

(** Calls made one after the other, their statuses collected; a fault or a
    wait that is still spinning ends the sequence. *)
Fixpoint run_all (fuel : nat) (cs : list call) : M (list EIP76_Status_t) :=
  match cs with
  | [] => ret []
  | c :: cs' =>
      st <- run PP K hw fuel c ;;
      sts <- run_all fuel cs' ;;
      ret (st :: sts)
  end.

(** The shift-register writes that feed the samples of [l], two by two. *)
Fixpoint noise_events (d : Device_Handle_t) (l : list Z) : list io_event :=
  match l with
  | a :: b :: l' =>
      EvWrite d (EIP76_REG_MAINSHIFTREG_L K) (BCDF_Noise_Pack a b)
      :: EvWrite d (EIP76_REG_MAINSHIFTREG_H K) (BCDF_Noise_Pack b a)
      :: noise_events d l'
  | _ => []
  end.

(** The device shows a block ready at every read of the status register of
    handle [d]. *)
Definition always_ready (d : Device_Handle_t) : Prop :=
  forall t, EIP76_STATUS_IS_READY K (wrap32 (hw t d (EIP76_REG_STATUS K))) = true.

End Vocabulary.

(** The machine a run ends in, whichever way it ends. *)
Definition machine_of {A} (r : result A) : machine :=
  match r with Done _ m | Fault m | Spin m => m end.

(** From a machine whose I/O area holds handle [d], the computation [c]
    keeps the handle and only adds events that satisfy [P d], however it
    ends. *)
Definition confined {A} (P : Device_Handle_t -> io_event -> Prop)
    (d : Device_Handle_t) (c : M A) : Prop :=
  forall m, Device (IOArea m) = d ->
    Device (IOArea (machine_of (c m))) = d /\
    exists t, trace (machine_of (c m)) = trace m ++ t /\ Forall (P d) t.

Section Waits.

Variable PP : EIP76_PostProcessor_Type.
Variable K : EIP76_Constants.

(** The status bit [EIP76_PostProcessor_Reseed_Start] waits for: its local
    [Mask]. *)
Definition Reseed_Start_Mask : Z :=
  match PP with
  | EIP76_POST_PROCESSOR_BC_DF => EIP76_STATUS_RESEED_AI K
  | _ => EIP76_STATUS_TEST_READY K
  end.

(** A read of the status register through [d] that shows none of the bits
    of [Mask]. *)
Definition idle_poll (d : Device_Handle_t) (Mask : Z) (e : io_event) : Prop :=
  exists s, e = EvRead d (EIP76_REG_STATUS K) s /\ Z.land s Mask = 0.

(** A read of the control register through the null handle that shows bit
    15 set. *)
Definition busy_poll (e : io_event) : Prop :=
  exists v, e = EvRead None (EIP76_REG_CONTROL K) v /\ Z.land v 0x00008000 <> 0.

End Waits.

(** A device that answers every read with 0 until [n] accesses have been
    made, and with [v] from then on. *)
Definition hw_after (n : nat) (v : Z) : list io_event -> Device_Handle_t -> Z -> Z :=
  fun t _ _ => if (length t <? n)%nat then 0 else v.

(** The event word of [m'] is the masked word of a status read that the run
    from [m] made before it wrote any register. *)
Definition events_from_status (K : EIP76_Constants)
    (hw : list io_event -> Device_Handle_t -> Z -> Z) (m m' : machine) : Prop :=
  let d := Device (IOArea m) in
  exists t1 s t2,
    trace m' = trace m ++ t1 ++ EvRead d (EIP76_REG_STATUS K) s :: t2 /\
    read_of hw (trace m ++ t1) d (EIP76_REG_STATUS K) s /\
    writes_of t1 = [] /\
    Events m' = Z.land s (EIP76_EVENTS_MASK K).

(** A device whose status word shows test-ready, and whose control register
    shows a reseed under way until [n] accesses have been made. *)
Definition hw_reseeding (n : nat) : list io_event -> Device_Handle_t -> Z -> Z :=
  fun t _ offset =>
    if offset =? EIP76_REG_CONTROL EIP76_Example_Constants
    then (if (length t <? n)%nat then 0x8000 else 0)
    else 0x100.

(** The registers a call may write: [may_write c offset] holds for the
    offsets of the registers that the function behind [c] has a write
    to. *)
Definition may_write (K : EIP76_Constants) (c : call) (offset : Z) : Prop :=
  match c with
  | BlockCount_Get _ _ | IsBusy _ _ | IsReady _ _ | BCDF_Status_Get _ _ =>
      False
  | Reseed_Start _ _ | BCDF_Generate_Start _ _ _ =>
      offset = EIP76_REG_CONTROL K
  | Reseed_Write _ _ n _ | NIST_Write _ _ n _ _ | PS_AI_Write _ _ n _
  | BCDF_PS_AI_Write _ _ n _ =>
      offset = EIP76_REG_PS_AI_11 K \/
      exists i, 0 <= i < n /\ offset = wrap32 (EIP76_REG_PS_AI_0 K + i * 4)
  | Key_Write _ _ =>
      exists i, 0 <= i < 8 /\ offset = wrap32 (EIP76_REG_KEY_0 K + i * 4)
  | Input_Write _ _ _ =>
      In offset [EIP76_REG_INPUT_0 K; EIP76_REG_INPUT_1 K;
                 EIP76_REG_INPUT_2 K; EIP76_REG_INPUT_3 K]
  | Result_Read _ _ _ => In offset [EIP76_REG_TEST K; EIP76_REG_CONTROL K]
  | BCDF_Noise_Write _ _ _ =>
      In offset [EIP76_REG_MAINSHIFTREG_L K; EIP76_REG_MAINSHIFTREG_H K]
  | BCDF_Result_Read _ _ _ _ =>
      In offset [EIP76_REG_INTACK K; EIP76_REG_TEST K; EIP76_REG_CONTROL K]
  end.

(** An event that is not a write, or a write to a register [c] may
    write. *)
Definition within_footprint (K : EIP76_Constants) (c : call)
    (_ : Device_Handle_t) (e : io_event) : Prop :=
  match e with
  | EvWrite _ offset _ => may_write K c offset
  | _ => True
  end.


(** ** Vocabulary for the block cursor *)

(** The 32-bit [Index] advanced by [k] and reset once it is at or beyond
    [n], as in [Index += k; if (Index >= n) Index = 0;]. *)
Definition Index_step (i k n : Z) : Z :=
  if n <=? wrap32 (i + k) then 0 else wrap32 (i + k).

Definition is_Noise_Write (c : call) : bool :=
  match c with
  | BCDF_Noise_Write _ _ _ => true
  | _ => false
  end.

(** The [Index] that call [c] leaves behind when it returns [st] from
    machine [m]. *)
Definition Index_after (K : EIP76_Constants)
    (hw : list io_event -> Device_Handle_t -> Z -> Z)
    (c : call) (st : EIP76_Status_t) (m : machine) : Z :=
  let i := Index (IOArea m) in
  match st, c with
  | EIP76_INVALID_PARAMETER, _ => i
  | _, BCDF_PS_AI_Write _ _ _ _ => 0
  | _, BCDF_Noise_Write _ _ n => Index_step i 2 n
  | _, BCDF_Result_Read _ _ _ n =>
      if EIP76_STATUS_IS_READY K (next_status K hw m)
      then Index_step i 4 n else i
  | _, _ => i
  end.
(** ** Symbolic execution of the module *)

Tactic Notation "eip_simpl" :=
  cbn [bind ret spin get_Device get_Index get_Flag get_SavedControl
     put_Index put_Flag store_Events store_BlockCount printf
     EIP76_Write32 EIP76_CONTROL_WR EIP76_TEST_WR EIP76_INTACK_WR
     EIP76_INPUT_0_WR EIP76_INPUT_1_WR
     EIP76_INPUT_2_WR EIP76_INPUT_3_WR EIP76_MAINSHIFTREG_L_WR
     EIP76_MAINSHIFTREG_H_WR EIP76_State_Set EIP76_CHECK_POINTER
     EIP76_CHECK_INT_INRANGE EIP76_CHECK_INT_ATMOST is_null buffer_is_null
     BCDF_Result_Read_stay
     log add_trace set_IOArea set_Events set_BlockCount set_Data set_State
     set_Index set_Flag IOArea Events BlockCount Data trace Device State
     SavedControl Index Flag].

Tactic Notation "eip_simpl" "in" hyp(H) :=
  cbn [bind ret spin get_Device get_Index get_Flag get_SavedControl
     put_Index put_Flag store_Events store_BlockCount printf
     EIP76_Write32 EIP76_CONTROL_WR EIP76_TEST_WR EIP76_INTACK_WR
     EIP76_INPUT_0_WR EIP76_INPUT_1_WR
     EIP76_INPUT_2_WR EIP76_INPUT_3_WR EIP76_MAINSHIFTREG_L_WR
     EIP76_MAINSHIFTREG_H_WR EIP76_State_Set EIP76_CHECK_POINTER
     EIP76_CHECK_INT_INRANGE EIP76_CHECK_INT_ATMOST is_null buffer_is_null
     BCDF_Result_Read_stay
     log add_trace set_IOArea set_Events set_BlockCount set_Data set_State
     set_Index set_Flag IOArea Events BlockCount Data trace Device State
     SavedControl Index Flag] in H.

Tactic Notation "eip_simpl" "in" "*" :=
  cbn [bind ret spin get_Device get_Index get_Flag get_SavedControl
     put_Index put_Flag store_Events store_BlockCount printf
     EIP76_Write32 EIP76_CONTROL_WR EIP76_TEST_WR EIP76_INTACK_WR
     EIP76_INPUT_0_WR EIP76_INPUT_1_WR
     EIP76_INPUT_2_WR EIP76_INPUT_3_WR EIP76_MAINSHIFTREG_L_WR
     EIP76_MAINSHIFTREG_H_WR EIP76_State_Set EIP76_CHECK_POINTER
     EIP76_CHECK_INT_INRANGE EIP76_CHECK_INT_ATMOST is_null buffer_is_null
     BCDF_Result_Read_stay
     log add_trace set_IOArea set_Events set_BlockCount set_Data set_State
     set_Index set_Flag IOArea Events BlockCount Data trace Device State
     SavedControl Index Flag] in *.

Lemma length_list_set l n v : length (list_set l n v) = length l.
Proof.
  revert n; induction l as [|h t IH]; intros [|n]; simpl; auto.
Qed.

Lemma wrap32_small x : 0 <= x < 2 ^ 32 -> wrap32 x = x.
Proof. intros H. unfold wrap32. apply Z.mod_small; exact H. Qed.

Lemma wrap32_range x : 0 <= wrap32 x < 2 ^ 32.
Proof. unfold wrap32. apply Z.mod_pos_bound. lia. Qed.

Lemma bind_inv {A B} (c : M A) (k : A -> M B) m b m2 :
  bind c k m = Done b m2 ->
  exists a m1, c m = Done a m1 /\ k a m1 = Done b m2.
Proof.
  unfold bind. destruct (c m) as [a m1| |]; try discriminate.
  intros H. exists a, m1. split; [reflexivity | exact H].
Qed.

Lemma bind_assoc {A B C} (c : M A) (k1 : A -> M B) (k2 : B -> M C) m :
  bind (bind c k1) k2 m = bind c (fun a => bind (k1 a) k2) m.
Proof. unfold bind. destruct (c m); reflexivity. Qed.

Lemma bind_Done {A B} (c : M A) (k : A -> M B) m a m1 :
  c m = Done a m1 -> bind c k m = k a m1.
Proof. intros H. unfold bind. rewrite H. reflexivity. Qed.

Lemma store_Data_ok i v m :
  0 <= i < Z.of_nat (length (Data m)) ->
  store_Data PTR i v m = Done tt (set_Data (list_set (Data m) (Z.to_nat i) v) m).
Proof.
  intros H. unfold store_Data. cbn [is_null].
  destruct (i <? 0) eqn:E1; [apply Z.ltb_lt in E1; lia|].
  destruct (Z.of_nat (length (Data m)) <=? i) eqn:E2;
    [apply Z.leb_le in E2; lia|].
  reflexivity.
Qed.

Lemma store_Data_inv p i v m u m' :
  store_Data p i v m = Done u m' ->
  p = PTR /\ 0 <= i < Z.of_nat (length (Data m)) /\
  m' = set_Data (list_set (Data m) (Z.to_nat i) v) m.
Proof.
  unfold store_Data. destruct p; cbn [is_null]; try discriminate.
  destruct (i <? 0) eqn:E1; cbn [orb]; try discriminate.
  destruct (Z.of_nat (length (Data m)) <=? i) eqn:E2; try discriminate.
  intros H. injection H as _ <-.
  apply Z.ltb_ge in E1. apply Z.leb_gt in E2.
  split; [reflexivity|]. split; [lia | reflexivity].
Qed.

Lemma load_ok l i w m :
  0 <= i -> nth_error l (Z.to_nat i) = Some w -> load (Some l) i m = Done w m.
Proof.
  intros Hi Hn. unfold load.
  destruct (i <? 0) eqn:E; [apply Z.ltb_lt in E; lia|].
  rewrite Hn. reflexivity.
Qed.

Lemma load_inv p i m w m' :
  load p i m = Done w m' ->
  m' = m /\ 0 <= i /\ exists l, p = Some l /\ nth_error l (Z.to_nat i) = Some w.
Proof.
  unfold load. destruct p as [l|]; try discriminate.
  destruct (i <? 0) eqn:E; try discriminate.
  destruct (nth_error l (Z.to_nat i)) as [x|] eqn:N; try discriminate.
  intros H. injection H as <- <-. apply Z.ltb_ge in E.
  split; [reflexivity|]. split; [lia|]. exists l. auto.
Qed.

Lemma EIP76_Read32_step hw d offset m :
  exists v, read_of hw (trace m) d offset v /\
            EIP76_Read32 hw d offset m = Done v (log (EvRead d offset v) m).
Proof. eexists. split; reflexivity. Qed.

Lemma EIP76_Read32_inv hw d offset m a m' :
  EIP76_Read32 hw d offset m = Done a m' ->
  a = wrap32 (hw (trace m) d offset) /\ m' = log (EvRead d offset a) m.
Proof. unfold EIP76_Read32. intros H. injection H as <- <-. auto. Qed.

Lemma load_Some_inv l i m w m' :
  load (Some l) i m = Done w m' ->
  m' = m /\ 0 <= i /\ nth_error l (Z.to_nat i) = Some w.
Proof.
  intros H. apply load_inv in H. destruct H as (-> & Hi & l' & E & N).
  injection E as <-. auto.
Qed.

Lemma add_trace_nil m : add_trace [] m = m.
Proof. destruct m. unfold add_trace. cbn. rewrite app_nil_r. reflexivity. Qed.

Lemma add_trace_app t1 t2 m :
  add_trace t2 (add_trace t1 m) = add_trace (t1 ++ t2) m.
Proof. unfold add_trace. cbn. rewrite app_assoc. reflexivity. Qed.

Lemma log_add_trace e m : log e m = add_trace [e] m.
Proof. reflexivity. Qed.

Lemma writes_of_app t1 t2 : writes_of (t1 ++ t2) = writes_of t1 ++ writes_of t2.
Proof. apply filter_app. Qed.

Lemma firstn_skipn_cons (l : list Z) : forall k n w,
  nth_error l k = Some w ->
  firstn (S n) (skipn k l) = w :: firstn n (skipn (S k) l).
Proof.
  induction l as [|h t IH]; intros [|k] n w N; cbn in *; try discriminate.
  - injection N as ->. reflexivity.
  - apply (IH k n w N).
Qed.

Lemma Z_to_nat_succ i : 0 <= i -> Z.to_nat (i + 1) = S (Z.to_nat i).
Proof. intros H. rewrite Z2Nat.inj_add by lia. simpl. lia. Qed.

Section Loops.

Variable K : EIP76_Constants.
Variable hw : list io_event -> Device_Handle_t -> Z -> Z.

Lemma writes_of_PS_AI_events d i ws :
  writes_of (PS_AI_events K d i ws) = PS_AI_events K d i ws.
Proof.
  revert i; induction ws as [|w ws IH]; intros i; cbn; [reflexivity|].
  f_equal. apply IH.
Qed.

Lemma PS_AI_Write_from_ok n : forall i d l m,
  0 <= i -> (Z.to_nat i + n <= length l)%nat ->
  PS_AI_Write_from K n i d (Some l) m =
  Done tt (add_trace (PS_AI_events K d i (firstn n (skipn (Z.to_nat i) l))) m).
Proof.
  induction n as [|n IH]; intros i d l m Hi Hl.
  - cbn. rewrite add_trace_nil. reflexivity.
  - cbn [PS_AI_Write_from].
    destruct (nth_error l (Z.to_nat i)) as [w|] eqn:N.
    2:{ apply nth_error_None in N. lia. }
    rewrite (bind_Done _ _ _ _ _ (load_ok _ _ _ m Hi N)).
    unfold EIP76_Write32. cbn [bind].
    rewrite IH; [|lia|rewrite Z_to_nat_succ by lia; lia].
    rewrite log_add_trace, add_trace_app, Z_to_nat_succ by lia.
    rewrite (firstn_skipn_cons _ _ _ _ N). reflexivity.
Qed.

Lemma PS_AI_Write_from_inv n : forall i d p m u m',
  PS_AI_Write_from K n i d p m = Done u m' ->
  exists t, m' = add_trace t m /\
    forall l, p = Some l -> 0 <= i ->
      t = PS_AI_events K d i (firstn n (skipn (Z.to_nat i) l)).
Proof.
  induction n as [|n IH]; intros i d p m u m' H.
  - cbn in H. injection H as _ <-. exists []. rewrite add_trace_nil.
    split; [reflexivity|]. intros l _ _. reflexivity.
  - cbn [PS_AI_Write_from] in H.
    apply bind_inv in H. destruct H as (w & m1 & E & H).
    apply load_inv in E. destruct E as (-> & Hi & l & -> & N).
    unfold EIP76_Write32 in H. cbn [bind] in H.
    apply IH in H. destruct H as (t & -> & Ht).
    rewrite log_add_trace, add_trace_app. eexists. split; [reflexivity|].
    intros l' E _. injection E as <-.
    assert (Hi1 : 0 <= i + 1) by lia.
    rewrite (Ht l eq_refl Hi1), Z_to_nat_succ by lia.
    rewrite (firstn_skipn_cons _ _ _ _ N). reflexivity.
Qed.

Lemma EIP76_KEY_WR_from_inv n : forall i d p m u m',
  EIP76_KEY_WR_from K n i d p m = Done u m' -> exists t, m' = add_trace t m.
Proof.
  induction n as [|n IH]; intros i d p m u m' H.
  - cbn in H. injection H as _ <-. exists []. rewrite add_trace_nil. reflexivity.
  - cbn [EIP76_KEY_WR_from] in H.
    apply bind_inv in H. destruct H as (w & m1 & E & H).
    apply load_inv in E. destruct E as (-> & _).
    unfold EIP76_Write32 in H. cbn [bind] in H.
    apply IH in H. destruct H as (t & ->).
    rewrite log_add_trace, add_trace_app. eexists. reflexivity.
Qed.

Lemma Reseed_Start_wait_inv fuel : forall d Mask RegVal m u m',
  Reseed_Start_wait K hw fuel d Mask RegVal m = Done u m' ->
  exists t, m' = add_trace t m /\ writes_of t = [].
Proof.
  induction fuel as [|fuel IH]; intros d Mask RegVal m u m' H; cbn in H.
  - destruct (Z.land RegVal Mask =? 0); [discriminate|].
    injection H as _ <-. exists []. rewrite add_trace_nil. auto.
  - destruct (Z.land RegVal Mask =? 0).
    + unfold EIP76_STATUS_RD, EIP76_Read32, bind in H.
      apply IH in H. destruct H as (t & -> & W).
      rewrite log_add_trace, add_trace_app. eexists. split; [reflexivity|].
      rewrite writes_of_app, W. reflexivity.
    + injection H as _ <-. exists []. rewrite add_trace_nil. auto.
Qed.

Lemma Reseed_Write_wait_inv fuel : forall m u m',
  Reseed_Write_wait K hw fuel m = Done u m' ->
  exists t, m' = add_trace t m /\ writes_of t = [].
Proof.
  induction fuel as [|fuel IH]; intros m u m' H; cbn in H; [discriminate|].
  unfold EIP76_Read32, bind in H. cbv zeta in H.
  match type of H with (if ?c then _ else _) _ = _ => destruct c end.
  - injection H as _ <-. rewrite log_add_trace.
    eexists. split; [reflexivity|]. reflexivity.
  - apply IH in H. destruct H as (t & -> & W).
    rewrite log_add_trace, add_trace_app. eexists. split; [reflexivity|].
    rewrite writes_of_app, W. reflexivity.
Qed.

End Loops.

Ltac unfold_reads :=
  unfold EIP76_STATUS_RD, EIP76_CONTROL_RD, EIP76_TEST_RD,
    EIP76_BLOCKCNT_RD_BLOCKCOUNT, EIP76_OUTPUT_0_RD, EIP76_OUTPUT_1_RD,
    EIP76_OUTPUT_2_RD, EIP76_OUTPUT_3_RD.

Ltac unfold_reads_in H :=
  unfold EIP76_STATUS_RD, EIP76_CONTROL_RD, EIP76_TEST_RD,
    EIP76_BLOCKCNT_RD_BLOCKCOUNT, EIP76_OUTPUT_0_RD, EIP76_OUTPUT_1_RD,
    EIP76_OUTPUT_2_RD, EIP76_OUTPUT_3_RD in H.

(** Machines as explicit records. *)
Ltac machine_norm :=
  cbv beta iota delta
    [log add_trace set_IOArea set_Events set_BlockCount set_Data set_State
     set_Index set_Flag IOArea Events BlockCount Data trace Device State
     SavedControl Index Flag].

(** One register read: the word read becomes a variable [v] with its
    defining equation. *)
Ltac step_read :=
  match goal with
  | |- context [bind (EIP76_Read32 ?hw ?d ?off) _ ?m] =>
      let v := fresh "v" in
      let Hv := fresh "Hv" in
      let E := fresh "E" in
      destruct (EIP76_Read32_step hw d off m) as (v & Hv & E);
      rewrite (bind_Done _ _ _ _ _ E); clear E; eip_simpl in Hv
  end.

Ltac eip_tail :=
  cbv beta delta
    [ret spin EIP76_State_Set EIP76_Write32 EIP76_CONTROL_WR
     EIP76_TEST_WR EIP76_INTACK_WR put_Index put_Flag store_Events
     store_BlockCount printf];
  eip_simpl.

(** Forward execution up to the next test, store or load. *)
Ltac eip_run :=
  unfold_reads; repeat (eip_simpl; rewrite ?bind_assoc; try step_read).

(** [store_Data] into a buffer with room. *)
Ltac step_store :=
  unfold bind at 1; rewrite store_Data_ok;
  [| eip_simpl; rewrite ?length_list_set; try lia]; eip_run.

(** Inversion of a returning run: [exec H] follows the code along
    [H : c m = Done a m'], splitting on every test it meets. *)
Ltac exec H :=
  eip_simpl in H;
  lazymatch type of H with
  | Done _ _ = Done _ _ => inversion H; clear H; subst
  | Fault _ = Done _ _ => discriminate H
  | Spin _ = Done _ _ => discriminate H
  | bind (EIP76_Read32 ?hw ?d ?off) _ ?m = Done _ _ =>
      let v := fresh "v" in
      let Hv := fresh "Hv" in
      let E := fresh "E" in
      destruct (EIP76_Read32_step hw d off m) as (v & Hv & E);
      rewrite (bind_Done _ _ _ _ _ E) in H; clear E; eip_simpl in Hv; exec H
  | bind _ _ _ = Done _ _ =>
      let a := fresh "a" in
      let m1 := fresh "m" in
      let E := fresh "E" in
      apply bind_inv in H; destruct H as (a & m1 & E & H); exec E; exec H
  | (if ?c then _ else _) _ = Done _ _ =>
      let C := fresh "C" in destruct c eqn:C; exec H
  | (match ?x with _ => _ end) _ = Done _ _ =>
      let C := fresh "C" in destruct x eqn:C; exec H
  | store_Data _ _ _ _ = Done _ _ =>
      let R := fresh "R" in
      let P := fresh "P" in
      apply store_Data_inv in H; destruct H as (P & R & ?);
      first [ discriminate P | clear P; subst ]
  | load None _ _ = Done _ _ => discriminate H
  | load (Some _) _ _ = Done _ _ =>
      let L := fresh "L" in
      apply load_Some_inv in H; destruct H as (? & ? & L); subst
  | EIP76_Read32 _ _ _ _ = Done _ _ =>
      apply EIP76_Read32_inv in H; destruct H as (? & ?); subst
  | EIP76_Internal_PostProcessor_PS_AI_Write _ _ _ _ _ = Done _ _ =>
      let W := fresh "W" in
      unfold EIP76_Internal_PostProcessor_PS_AI_Write in H;
      apply PS_AI_Write_from_inv in H; destruct H as (? & ? & W); subst
  | EIP76_KEY_WR _ _ _ _ _ = Done _ _ =>
      unfold EIP76_KEY_WR in H;
      apply EIP76_KEY_WR_from_inv in H; destruct H as (? & ?); subst
  | Reseed_Start_wait _ _ _ _ _ _ _ = Done _ _ =>
      let W := fresh "W" in
      apply Reseed_Start_wait_inv in H; destruct H as (? & ? & W); subst
  | Reseed_Write_wait _ _ _ _ = Done _ _ =>
      let W := fresh "W" in
      apply Reseed_Write_wait_inv in H; destruct H as (? & ? & W); subst
  | _ =>
      tryif progress
        (cbv beta delta
           [ret spin EIP76_State_Set EIP76_Write32 EIP76_CONTROL_WR
            EIP76_TEST_WR EIP76_INTACK_WR put_Index put_Flag store_Events
            store_BlockCount printf] in H)
      then exec H else idtac
  end.

Ltac destruct_args :=
  repeat match goal with
         | p : pointer |- _ => destruct p
         | b : buffer |- _ => destruct b
         end.

Ltac unfold_ops H :=
  unfold run, EIP76_PostProcessor_BlockCount_Get, EIP76_PostProcessor_IsBusy,
    EIP76_PostProcessor_Reseed_Start, EIP76_PostProcessor_Reseed_Write,
    EIP76_PostProcessor_NIST_Write, EIP76_PostProcessor_PS_AI_Write,
    EIP76_PostProcessor_Key_Write, EIP76_PostProcessor_Input_Write,
    EIP76_PostProcessor_Result_Read, EIP76_PostProcessor_IsReady,
    EIP76_PostProcessor_BCDF_PS_AI_Write, EIP76_PostProcessor_BCDF_Noise_Write,
    EIP76_PostProcessor_BCDF_Status_Get,
    EIP76_PostProcessor_BCDF_Generate_Start,
    EIP76_PostProcessor_BCDF_Result_Read, EIP76Lib_PS_AI_Write,
    BCDF_Result_Read_stay, EIP76_CHECK_POINTER, EIP76_CHECK_INT_INRANGE,
    EIP76_CHECK_INT_ATMOST in H;
  unfold_reads_in H.

Section Frame.

Variable PP : EIP76_PostProcessor_Type.
Variable K : EIP76_Constants.
Variable hw : list io_event -> Device_Handle_t -> Z -> Z.

Lemma run_frame fuel c m st m' :
  run PP K hw fuel c m = Done st m' ->
  Device (IOArea m') = Device (IOArea m) /\
  SavedControl (IOArea m') = SavedControl (IOArea m).
Proof.
  intros H. destruct c; destruct_args; destruct PP; unfold_ops H; exec H.
  all: eip_simpl; auto.
Qed.
End Frame.

Section Two_Pass.

Variable PP : EIP76_PostProcessor_Type.
Variable K : EIP76_Constants.
Variable hw : list io_event -> Device_Handle_t -> Z -> Z.

(** A call that is not a full completion leaves [Flag] alone. *)
Lemma run_keeps_Flag fuel c m st m' :
  run PP K hw fuel c m = Done st m' ->
  ~ completes K hw c m ->
  Flag (IOArea m') = Flag (IOArea m).
Proof.
  intros H NC. destruct c; destruct_args; destruct PP; unfold_ops H; exec H.
  all: eip_simpl; auto.
  all: exfalso; apply NC; cbn [completes]; unfold next_status.
  all: apply Z.ltb_ge in C; apply Z.leb_le in C1; unfold read_of in *.
  all: subst; auto.
Qed.

Lemma quiet_run_frame fuel m1 m2 :
  quiet_run PP K hw fuel m1 m2 ->
  Flag (IOArea m2) = Flag (IOArea m1) /\
  SavedControl (IOArea m2) = SavedControl (IOArea m1) /\
  Device (IOArea m2) = Device (IOArea m1).
Proof.
  induction 1 as [m|c st m m1 m2 R NC _ IH]; [auto|].
  destruct IH as (F & S & D).
  destruct (run_frame PP K hw fuel c m st m1 R) as [D1 S1].
  rewrite F, S, D, D1, S1, (run_keeps_Flag fuel c m st m1 R NC). auto.
Qed.


Lemma BCDF_Result_Read_first_pass m n :
  Flag (IOArea m) = false ->
  completes K hw (BCDF_Result_Read PTR PTR PTR n) m ->
  room m ->
  let d := Device (IOArea m) in
  exists v0 v1 v2 v3,
    EIP76_PostProcessor_BCDF_Result_Read K hw PTR PTR PTR n m =
    Done EIP76_PROCESSING
      (mkMachine
         (mkIOArea d EIP76_STATE_KAT_START (SavedControl (IOArea m)) 0 true)
         (Z.land (next_status K hw m) (EIP76_EVENTS_MASK K)) (BlockCount m)
         (stored (Data m) (Index (IOArea m)) v0 v1 v2 v3)
         (trace m ++
          [EvRead d (EIP76_REG_STATUS K) (next_status K hw m);
           EvRead d (EIP76_REG_OUTPUT_0 K) v0;
           EvRead d (EIP76_REG_OUTPUT_1 K) v1;
           EvRead d (EIP76_REG_OUTPUT_2 K) v2;
           EvRead d (EIP76_REG_OUTPUT_3 K) v3;
           EvWrite d (EIP76_REG_INTACK K) (CLEAR_READY_BIT K);
           EvWrite d (EIP76_REG_CONTROL K) (EIP76_CONTROL_ENABLE_RESEED K)])).
Proof.
  unfold completes, room, next_status, stored.
  destruct m as [[d s sc i f] ev bc dat tr]. eip_simpl.
  intros -> (Hn & Hr & Hi) R.
  apply Forall_cons_iff in R. destruct R as [R0 R].
  apply Forall_cons_iff in R. destruct R as [R1 R].
  apply Forall_cons_iff in R. destruct R as [R2 R].
  apply Forall_cons_iff in R. destruct R as [R3 _].
  pose proof (wrap32_range (i + 0)). pose proof (wrap32_range (i + 1)).
  pose proof (wrap32_range (i + 2)). pose proof (wrap32_range (i + 3)).
  apply Z.leb_le in Hi.
  unfold EIP76_PostProcessor_BCDF_Result_Read, EIP76_CHECK_INT_ATMOST.
  replace (MASK_31_BITS <? n) with false by (symmetry; apply Z.ltb_ge; lia).
  eip_run. unfold read_of in Hv. rewrite <- Hv in Hr |- *. rewrite Hr. eip_run.
  do 4 step_store. rewrite Hi. eip_run. eip_tail. machine_norm.
  do 4 eexists. rewrite <- !app_assoc. reflexivity.
Qed.

Lemma BCDF_Result_Read_second_pass m n :
  Flag (IOArea m) = true ->
  completes K hw (BCDF_Result_Read PTR PTR PTR n) m ->
  room m ->
  let d := Device (IOArea m) in
  exists v0 v1 v2 v3 t,
    EIP76_PostProcessor_BCDF_Result_Read K hw PTR PTR PTR n m =
    Done EIP76_NO_ERROR
      (mkMachine
         (mkIOArea d EIP76_STATE_SP80090_RESEED_START
                   (SavedControl (IOArea m)) 0 false)
         (Z.land (next_status K hw m) (EIP76_EVENTS_MASK K)) (BlockCount m)
         (stored (Data m) (Index (IOArea m)) v0 v1 v2 v3)
         (trace m ++
          [EvRead d (EIP76_REG_STATUS K) (next_status K hw m);
           EvRead d (EIP76_REG_OUTPUT_0 K) v0;
           EvRead d (EIP76_REG_OUTPUT_1 K) v1;
           EvRead d (EIP76_REG_OUTPUT_2 K) v2;
           EvRead d (EIP76_REG_OUTPUT_3 K) v3;
           EvWrite d (EIP76_REG_INTACK K) (CLEAR_READY_BIT K);
           EvRead d (EIP76_REG_TEST K) t;
           EvWrite d (EIP76_REG_TEST K) (Z.land t (not32 (EIP76_TEST_ALL K)));
           EvWrite d (EIP76_REG_CONTROL K) (SavedControl (IOArea m))])).
Proof.
  unfold completes, room, next_status, stored.
  destruct m as [[d s sc i f] ev bc dat tr]. eip_simpl.
  intros -> (Hn & Hr & Hi) R.
  apply Forall_cons_iff in R. destruct R as [R0 R].
  apply Forall_cons_iff in R. destruct R as [R1 R].
  apply Forall_cons_iff in R. destruct R as [R2 R].
  apply Forall_cons_iff in R. destruct R as [R3 _].
  pose proof (wrap32_range (i + 0)). pose proof (wrap32_range (i + 1)).
  pose proof (wrap32_range (i + 2)). pose proof (wrap32_range (i + 3)).
  apply Z.leb_le in Hi.
  unfold EIP76_PostProcessor_BCDF_Result_Read, EIP76_CHECK_INT_ATMOST.
  replace (MASK_31_BITS <? n) with false by (symmetry; apply Z.ltb_ge; lia).
  eip_run. unfold read_of in Hv. rewrite <- Hv in Hr |- *. rewrite Hr. eip_run.
  do 4 step_store. rewrite Hi. eip_run. eip_tail. machine_norm.
  do 5 eexists. rewrite <- !app_assoc. reflexivity.
Qed.

(** ** Claim C1 *)

(** C1. The two-pass KAT protocol of
    [EIP76_PostProcessor_BCDF_Result_Read].  From a context whose [Flag]
    (second pass pending) is false, in [EIP76_STATE_KAT_START] or any other
    state, a full completion sets the state to [EIP76_STATE_KAT_START], sets
    [Flag], ends with the reseed-enable write to the control register and
    returns [EIP76_PROCESSING].  After any number of returning calls of the
    interface that are not full completions, the next full completion
    returns [EIP76_NO_ERROR], ends with the write of the saved control word
    to the control register, clears [Flag] and leaves the context in
    [EIP76_STATE_SP80090_RESEED_START]. *)
Theorem two_pass_KAT fuel m n1 :
  Flag (IOArea m) = false ->
  completes K hw (BCDF_Result_Read PTR PTR PTR n1) m ->
  room m ->
  exists m1,
    EIP76_PostProcessor_BCDF_Result_Read K hw PTR PTR PTR n1 m =
      Done EIP76_PROCESSING m1 /\
    State (IOArea m1) = EIP76_STATE_KAT_START /\
    Flag (IOArea m1) = true /\
    (exists t, trace m1 = trace m ++ t ++
       [EvWrite (Device (IOArea m)) (EIP76_REG_CONTROL K)
                (EIP76_CONTROL_ENABLE_RESEED K)]) /\
    forall m2 n2,
      quiet_run PP K hw fuel m1 m2 ->
      completes K hw (BCDF_Result_Read PTR PTR PTR n2) m2 ->
      room m2 ->
      exists m3,
        EIP76_PostProcessor_BCDF_Result_Read K hw PTR PTR PTR n2 m2 =
          Done EIP76_NO_ERROR m3 /\
        State (IOArea m3) = EIP76_STATE_SP80090_RESEED_START /\
        Flag (IOArea m3) = false /\
        (exists t, trace m3 = trace m2 ++ t ++
           [EvWrite (Device (IOArea m)) (EIP76_REG_CONTROL K)
                    (SavedControl (IOArea m))]).
Proof.
  intros F C R.
  destruct (BCDF_Result_Read_first_pass m n1 F C R) as (v0 & v1 & v2 & v3 & E).
  eexists. split; [exact E|]. cbn [IOArea State Flag trace].
  split; [reflexivity|]. split; [reflexivity|]. split.
  { eexists [_; _; _; _; _; _]. reflexivity. }
  intros m2 n2 Q C2 R2.
  destruct (quiet_run_frame fuel _ _ Q) as (F2 & S2 & D2).
  cbn [IOArea Flag SavedControl Device] in F2, S2, D2.
  destruct (BCDF_Result_Read_second_pass m2 n2 F2 C2 R2)
    as (w0 & w1 & w2 & w3 & t & E2).
  eexists. split; [exact E2|]. cbn [IOArea State Flag trace].
  split; [reflexivity|]. split; [reflexivity|].
  rewrite D2, S2. eexists [_; _; _; _; _; _; _; _]. reflexivity.
Qed.

End Two_Pass.

(** C1 on a run: two completions of a four-word request, back to back, on a
    device whose status always reads ready. *)
Lemma two_pass_KAT_witness :
  exists m1 m3,
    EIP76_PostProcessor_BCDF_Result_Read EIP76_Example_Constants (hw_const 1)
      PTR PTR PTR 4 (example_machine EIP76_STATE_KAT_START 0 false [0;0;0;0])
    = Done EIP76_PROCESSING m1 /\
    EIP76_PostProcessor_BCDF_Result_Read EIP76_Example_Constants (hw_const 1)
      PTR PTR PTR 4 m1 = Done EIP76_NO_ERROR m3 /\
    State (IOArea m3) = EIP76_STATE_SP80090_RESEED_START /\
    Flag (IOArea m3) = false.
Proof.
  assert (C : forall s f dat t, length dat = 4%nat ->
    completes EIP76_Example_Constants (hw_const 1)
      (BCDF_Result_Read PTR PTR PTR 4)
      (mkMachine (example_IOArea s 0 f) 0 0 dat t) /\
    room (mkMachine (example_IOArea s 0 f) 0 0 dat t)).
  { intros s f dat t L. split.
    - split; [|split]; vm_compute; congruence.
    - unfold room. cbn [Data IOArea Index example_IOArea]. rewrite L.
      repeat apply Forall_cons; try apply Forall_nil; vm_compute; reflexivity. }
  destruct (two_pass_KAT EIP76_POST_PROCESSOR_BC_DF EIP76_Example_Constants
              (hw_const 1) 0%nat
              (example_machine EIP76_STATE_KAT_START 0 false [0;0;0;0]) 4
              eq_refl)
    as (m1 & E1 & _ & _ & _ & Next);
    [apply C; reflexivity | apply C; reflexivity |].
  pose proof E1 as E1'. vm_compute in E1'. injection E1' as <-.
  match type of E1 with
  | _ = Done _ ?M =>
      destruct (Next M 4 (quiet_nil _ _ _ _ M)) as (m3 & E3 & S3 & F3 & _);
        [apply C; reflexivity | apply C; reflexivity |]
  end.
  eexists. exists m3.
  split; [exact E1|]. split; [exact E3|]. split; assumption.
Defined.

Section PS_AI_Status.

Variable K : EIP76_Constants.
Variable hw : list io_event -> Device_Handle_t -> Z -> Z.

Lemma in_range_checks n lo hi :
  in_range n lo hi = true -> (n <? lo) || (hi <? n) = false.
Proof.
  unfold in_range. intros H. apply andb_true_iff in H. destruct H as [A B].
  apply Z.leb_le in A, B. apply orb_false_intro; apply Z.ltb_ge; lia.
Qed.

(** ** Claim C2 (as amended) *)

(** C2, amended.  When the status word the call reads asserts neither
    test-ready nor reseed-AI-ready, [EIP76Lib_PS_AI_Write] returns
    [EIP76_ILLEGAL_IN_STATE] for every buffer and word count, having made
    the one status read and stored its event word, and so do its two
    callers given valid arguments: [EIP76_PostProcessor_Reseed_Write], and
    [EIP76_PostProcessor_NIST_Write], whose status read comes after the
    four output reads when the vector type is not 0.  None of them writes a
    register or changes the I/O area, whatever the device would answer
    later.  [EIP76_PostProcessor_PS_AI_Write] does not consult the status:
    whatever the status word and in every state,
    [EIP76_STATE_SP80090_RESEED_WRITING] included, it writes the words (and
    the zero for slot 11 below the maximum count), moves the context to
    [EIP76_STATE_RANDOM_GENERATING] and returns [EIP76_NO_ERROR]. *)
Theorem PS_AI_Write_status_check fuel m data n vt :
  in_range n (EIP76_MIN_PS_AI_WORD_COUNT K) (EIP76_MAX_PS_AI_WORD_COUNT K)
    = true ->
  let d := Device (IOArea m) in
  let s := next_status K hw m in
  let drained := if vt =? 0 then [] else output_reads K hw d (trace m) in
  let s' := wrap32 (hw (trace m ++ drained) d (EIP76_REG_STATUS K)) in
  (no_PS_AI_ready K s ->
   forall p k,
     EIP76Lib_PS_AI_Write K hw d p k PTR m =
     Done EIP76_ILLEGAL_IN_STATE
       (mkMachine (IOArea m) (Z.land s (EIP76_EVENTS_MASK K)) (BlockCount m)
          (Data m) (trace m ++ [EvRead d (EIP76_REG_STATUS K) s]))) /\
  (no_PS_AI_ready K s ->
   EIP76_PostProcessor_Reseed_Write K hw fuel PTR (Some data) n PTR m =
   Done EIP76_ILLEGAL_IN_STATE
     (mkMachine (IOArea m) (Z.land s (EIP76_EVENTS_MASK K)) (BlockCount m)
        (Data m) (trace m ++ [EvRead d (EIP76_REG_STATUS K) s]))) /\
  (no_PS_AI_ready K s' ->
   EIP76_PostProcessor_NIST_Write K hw PTR (Some data) n vt PTR m =
   Done EIP76_ILLEGAL_IN_STATE
     (mkMachine (IOArea m) (Z.land s' (EIP76_EVENTS_MASK K)) (BlockCount m)
        (Data m)
        (trace m ++ drained ++ [EvRead d (EIP76_REG_STATUS K) s']))) /\
  ((Z.to_nat n <= length data)%nat ->
   EIP76_PostProcessor_PS_AI_Write K hw PTR (Some data) n PTR m =
   Done EIP76_NO_ERROR
     (mkMachine (set_State EIP76_STATE_RANDOM_GENERATING (IOArea m))
        (Z.land s (EIP76_EVENTS_MASK K)) (BlockCount m) (Data m)
        (trace m ++ EvRead d (EIP76_REG_STATUS K) s ::
           PS_AI_events K d 0 (firstn (Z.to_nat n) data) ++
           (if n <? EIP76_MAX_PS_AI_WORD_COUNT K
            then [EvWrite d (EIP76_REG_PS_AI_11 K) 0] else [])))).
Proof.
  intros R. apply in_range_checks in R.
  unfold next_status, no_PS_AI_ready.
  destruct m as [[d st sc i f] ev bc dat tr]. eip_simpl. cbv zeta.
  assert (G : forall v,
    Z.land v (EIP76_STATUS_TEST_READY K) = 0 /\
    Z.land v (EIP76_STATUS_RESEED_AI K) = 0 ->
    (Z.land v (EIP76_STATUS_TEST_READY K) =? 0) &&
    (Z.land v (EIP76_STATUS_RESEED_AI K) =? 0) = true).
  { intros v [-> ->]. reflexivity. }
  split; [|split; [|split]].
  - intros Q p k. unfold EIP76Lib_PS_AI_Write. eip_run.
    unfold read_of in Hv. subst v. rewrite (G _ Q). eip_tail. machine_norm.
    reflexivity.
  - intros Q.
    unfold EIP76_PostProcessor_Reseed_Write, EIP76_CHECK_INT_INRANGE,
      EIP76Lib_PS_AI_Write.
    rewrite R. eip_run. unfold read_of in Hv. subst v. rewrite (G _ Q).
    eip_tail. machine_norm. reflexivity.
  - unfold EIP76_PostProcessor_NIST_Write, EIP76_CHECK_INT_INRANGE,
      EIP76Lib_PS_AI_Write, output_reads.
    rewrite R. eip_run. destruct (vt =? 0); cbn [negb]; eip_run.
    all: unfold read_of in *; subst; rewrite <- ?app_assoc, ?app_nil_r;
      cbn [app]; intros Q; rewrite (G _ Q); eip_tail; machine_norm;
      rewrite <- ?app_assoc; reflexivity.
  - intros L.
    unfold EIP76_PostProcessor_PS_AI_Write, EIP76_CHECK_INT_INRANGE.
    rewrite R. eip_run. unfold read_of in Hv. subst v.
    unfold EIP76_Internal_PostProcessor_PS_AI_Write.
    rewrite (bind_Done _ _ _ _ _
               (PS_AI_Write_from_ok K (Z.to_nat n) 0 d data _ (Z.le_refl 0) L)).
    cbn [Z.to_nat skipn].
    destruct (n <? EIP76_MAX_PS_AI_WORD_COUNT K); eip_tail; machine_norm;
      rewrite <- ?app_assoc, ?app_nil_r; reflexivity.
Qed.

End PS_AI_Status.

(** The amended C2 on a device that shows test-ready only from its ninth
    access on: in [EIP76_STATE_SP80090_RESEED_WRITING] the reseed write and
    the test-vector write are refused now, the latter after its four output
    reads, and [EIP76_PostProcessor_PS_AI_Write] succeeds. *)
Lemma PS_AI_Write_status_check_witness :
  let m := example_machine EIP76_STATE_SP80090_RESEED_WRITING 0 false [] in
  let hw := hw_after 8 0x100 in
  EIP76_PostProcessor_Reseed_Write EIP76_Example_Constants hw 0%nat PTR
    (Some [7; 8; 9; 10]) 4 PTR m =
  Done EIP76_ILLEGAL_IN_STATE
    (mkMachine (IOArea m) 0 0 [] [EvRead (Some O) 0x10 0]) /\
  EIP76_PostProcessor_NIST_Write EIP76_Example_Constants hw PTR
    (Some [7; 8; 9; 10]) 4 1 PTR m =
  Done EIP76_ILLEGAL_IN_STATE
    (mkMachine (IOArea m) 0 0 []
       [EvRead (Some O) 0x00 0; EvRead (Some O) 0x04 0;
        EvRead (Some O) 0x08 0; EvRead (Some O) 0x0C 0;
        EvRead (Some O) 0x10 0]) /\
  EIP76_PostProcessor_PS_AI_Write EIP76_Example_Constants hw PTR
    (Some [7; 8; 9; 10]) 4 PTR m =
  Done EIP76_NO_ERROR
    (mkMachine (example_IOArea EIP76_STATE_RANDOM_GENERATING 0 false) 0 0 []
       [EvRead (Some O) 0x10 0;
        EvWrite (Some O) 0x40 7; EvWrite (Some O) 0x44 8;
        EvWrite (Some O) 0x48 9; EvWrite (Some O) 0x4C 10;
        EvWrite (Some O) 0x6C 0]).
Proof.
  intros m hw.
  destruct (PS_AI_Write_status_check EIP76_Example_Constants hw 0%nat m
              [7; 8; 9; 10] 4 1 eq_refl) as (_ & E1 & E2 & E3).
  split; [|split].
  - apply E1. split; reflexivity.
  - apply E2. split; reflexivity.
  - apply E3. simpl. lia.
Defined.

(** C2 as stated fails: in [EIP76_STATE_SP80090_RESEED_WRITING], with
    neither ready bit in the status, [EIP76_PostProcessor_PS_AI_Write]
    writes the PS/AI registers and returns [EIP76_NO_ERROR]. *)
Lemma PS_AI_Write_ignores_status :
  let m := example_machine EIP76_STATE_SP80090_RESEED_WRITING 0 false [] in
  Z.land (next_status EIP76_Example_Constants (hw_const 0) m)
         (EIP76_STATUS_TEST_READY EIP76_Example_Constants) = 0 /\
  Z.land (next_status EIP76_Example_Constants (hw_const 0) m)
         (EIP76_STATUS_RESEED_AI EIP76_Example_Constants) = 0 /\
  EIP76_PostProcessor_PS_AI_Write EIP76_Example_Constants (hw_const 0)
    PTR (Some [7; 8; 9; 10]) 4 PTR m =
  Done EIP76_NO_ERROR
    (mkMachine (example_IOArea EIP76_STATE_RANDOM_GENERATING 0 false) 0 0 []
       [EvRead (Some O) 0x10 0;
        EvWrite (Some O) 0x40 7; EvWrite (Some O) 0x44 8;
        EvWrite (Some O) 0x48 9; EvWrite (Some O) 0x4C 10;
        EvWrite (Some O) 0x6C 0]).
Proof. repeat split. Qed.

Section Validation.

Variable PP : EIP76_PostProcessor_Type.
Variable K : EIP76_Constants.
Variable hw : list io_event -> Device_Handle_t -> Z -> Z.

Lemma range_check_in_range n lo hi :
  (n <? lo) || (hi <? n) = negb (in_range n lo hi).
Proof.
  unfold in_range. rewrite negb_andb, <- Z.ltb_antisym, <- Z.ltb_antisym.
  reflexivity.
Qed.

(** The functions that validate all their arguments do so before they touch
    the device, the I/O area or the caller's memory. *)
Lemma checked_calls_validate fuel c m :
  checks_all_args PP c = true ->
  invalid_args K c = true ->
  run PP K hw fuel c m = Done EIP76_INVALID_PARAMETER m.
Proof.
  intros Hc Hi.
  destruct c; cbn [checks_all_args] in Hc; try discriminate Hc;
    destruct_args; cbn [invalid_args is_null buffer_is_null orb] in Hi;
    try discriminate Hi; try reflexivity;
    cbn [run];
    unfold EIP76_PostProcessor_Reseed_Write, EIP76_PostProcessor_NIST_Write,
      EIP76_PostProcessor_PS_AI_Write, EIP76_PostProcessor_BCDF_PS_AI_Write,
      EIP76_PostProcessor_BlockCount_Get,
      EIP76_CHECK_POINTER, EIP76_CHECK_INT_INRANGE;
    cbn [is_null buffer_is_null];
    rewrite ?range_check_in_range, ?Hi;
    try reflexivity.
  all: try (destruct (negb (in_range _ _ _)); reflexivity).
  all: destruct PP; try discriminate Hc; reflexivity.
Qed.

End Validation.

(** ** Claim C3 *)

(** C3 fails on three BC_DF functions.
    [EIP76_PostProcessor_BCDF_Generate_Start] never checks [Events_p],
    [EIP76_PostProcessor_BCDF_Noise_Write] never checks [Noise_Data] and
    [EIP76_PostProcessor_BCDF_Result_Read] never checks [Data_p]: called
    with that pointer null they dereference it instead of returning
    [EIP76_INVALID_PARAMETER], the first and the last after they have
    already read device registers. *)
Theorem BCDF_calls_skip_validation :
  EIP76_PostProcessor_BCDF_Generate_Start EIP76_Example_Constants (hw_const 0)
    PTR 16 NULL (example_machine EIP76_STATE_KAT_SP80090_BCDF_READY 0 false [])
  = Fault (mkMachine (example_IOArea EIP76_STATE_KAT_SP80090_BCDF_READY 0 false)
             0 0 [] [EvRead (Some O) 0x14 0; EvRead (Some O) 0x10 0]) /\
  EIP76_PostProcessor_BCDF_Noise_Write EIP76_Example_Constants
    PTR None 2 (example_machine EIP76_STATE_KAT_SP80090_BCDF_RESEEDED 0 false [])
  = Fault (example_machine EIP76_STATE_KAT_SP80090_BCDF_RESEEDED 0 false []) /\
  EIP76_PostProcessor_BCDF_Result_Read EIP76_Example_Constants (hw_const 1)
    PTR PTR NULL 4
    (example_machine EIP76_STATE_KAT_SP80090_BCDF_PROCESSING 0 false [])
  = Fault (mkMachine
             (example_IOArea EIP76_STATE_KAT_SP80090_BCDF_PROCESSING 0 false)
             0 0 [] [EvRead (Some O) 0x10 1; EvRead (Some O) 0x00 1]).
Proof. repeat split. Qed.

Section Busy.

Variable PP : EIP76_PostProcessor_Type.
Variable K : EIP76_Constants.
Variable hw : list io_event -> Device_Handle_t -> Z -> Z.

(** ** Claim C4 (as amended) *)


End Busy.



Section Generate_Start.

Variable K : EIP76_Constants.
Variable hw : list io_event -> Device_Handle_t -> Z -> Z.

(** [(WordCount + 3) / 4] is the number of four-word blocks that cover
    [WordCount] words. *)
Lemma round_up_blocks w :
  0 <= w -> 4 * ((w + 3) / 4 - 1) < w <= 4 * ((w + 3) / 4).
Proof. intros H. Z.div_mod_to_equations. lia. Qed.

Lemma land_mask_small x n : 0 <= n -> 0 <= x < 2 ^ n -> Z.land x (Z.ones n) = x.
Proof. intros Hn Hx. rewrite Z.land_ones by exact Hn. apply Z.mod_small, Hx. Qed.

Lemma land_mask_range x n : 0 <= n -> 0 <= Z.land x (Z.ones n) < 2 ^ n.
Proof.
  intros Hn. rewrite Z.land_ones by exact Hn. apply Z.mod_pos_bound. lia.
Qed.

(** The block count written to bits 20-31 of the control register reads
    back as the count. *)
Lemma data_blocks_field request x :
  Z.land (Z.shiftr request 20) MASK_12_BITS = 0 ->
  0 <= x <= MASK_12_BITS ->
  Z.land (Z.shiftr (Z.lor request (Z.shiftl x 20)) 20) MASK_12_BITS = x.
Proof.
  intros Hr Hx. unfold MASK_12_BITS in *.
  rewrite Z.shiftr_lor, Z.land_lor_distr_l, Hr, Z.lor_0_l.
  rewrite Z.shiftr_shiftl_l, Z.sub_diag, Z.shiftl_0_r by lia.
  change 0xFFF with (Z.ones 12). apply land_mask_small; lia.
Qed.

(** [EIP76_PostProcessor_BCDF_Generate_Start] for word counts whose
    rounding up does not wrap. *)
Lemma BCDF_Generate_Start_in_range m WordCount :
  0 <= WordCount -> WordCount + 3 < 2 ^ 32 ->
  EIP76_REQUEST_DATA_MAX_BLK_COUNT K <= MASK_12_BITS ->
  let d := Device (IOArea m) in
  let c := next_control K hw m in
  let m1 := log (EvRead d (EIP76_REG_CONTROL K) c) m in
  let s := next_status K hw m1 in
  let m2 := set_Events (Z.land s (EIP76_EVENTS_MASK K))
              (log (EvRead d (EIP76_REG_STATUS K) s) m1) in
  let req := (WordCount + 3) / 4 in
  let avail := Z.land s MASK_1_BIT + Z.land (Z.shiftr s 16) MASK_8_BITS in
  let go := set_IOArea
              (set_State EIP76_STATE_KAT_SP80090_BCDF_PROCESSING (IOArea m)) in
  EIP76_PostProcessor_BCDF_Generate_Start K hw PTR WordCount PTR m =
  if negb (Z.land (Z.shiftr c 20) MASK_12_BITS =? 0)
  then Done EIP76_BUSY_RETRY_LATER m1
  else if avail <? req then
    if EIP76_REQUEST_DATA_MAX_BLK_COUNT K <? req - avail
    then Done EIP76_INVALID_PARAMETER m2
    else Done EIP76_NO_ERROR
           (go (log (EvWrite d (EIP76_REG_CONTROL K)
                       (Z.lor (EIP76_REQUEST_DATA K)
                              (Z.shiftl (req - avail) 20))) m2))
  else Done EIP76_NO_ERROR (go m2).
Proof.
  intros Hw Hw3 Hmax. cbv zeta. unfold next_control, next_status.
  destruct m as [[d st sc i f] ev bc dat tr]. eip_simpl.
  unfold EIP76_PostProcessor_BCDF_Generate_Start. eip_run.
  unfold read_of in Hv. subst v.
  set (c := wrap32 (hw tr d (EIP76_REG_CONTROL K))).
  destruct (negb (Z.land (Z.shiftr c 20) MASK_12_BITS =? 0));
    [eip_tail; machine_norm; reflexivity|].
  eip_run. unfold read_of in Hv. subst v.
  set (s := wrap32 (hw (tr ++ [EvRead d (EIP76_REG_CONTROL K) c]) d
                       (EIP76_REG_STATUS K))).
  rewrite (wrap32_small (WordCount + 3)) by lia.
  set (req := (WordCount + 3) / 4).
  set (avail := Z.land s MASK_1_BIT + Z.land (Z.shiftr s 16) MASK_8_BITS).
  assert (Ha : 0 <= avail < 2 ^ 9).
  { unfold avail, MASK_1_BIT, MASK_8_BITS.
    pose proof (land_mask_range s 1). pose proof (land_mask_range (Z.shiftr s 16) 8).
    change (Z.ones 1) with 1 in *. change (Z.ones 8) with 0xFF in *. lia. }
  assert (Hr : 0 <= req < 2 ^ 30).
  { unfold req. split; [apply Z.div_pos; lia|].
    apply Z.div_lt_upper_bound; lia. }
  rewrite (wrap32_small avail) by lia.
  destruct (avail <? req) eqn:Lt; [|eip_tail; machine_norm; reflexivity].
  apply Z.ltb_lt in Lt.
  unfold EIP76_CHECK_INT_ATMOST. rewrite (wrap32_small (req - avail)) by lia.
  destruct (EIP76_REQUEST_DATA_MAX_BLK_COUNT K <? req - avail) eqn:Gt;
    [eip_tail; machine_norm; reflexivity|].
  apply Z.ltb_ge in Gt. unfold MASK_12_BITS in Hmax |- *.
  change 0xFFF with (Z.ones 12). rewrite land_mask_small by lia.
  rewrite (wrap32_small (Z.shiftl (req - avail) 20))
    by (rewrite Z.shiftl_mul_pow2 by lia; lia).
  eip_tail. machine_norm. reflexivity.
Qed.

End Generate_Start.

(** The scenario of the specification: sixteen words, nothing available,
    one control write asking for four blocks. *)
Example BCDF_Generate_Start_16_words :
  EIP76_PostProcessor_BCDF_Generate_Start EIP76_Example_Constants (hw_const 0)
    PTR 16 PTR (example_machine EIP76_STATE_KAT_SP80090_BCDF_READY 0 false [])
  = Done EIP76_NO_ERROR
      (mkMachine
         (example_IOArea EIP76_STATE_KAT_SP80090_BCDF_PROCESSING 0 false)
         0 0 []
         [EvRead (Some O) 0x14 0; EvRead (Some O) 0x10 0;
          EvWrite (Some O) 0x14 (Z.lor 0x10000 (Z.shiftl 4 20))]).
Proof. vm_compute. reflexivity. Qed.

(** One block more than the request field holds is refused before any
    write. *)
Example BCDF_Generate_Start_too_many_blocks :
  EIP76_PostProcessor_BCDF_Generate_Start EIP76_Example_Constants (hw_const 0)
    PTR (4 * 4096) PTR
    (example_machine EIP76_STATE_KAT_SP80090_BCDF_READY 0 false [])
  = Done EIP76_INVALID_PARAMETER
      (mkMachine (example_IOArea EIP76_STATE_KAT_SP80090_BCDF_READY 0 false)
         0 0 [] [EvRead (Some O) 0x14 0; EvRead (Some O) 0x10 0]).
Proof. vm_compute. reflexivity. Qed.

(** ** Claim C5 *)

(** C5 fails at the top of the word-count range.  For a 32-bit
    [WordCount] of [0xFFFFFFFF] the addition in [(WordCount + 3) / 4] wraps
    and the requested block count comes out as 0 instead of [2 ^ 30]: with
    no block available the function neither returns
    [EIP76_INVALID_PARAMETER] nor requests anything, it moves to
    [EIP76_STATE_KAT_SP80090_BCDF_PROCESSING] and returns
    [EIP76_NO_ERROR]. *)
Theorem BCDF_Generate_Start_round_up_wraps :
  wrap32 (0xFFFFFFFF + 3) / 4 = 0 /\
  EIP76_PostProcessor_BCDF_Generate_Start EIP76_Example_Constants (hw_const 0)
    PTR 0xFFFFFFFF PTR
    (example_machine EIP76_STATE_KAT_SP80090_BCDF_READY 0 false [])
  = Done EIP76_NO_ERROR
      (mkMachine
         (example_IOArea EIP76_STATE_KAT_SP80090_BCDF_PROCESSING 0 false)
         0 0 [] [EvRead (Some O) 0x14 0; EvRead (Some O) 0x10 0]).
Proof. split; vm_compute; reflexivity. Qed.

Section Noise_Write.

Variable K : EIP76_Constants.

Lemma BCDF_Noise_Pack_no_wrap x y :
  BCDF_Noise_Pack x y =
  Z.lor (Z.shiftl (Z.land x 0x7FFFFFFF) 1) (Z.land (Z.shiftr y 31) 1).
Proof.
  unfold BCDF_Noise_Pack. f_equal. apply wrap32_small.
  change 0x7FFFFFFF with (Z.ones 31).
  pose proof (land_mask_range x 31). rewrite Z.shiftl_mul_pow2 by lia. lia.
Qed.

Lemma BCDF_Noise_Pack_high x y :
  Z.shiftr (BCDF_Noise_Pack x y) 1 = Z.land x 0x7FFFFFFF.
Proof.
  rewrite BCDF_Noise_Pack_no_wrap, Z.shiftr_lor.
  rewrite Z.shiftr_shiftl_l, Z.sub_diag, Z.shiftl_0_r by lia.
  rewrite Z.shiftr_land. change (Z.shiftr 1 1) with 0.
  rewrite Z.land_0_r, Z.lor_0_r. reflexivity.
Qed.

Lemma BCDF_Noise_Pack_low x y :
  Z.land (BCDF_Noise_Pack x y) 1 = Z.land (Z.shiftr y 31) 1.
Proof.
  rewrite BCDF_Noise_Pack_no_wrap, Z.land_lor_distr_l.
  rewrite <- Z.land_assoc. change (Z.land 1 1) with 1.
  replace (Z.land (Z.shiftl (Z.land x 0x7FFFFFFF) 1) 1) with 0;
    [apply Z.lor_0_l|].
  change 1 with (Z.ones 1) at 2. rewrite Z.land_ones, Z.shiftl_mul_pow2 by lia.
  symmetry. apply Z.mod_mul. lia.
Qed.

Lemma top_bit_32 y : 0 <= y < 2 ^ 32 -> Z.land (Z.shiftr y 31) 1 = Z.shiftr y 31.
Proof.
  intros H. change 1 with (Z.ones 1). apply land_mask_small; [lia|].
  rewrite Z.shiftr_div_pow2 by lia. split; [apply Z.div_pos; lia|].
  apply Z.div_lt_upper_bound; lia.
Qed.

Lemma split_at_bit_31 x :
  x = Z.lor (Z.land x 0x7FFFFFFF) (Z.shiftl (Z.shiftr x 31) 31).
Proof.
  change 0x7FFFFFFF with (Z.ones 31).
  rewrite <- Z.ldiff_ones_r by lia. rewrite Z.lor_comm.
  symmetry. apply Z.lor_ldiff_and.
Qed.

(** One call of [EIP76_PostProcessor_BCDF_Noise_Write] on a buffer that
    holds [A] at [Index] and [B] at [Index + 1]. *)
Lemma BCDF_Noise_Write_run m data n A B :
  let a := IOArea m in
  0 <= Index a ->
  nth_error data (Z.to_nat (Index a)) = Some A ->
  nth_error data (Z.to_nat (wrap32 (Index a + 1))) = Some B ->
  EIP76_PostProcessor_BCDF_Noise_Write K PTR (Some data) n m =
  Done EIP76_NO_ERROR
    (mkMachine
       (mkIOArea (Device a) EIP76_STATE_KAT_SP80090_BCDF_NOISE (SavedControl a)
          (if n <=? wrap32 (Index a + 2) then 0 else wrap32 (Index a + 2))
          (Flag a))
       (Events m) (BlockCount m) (Data m)
       (trace m ++
        [EvWrite (Device a) (EIP76_REG_MAINSHIFTREG_L K) (BCDF_Noise_Pack A B);
         EvWrite (Device a) (EIP76_REG_MAINSHIFTREG_H K) (BCDF_Noise_Pack B A)])).
Proof.
  destruct m as [[d st sc i f] ev bc dat tr]. eip_simpl. intros Hi HA HB.
  pose proof (wrap32_range (i + 1)) as [W _].
  unfold EIP76_PostProcessor_BCDF_Noise_Write. eip_run.
  rewrite (bind_Done _ _ _ _ _ (load_ok _ _ _ _ Hi HA)). eip_run.
  rewrite (bind_Done _ _ _ _ _ (load_ok _ _ _ _ W HB)). eip_run.
  rewrite (bind_Done _ _ _ _ _ (load_ok _ _ _ _ W HB)). eip_run.
  rewrite (bind_Done _ _ _ _ _ (load_ok _ _ _ _ Hi HA)). eip_run.
  destruct (n <=? wrap32 (i + 2)); eip_tail; machine_norm;
    rewrite <- !app_assoc; reflexivity.
Qed.

(** ** Claim C6 *)

(** C6. For 32-bit samples [A] at [Index] and [B] at [Index + 1],
    [EIP76_PostProcessor_BCDF_Noise_Write] writes
    [L = ((A & 0x7FFFFFFF) << 1) | ((B >> 31) & 1)] to the low half of the
    shift register and [H = ((B & 0x7FFFFFFF) << 1) | ((A >> 31) & 1)] to the
    high half.  The packing is invertible: [L >> 1] and [H >> 1] are the low
    31 bits of [A] and of [B], the low bit of [L] is bit 31 of [B], the low
    bit of [H] is bit 31 of [A], and both samples are recovered whole. *)
Theorem BCDF_Noise_Pack_invertible m data n A B :
  let a := IOArea m in
  let L := BCDF_Noise_Pack A B in
  let H := BCDF_Noise_Pack B A in
  0 <= A < 2 ^ 32 -> 0 <= B < 2 ^ 32 ->
  0 <= Index a ->
  nth_error data (Z.to_nat (Index a)) = Some A ->
  nth_error data (Z.to_nat (wrap32 (Index a + 1))) = Some B ->
  (exists m',
     EIP76_PostProcessor_BCDF_Noise_Write K PTR (Some data) n m =
       Done EIP76_NO_ERROR m' /\
     trace m' = trace m ++
       [EvWrite (Device a) (EIP76_REG_MAINSHIFTREG_L K) L;
        EvWrite (Device a) (EIP76_REG_MAINSHIFTREG_H K) H]) /\
  L = Z.lor (Z.shiftl (Z.land A 0x7FFFFFFF) 1) (Z.land (Z.shiftr B 31) 1) /\
  H = Z.lor (Z.shiftl (Z.land B 0x7FFFFFFF) 1) (Z.land (Z.shiftr A 31) 1) /\
  Z.shiftr L 1 = Z.land A 0x7FFFFFFF /\
  Z.shiftr H 1 = Z.land B 0x7FFFFFFF /\
  Z.land L 1 = Z.shiftr B 31 /\
  Z.land H 1 = Z.shiftr A 31 /\
  A = Z.lor (Z.shiftr L 1) (Z.shiftl (Z.land H 1) 31) /\
  B = Z.lor (Z.shiftr H 1) (Z.shiftl (Z.land L 1) 31).
Proof.
  cbv zeta. intros HA HB Hi NA NB. split.
  { eexists. split; [apply (BCDF_Noise_Write_run m data n A B Hi NA NB)|].
    reflexivity. }
  rewrite !BCDF_Noise_Pack_high, !BCDF_Noise_Pack_low.
  rewrite (top_bit_32 A HA), (top_bit_32 B HB).
  repeat split; try apply BCDF_Noise_Pack_no_wrap; try apply split_at_bit_31.
  - rewrite BCDF_Noise_Pack_no_wrap, (top_bit_32 B HB). reflexivity.
  - rewrite BCDF_Noise_Pack_no_wrap, (top_bit_32 A HA). reflexivity.
Qed.

End Noise_Write.

(** C6 on two samples with their top bits set and clear. *)
Lemma BCDF_Noise_Pack_invertible_witness :
  BCDF_Noise_Pack 0x80000001 0x7FFFFFFE = 0x00000002 /\
  BCDF_Noise_Pack 0x7FFFFFFE 0x80000001 = 0xFFFFFFFD /\
  0x80000001 = Z.lor (Z.shiftr 0x00000002 1) (Z.shiftl (Z.land 0xFFFFFFFD 1) 31) /\
  0x7FFFFFFE = Z.lor (Z.shiftr 0xFFFFFFFD 1) (Z.shiftl (Z.land 0x00000002 1) 31).
Proof.
  pose proof (BCDF_Noise_Pack_invertible EIP76_Example_Constants
    (example_machine EIP76_STATE_KAT_SP80090_BCDF_RESEEDED 0 false [])
    [0x80000001; 0x7FFFFFFE] 2 0x80000001 0x7FFFFFFE) as T.
  cbv zeta in T.
  destruct T as (_ & _ & _ & _ & _ & _ & _ & RA & RB);
    try reflexivity; try (split; [discriminate | reflexivity]).
  split; [reflexivity|]. split; [reflexivity|]. split; [exact RA | exact RB].
Defined.

Section Block_Index.

Variable K : EIP76_Constants.
Variable hw : list io_event -> Device_Handle_t -> Z -> Z.

Lemma room_stores m :
  room m ->
  forall k, In k [0; 1; 2; 3] ->
    0 <= wrap32 (Index (IOArea m) + k) < Z.of_nat (length (Data m)).
Proof.
  intros R k Hk. unfold room in R. rewrite Forall_forall in R.
  pose proof (wrap32_range (Index (IOArea m) + k)). specialize (R k Hk). lia.
Qed.

(** A ready status: one block is stored and [Index] moves on or is reset,
    whichever pass is under way. *)
Lemma BCDF_Result_Read_ready m n :
  n <= MASK_31_BITS ->
  EIP76_STATUS_IS_READY K (next_status K hw m) = true ->
  room m ->
  let i := Index (IOArea m) in
  exists st m',
    EIP76_PostProcessor_BCDF_Result_Read K hw PTR PTR PTR n m = Done st m' /\
    Index (IOArea m') =
      (if n <=? wrap32 (i + 4) then 0 else wrap32 (i + 4)) /\
    exists v0 v1 v2 v3, Data m' = stored (Data m) i v0 v1 v2 v3.
Proof.
  intros Hn Hr R. pose proof (room_stores m R) as S.
  unfold next_status in Hr. revert Hr S. clear R.
  destruct m as [[d s sc i f] ev bc dat tr]. eip_simpl. intros Hr S.
  pose proof (S 0 ltac:(simpl; auto)). pose proof (S 1 ltac:(simpl; auto)).
  pose proof (S 2 ltac:(simpl; auto)). pose proof (S 3 ltac:(simpl; auto)).
  unfold EIP76_PostProcessor_BCDF_Result_Read, EIP76_CHECK_INT_ATMOST, stored.
  replace (MASK_31_BITS <? n) with false by (symmetry; apply Z.ltb_ge; lia).
  eip_run. unfold read_of in Hv. rewrite <- Hv in Hr. rewrite Hr. eip_run.
  do 4 step_store.
  destruct (n <=? wrap32 (i + 4)); eip_run; [destruct f; eip_run|];
    eip_tail; machine_norm; do 2 eexists;
    (split; [reflexivity|]); (split; [reflexivity|]);
    do 4 eexists; reflexivity.
Qed.

Lemma BCDF_Result_Read_not_ready m n :
  n <= MASK_31_BITS ->
  EIP76_STATUS_IS_READY K (next_status K hw m) = false ->
  EIP76_PostProcessor_BCDF_Result_Read K hw PTR PTR PTR n m =
  Done EIP76_BUSY_RETRY_LATER
    (mkMachine
       (set_State EIP76_STATE_KAT_SP80090_BCDF_PROCESSING (IOArea m))
       (Z.land (next_status K hw m) (EIP76_EVENTS_MASK K)) (BlockCount m)
       (Data m)
       (trace m ++ [EvRead (Device (IOArea m)) (EIP76_REG_STATUS K)
                           (next_status K hw m)])).
Proof.
  intros Hn Hr. unfold next_status in *. revert Hr.
  destruct m as [[d s sc i f] ev bc dat tr]. eip_simpl. intros Hr.
  unfold EIP76_PostProcessor_BCDF_Result_Read, EIP76_CHECK_INT_ATMOST.
  replace (MASK_31_BITS <? n) with false by (symmetry; apply Z.ltb_ge; lia).
  eip_run. unfold read_of in Hv. rewrite <- Hv in Hr |- *. rewrite Hr.
  eip_tail. machine_norm. reflexivity.
Qed.

(** [Index_step] keeps a divisor of the step and of 2^32. *)
Lemma Index_step_mod q i k n :
  0 < q -> 2 ^ 32 mod q = 0 -> k mod q = 0 -> i mod q = 0 ->
  Index_step i k n mod q = 0.
Proof.
  intros Hq H32 Hk Hi. unfold Index_step.
  destruct (n <=? wrap32 (i + k)); [apply Z.mod_0_l; lia|].
  unfold wrap32.
  apply Z.mod_divide in H32, Hk, Hi; try lia.
  apply Z.mod_divide; [lia|].
  destruct H32 as [a Ha]. destruct Hk as [b ->]. destruct Hi as [c ->].
  rewrite Z.mod_eq by lia. rewrite Ha.
  exists (c + b - (c * q + b * q) / (a * q) * a). lia.
Qed.

End Block_Index.

Section Block_Index_Calls.

Variable PP : EIP76_PostProcessor_Type.
Variable K : EIP76_Constants.
Variable hw : list io_event -> Device_Handle_t -> Z -> Z.

(** What each returning call does to [Index]. *)
Lemma run_Index fuel c m st m' :
  run PP K hw fuel c m = Done st m' ->
  Index (IOArea m') = Index_after K hw c st m.
Proof.
  intros H. unfold Index_after, Index_step, next_status.
  destruct m as [[d s sc i f] ev bc dat tr].
  destruct c; destruct_args; destruct PP; unfold_ops H; exec H.
  all: eip_simpl.
  all: try reflexivity.
  all: unfold read_of in *; subst.
  all: repeat match goal with
              | C : ?b = _ |- context [if ?b then _ else _] => rewrite C
              end.
  all: reflexivity.
Qed.

(** A divisor [q] of 2^32 and of the steps taken keeps dividing [Index]
    along a returning call: any call for [q = 2], any call but a noise write
    for [q = 4]. *)
Lemma run_Index_mod q fuel c m st m' :
  q = 2 \/ (q = 4 /\ is_Noise_Write c = false) ->
  run PP K hw fuel c m = Done st m' ->
  Index (IOArea m) mod q = 0 -> Index (IOArea m') mod q = 0.
Proof.
  intros Q H A. rewrite (run_Index _ _ _ _ _ H). unfold Index_after.
  assert (Z0 : 0 mod q = 0) by (apply Z.mod_0_l; lia).
  assert (S2 : forall n, is_Noise_Write c = true ->
                Index_step (Index (IOArea m)) 2 n mod q = 0).
  { intros n N. destruct Q as [->|[_ Q]]; [|congruence].
    apply Index_step_mod; auto; lia. }
  assert (S4 : forall n, Index_step (Index (IOArea m)) 4 n mod q = 0).
  { intros n. destruct Q as [->|[-> _]]; apply Index_step_mod; auto; lia. }
  destruct st, c; auto.
  all: destruct (EIP76_STATUS_IS_READY K (next_status K hw m)); auto.
Qed.

Lemma run_all_Index_mod q fuel cs : forall m sts m',
  q = 2 \/ (q = 4 /\ Forall (fun c => is_Noise_Write c = false) cs) ->
  run_all PP K hw fuel cs m = Done sts m' ->
  Index (IOArea m) mod q = 0 -> Index (IOArea m') mod q = 0.
Proof.
  induction cs as [|c cs IH]; intros m sts m' Q H A.
  - cbn in H. injection H as _ <-. exact A.
  - cbn [run_all] in H.
    apply bind_inv in H. destruct H as (st & m1 & R & H).
    apply bind_inv in H. destruct H as (sts1 & m2 & R1 & H).
    cbn in H. injection H as _ <-.
    apply (IH m1 sts1 m2); [| exact R1 |].
    + destruct Q as [Q|[Q F]]; [left; exact Q|].
      right. split; [exact Q|]. inversion F; assumption.
    + apply (run_Index_mod q fuel c m st m1); [| exact R | exact A].
      destruct Q as [Q|[Q F]]; [left; exact Q|].
      right. split; [exact Q|]. inversion F; assumption.
Qed.

(** ** Claim C7 (as amended) *)

(** C7, amended.  [Index] is a 32-bit cursor that the noise loop and the
    result loop share.  Whenever a call returns, [Index_after] gives the
    [Index] it leaves: an invalid-parameter return and every operation
    outside the BC_DF loops leave it alone,
    [EIP76_PostProcessor_BCDF_PS_AI_Write] sets it to 0,
    [EIP76_PostProcessor_BCDF_Noise_Write] advances it by 2 and
    [EIP76_PostProcessor_BCDF_Result_Read], when the status it reads is
    ready, by 4 (it leaves it alone otherwise), modulo 2^32, and the
    advanced [Index] is reset to 0 when it is at or beyond the count of the
    call, not only when it equals it.  Both calls do return when the buffer
    has the words at the cursor.  So after such a step [Index] is 0 or below
    the count of that call.  Along any sequence of returning calls [Index]
    stays even once it is even, and stays a multiple of 4 once it is one as
    long as the sequence has no noise write.  When the step divides the
    count and [Index] is a multiple of the step below the count, the step
    does not pass the count and the reset comes exactly when [Index] reaches
    it. *)
Theorem block_index_invariant fuel :
  (forall c m st m',
     run PP K hw fuel c m = Done st m' ->
     Index (IOArea m') = Index_after K hw c st m) /\
  (forall m data n A B,
     0 <= Index (IOArea m) ->
     nth_error data (Z.to_nat (Index (IOArea m))) = Some A ->
     nth_error data (Z.to_nat (wrap32 (Index (IOArea m) + 1))) = Some B ->
     exists m',
       EIP76_PostProcessor_BCDF_Noise_Write K PTR (Some data) n m =
         Done EIP76_NO_ERROR m' /\
       Index (IOArea m') = Index_step (Index (IOArea m)) 2 n) /\
  (forall m n,
     n <= MASK_31_BITS ->
     (EIP76_STATUS_IS_READY K (next_status K hw m) = true -> room m) ->
     exists st m',
       EIP76_PostProcessor_BCDF_Result_Read K hw PTR PTR PTR n m =
         Done st m' /\
       st <> EIP76_INVALID_PARAMETER /\
       Index (IOArea m') =
         if EIP76_STATUS_IS_READY K (next_status K hw m)
         then Index_step (Index (IOArea m)) 4 n else Index (IOArea m)) /\
  (forall cs m sts m',
     run_all PP K hw fuel cs m = Done sts m' ->
     (Index (IOArea m) mod 2 = 0 -> Index (IOArea m') mod 2 = 0) /\
     (Forall (fun c => is_Noise_Write c = false) cs ->
      Index (IOArea m) mod 4 = 0 -> Index (IOArea m') mod 4 = 0)) /\
  (forall i k n,
     (Index_step i k n = 0 \/ 0 <= Index_step i k n < n) /\
     (0 <= i + k < 2 ^ 32 ->
      Index_step i k n = if n <=? i + k then 0 else i + k) /\
     (0 < k -> 2 ^ 32 mod k = 0 -> i mod k = 0 -> n mod k = 0 ->
      0 <= i < n -> n < 2 ^ 32 ->
      i + k <= n /\ Index_step i k n = if i + k =? n then 0 else i + k)).
Proof.
  split; [|split; [|split; [|split]]].
  - intros c m st m'. apply run_Index.
  - intros m data n A B Hi HA HB. eexists.
    split; [apply (BCDF_Noise_Write_run K m data n A B Hi HA HB)|].
    reflexivity.
  - intros m n Hn R.
    destruct (EIP76_STATUS_IS_READY K (next_status K hw m)) eqn:Rd.
    + destruct (BCDF_Result_Read_ready K hw m n Hn Rd (R eq_refl))
        as (st & m' & E & I & _).
      exists st, m'. split; [exact E|]. split; [|exact I].
      intros ->.
      unfold EIP76_PostProcessor_BCDF_Result_Read, EIP76_CHECK_INT_ATMOST,
        EIP76_CHECK_POINTER in E.
      replace (MASK_31_BITS <? n) with false in E
        by (symmetry; apply Z.ltb_ge; lia).
      unfold_reads_in E. unfold BCDF_Result_Read_stay in E.
      exec E; discriminate.
    + eexists. eexists.
      split; [apply BCDF_Result_Read_not_ready; assumption|].
      split; [discriminate|].
      cbn [IOArea]. destruct (IOArea m). reflexivity.
  - intros cs m sts m' H. split.
    + apply (run_all_Index_mod 2 fuel cs m sts m'); auto.
    + intros F. apply (run_all_Index_mod 4 fuel cs m sts m'); auto.
  - intros i k n. unfold Index_step. split; [|split].
    + pose proof (wrap32_range (i + k)).
      destruct (n <=? wrap32 (i + k)) eqn:L; [left; reflexivity|].
      apply Z.leb_gt in L. right. lia.
    + intros B. rewrite (wrap32_small _ B). reflexivity.
    + intros Hk H32 Ha Hm Hi Hn.
      assert (L : i + k <= n).
      { apply Z.mod_divide in Ha, Hm; try lia.
        destruct Ha as [a ->]. destruct Hm as [b ->].
        assert (a + 1 <= b) by nia. nia. }
      split; [exact L|].
      rewrite wrap32_small by lia.
      destruct (i + k =? n) eqn:E.
      * apply Z.eqb_eq in E.
        replace (n <=? i + k) with true by (symmetry; apply Z.leb_le; lia).
        reflexivity.
      * apply Z.eqb_neq in E.
        replace (n <=? i + k) with false by (symmetry; apply Z.leb_gt; lia).
        reflexivity.
Qed.

End Block_Index_Calls.

(** The amended C7 on a run of the self-test: the personalization string,
    two noise writes that close the noise loop, the generate request and
    the two block reads of the first pass. *)
Lemma block_index_invariant_witness :
  exists sts m',
    run_all EIP76_POST_PROCESSOR_BC_DF EIP76_Example_Constants (hw_const 1)
      0%nat
      [BCDF_PS_AI_Write PTR (Some [1; 2; 3; 4; 5; 6; 7; 8; 9; 10; 11; 12]) 12
         PTR;
       BCDF_Noise_Write PTR (Some [1; 2; 3; 4]) 4;
       BCDF_Noise_Write PTR (Some [1; 2; 3; 4]) 4;
       BCDF_Generate_Start PTR 8 PTR;
       BCDF_Result_Read PTR PTR PTR 8;
       BCDF_Result_Read PTR PTR PTR 8]
      (example_machine EIP76_STATE_KAT_START 0 false
         [0; 0; 0; 0; 0; 0; 0; 0]) = Done sts m' /\
    Index (IOArea m') mod 2 = 0.
Proof.
  assert (E : exists sts m',
    run_all EIP76_POST_PROCESSOR_BC_DF EIP76_Example_Constants (hw_const 1)
      0%nat
      [BCDF_PS_AI_Write PTR (Some [1; 2; 3; 4; 5; 6; 7; 8; 9; 10; 11; 12]) 12
         PTR;
       BCDF_Noise_Write PTR (Some [1; 2; 3; 4]) 4;
       BCDF_Noise_Write PTR (Some [1; 2; 3; 4]) 4;
       BCDF_Generate_Start PTR 8 PTR;
       BCDF_Result_Read PTR PTR PTR 8;
       BCDF_Result_Read PTR PTR PTR 8]
      (example_machine EIP76_STATE_KAT_START 0 false
         [0; 0; 0; 0; 0; 0; 0; 0]) = Done sts m').
  { do 2 eexists. vm_compute. reflexivity. }
  destruct E as (sts & m' & E). exists sts, m'. split; [exact E|].
  exact (proj1 (proj1 (proj2 (proj2 (proj2 (block_index_invariant
           _ _ _ _))))
           _ _ _ _ E) eq_refl).
Defined.

(** C7 as stated fails.  [Index] is not always a multiple of 4 in the
    result loop: after a noise write that leaves the noise loop open at
    [Index = 2], the generate request and a block read leave [Index = 6],
    the block stored at words 2 to 5.  And [Index] passes a count that is
    not a multiple of the step: with six words asked for and [Index = 4] the
    block read stores words 4 to 7 and resets [Index] from 8; with three
    samples and [Index = 2] the noise write packs samples 2 and 3 and resets
    [Index] from 4. *)
Lemma block_index_passes_the_count :
  match
    run_all EIP76_POST_PROCESSOR_BC_DF EIP76_Example_Constants (hw_const 1)
      0%nat
      [BCDF_PS_AI_Write PTR (Some [1; 2; 3; 4; 5; 6; 7; 8; 9; 10; 11; 12]) 12
         PTR;
       BCDF_Noise_Write PTR (Some [1; 2; 3; 4]) 4;
       BCDF_Generate_Start PTR 8 PTR;
       BCDF_Result_Read PTR PTR PTR 8]
      (example_machine EIP76_STATE_KAT_START 0 false
         [0; 0; 0; 0; 0; 0; 0; 0])
  with
  | Done sts m' =>
      sts = [EIP76_NO_ERROR; EIP76_NO_ERROR; EIP76_NO_ERROR;
             EIP76_BUSY_RETRY_LATER] /\
      IOArea m' =
        example_IOArea EIP76_STATE_KAT_SP80090_BCDF_PROCESSING 6 false /\
      Data m' = [0; 0; 1; 1; 1; 1; 0; 0] /\
      6 mod 4 = 2
  | _ => False
  end /\
  EIP76_PostProcessor_BCDF_Result_Read EIP76_Example_Constants (hw_const 1)
    PTR PTR PTR 6
    (example_machine EIP76_STATE_KAT_SP80090_BCDF_PROCESSING 4 false
       [0; 0; 0; 0; 0; 0; 0; 0]) =
  Done EIP76_PROCESSING
    (mkMachine (example_IOArea EIP76_STATE_KAT_START 0 true) 0 0
       [0; 0; 0; 0; 1; 1; 1; 1]
       [EvRead (Some O) 0x10 1; EvRead (Some O) 0x00 1;
        EvRead (Some O) 0x04 1; EvRead (Some O) 0x08 1;
        EvRead (Some O) 0x0C 1; EvWrite (Some O) 0x10 1;
        EvWrite (Some O) 0x14 0x8000]) /\
  EIP76_PostProcessor_BCDF_Noise_Write EIP76_Example_Constants PTR
    (Some [1; 2; 3; 4]) 3
    (example_machine EIP76_STATE_KAT_SP80090_BCDF_NOISE 2 false []) =
  Done EIP76_NO_ERROR
    (mkMachine (example_IOArea EIP76_STATE_KAT_SP80090_BCDF_NOISE 0 false)
       0 0 []
       [EvWrite (Some O) 0x30 (BCDF_Noise_Pack 3 4);
        EvWrite (Some O) 0x34 (BCDF_Noise_Pack 4 3)]).
Proof. vm_compute. repeat split. Qed.

Section Result_Read.

Variable K : EIP76_Constants.
Variable hw : list io_event -> Device_Handle_t -> Z -> Z.

(** ** Claim C8 *)


End Result_Read.


Section PS_AI.

Variable PP : EIP76_PostProcessor_Type.
Variable K : EIP76_Constants.
Variable hw : list io_event -> Device_Handle_t -> Z -> Z.

(** ** Claim C9 *)

(** C9. Whenever a call that writes the PS/AI registers
    ([EIP76_PostProcessor_PS_AI_Write], [EIP76_PostProcessor_Reseed_Write],
    [EIP76_PostProcessor_NIST_Write], [EIP76_PostProcessor_BCDF_PS_AI_Write])
    returns [EIP76_NO_ERROR] for a word count below
    [EIP76_MAX_PS_AI_WORD_COUNT], the register writes of the call are the
    supplied words to consecutive slots from [EIP76_REG_PS_AI_0] on,
    followed by one write of zero to [EIP76_REG_PS_AI_11]. *)
Theorem PS_AI_Write_zero_fills_slot_11 fuel c data n m m' :
  PS_AI_args c = Some (Some data, n) ->
  n < EIP76_MAX_PS_AI_WORD_COUNT K ->
  run PP K hw fuel c m = Done EIP76_NO_ERROR m' ->
  exists t,
    trace m' = trace m ++ t /\
    writes_of t =
      PS_AI_events K (Device (IOArea m)) 0 (firstn (Z.to_nat n) data) ++
      [EvWrite (Device (IOArea m)) (EIP76_REG_PS_AI_11 K) 0].
Proof.
  intros A Hn H.
  destruct c; try discriminate A; cbn [PS_AI_args] in A;
    inversion A; subst; clear A; destruct_args; unfold_ops H; exec H.
  all: try match goal with
    | W : forall l, Some ?d = Some l -> _ |- _ =>
        specialize (W d eq_refl (Z.le_refl 0)); cbn [skipn Z.to_nat] in W;
        subst
    end.
  all: repeat match goal with
    | C : (_ <? _) = false |- _ => apply Z.ltb_ge in C
    | C : (_ || _) = false |- _ => apply orb_false_elim in C; destruct C
    end; try lia.
  all: eip_simpl; rewrite <- ?app_assoc; eexists; (split; [reflexivity|]).
  all: rewrite ?writes_of_app, ?writes_of_PS_AI_events.
  all: repeat match goal with W : writes_of _ = [] |- _ => rewrite W end.
  all: reflexivity.
Qed.

End PS_AI.

(** C9 on a run: four words, then the zero for slot 11. *)
Lemma PS_AI_Write_zero_fills_slot_11_witness :
  exists m' t,
    EIP76_PostProcessor_PS_AI_Write EIP76_Example_Constants (hw_const 0)
      PTR (Some [7; 8; 9; 10]) 4 PTR
      (example_machine EIP76_STATE_RANDOM_GENERATING 0 false []) =
    Done EIP76_NO_ERROR m' /\
    trace m' = t /\
    writes_of t =
      [EvWrite (Some O) 0x40 7; EvWrite (Some O) 0x44 8;
       EvWrite (Some O) 0x48 9; EvWrite (Some O) 0x4C 10;
       EvWrite (Some O) 0x6C 0].
Proof.
  destruct (PS_AI_Write_zero_fills_slot_11 EIP76_POST_PROCESSOR_BC_DF
              EIP76_Example_Constants (hw_const 0) 0%nat
              (PS_AI_Write PTR (Some [7; 8; 9; 10]) 4 PTR) [7; 8; 9; 10] 4
              (example_machine EIP76_STATE_RANDOM_GENERATING 0 false []) _
              eq_refl eq_refl eq_refl) as (t & Ht & Hw).
  eexists. exists t. split; [reflexivity|]. split; [exact Ht | exact Hw].
Defined.

Section Context_Frame.

Variable PP : EIP76_PostProcessor_Type.
Variable K : EIP76_Constants.
Variable hw : list io_event -> Device_Handle_t -> Z -> Z.

(** ** Claim C10 (as amended) *)

(** C10, amended.  A returning call never changes [SavedControl] or the
    device handle.  Every operation outside the BC_DF group, and
    [EIP76_PostProcessor_BCDF_Status_Get] and
    [EIP76_PostProcessor_BCDF_Generate_Start], change at most [State];
    [EIP76_PostProcessor_BCDF_PS_AI_Write] and
    [EIP76_PostProcessor_BCDF_Noise_Write] change at most [State] and
    [Index]; [EIP76_PostProcessor_BCDF_Result_Read] changes at most [State],
    [Index] and [Flag].  When [EIP76_PostProcessor_BCDF_Result_Read]
    returns [EIP76_PROCESSING], [Flag] was false and the three fields are
    left at [EIP76_STATE_KAT_START], 0 and true; when it returns
    [EIP76_NO_ERROR], [Flag] was true and they are left at
    [EIP76_STATE_SP80090_RESEED_START], 0 and false: such a call always
    changes [Flag], and changes [State] and [Index] as well unless they
    already had those values. *)
Theorem context_fields_changed fuel c m st m' :
  run PP K hw fuel c m = Done st m' ->
  let a := IOArea m in
  Device (IOArea m') = Device a /\
  SavedControl (IOArea m') = SavedControl a /\
  match c with
  | BCDF_Result_Read _ _ _ _ =>
      (exists s i f, IOArea m' = set_State s (set_Index i (set_Flag f a))) /\
      (st = EIP76_PROCESSING ->
       Flag a = false /\
       IOArea m' =
         set_State EIP76_STATE_KAT_START (set_Index 0 (set_Flag true a))) /\
      (st = EIP76_NO_ERROR ->
       Flag a = true /\
       IOArea m' =
         set_State EIP76_STATE_SP80090_RESEED_START
           (set_Index 0 (set_Flag false a)))
  | BCDF_PS_AI_Write _ _ _ _ | BCDF_Noise_Write _ _ _ =>
      exists s i, IOArea m' = set_State s (set_Index i a)
  | _ => exists s, IOArea m' = set_State s a
  end.
Proof.
  intros H. cbv zeta. destruct m as [[d s sc i f] ev bc dat tr].
  destruct c; destruct_args; destruct PP; unfold_ops H; exec H.
  all: eip_simpl; (split; [reflexivity|]); (split; [reflexivity|]).
  all: cbv [set_State set_Index set_Flag Device State SavedControl Index Flag].
  all: repeat match goal with
              | |- _ /\ _ => split
              | |- _ = _ -> _ => intros ?; try discriminate
              | |- exists _, _ => eexists
              end.
  all: reflexivity.
Qed.

End Context_Frame.

(** The amended C10 on a run. *)
Lemma context_fields_changed_witness :
  exists m',
    run EIP76_POST_PROCESSOR_BC_DF EIP76_Example_Constants (hw_const 1) 0%nat
      (BCDF_Result_Read PTR PTR PTR 8)
      (example_machine EIP76_STATE_KAT_SP80090_BCDF_PROCESSING 4 false
         [0; 0; 0; 0; 0; 0; 0; 0]) = Done EIP76_PROCESSING m' /\
    SavedControl (IOArea m') = 0x5A.
Proof.
  assert (E : exists m',
    run EIP76_POST_PROCESSOR_BC_DF EIP76_Example_Constants (hw_const 1) 0%nat
      (BCDF_Result_Read PTR PTR PTR 8)
      (example_machine EIP76_STATE_KAT_SP80090_BCDF_PROCESSING 4 false
         [0; 0; 0; 0; 0; 0; 0; 0]) = Done EIP76_PROCESSING m').
  { eexists. vm_compute. reflexivity. }
  destruct E as (m' & E). exists m'. split; [exact E|].
  exact (proj1 (proj2 (context_fields_changed _ _ _ _ _ _ _ _ E))).
Defined.

(** C10 as stated fails: one call of
    [EIP76_PostProcessor_BCDF_Result_Read] that completes the first pass
    changes [State], [Index] and [Flag] together. *)
Lemma BCDF_Result_Read_changes_three_fields :
  EIP76_PostProcessor_BCDF_Result_Read EIP76_Example_Constants (hw_const 1)
    PTR PTR PTR 8
    (example_machine EIP76_STATE_KAT_SP80090_BCDF_PROCESSING 4 false
       [0; 0; 0; 0; 0; 0; 0; 0]) =
  Done EIP76_PROCESSING
    (mkMachine (example_IOArea EIP76_STATE_KAT_START 0 true) 0 0
       [0; 0; 0; 0; 1; 1; 1; 1]
       [EvRead (Some O) 0x10 1; EvRead (Some O) 0x00 1;
        EvRead (Some O) 0x04 1; EvRead (Some O) 0x08 1;
        EvRead (Some O) 0x0C 1; EvWrite (Some O) 0x10 1;
        EvWrite (Some O) 0x14 0x8000]).
Proof. vm_compute. reflexivity. Qed.
(** * Further properties of the module *)

(** ** Computations confined to a device handle *)

Section Confined.

Variable K : EIP76_Constants.
Variable hw : list io_event -> Device_Handle_t -> Z -> Z.
Variable P : Device_Handle_t -> io_event -> Prop.
Variable d : Device_Handle_t.

Lemma confined_silent {A} (c : M A) :
  (forall m, trace (machine_of (c m)) = trace m /\
             Device (IOArea (machine_of (c m))) = Device (IOArea m)) ->
  confined P d c.
Proof.
  intros H m Hd. destruct (H m) as [Ht Hdev]. split; [congruence|].
  exists []. rewrite app_nil_r. auto.
Qed.

Lemma confined_ret {A} (a : A) : confined P d (ret a).
Proof. apply confined_silent. intros m. auto. Qed.

Lemma confined_spin {A} : confined P d (@spin A).
Proof. apply confined_silent. intros m. auto. Qed.

Lemma confined_bind {A B} (c : M A) (k : A -> M B) :
  confined P d c -> (forall a, confined P d (k a)) -> confined P d (bind c k).
Proof.
  intros Hc Hk m Hd. destruct (Hc m Hd) as (D1 & t1 & T1 & F1).
  unfold bind. destruct (c m) as [a m1|m1|m1]; cbn [machine_of] in *.
  - destruct (Hk a m1 D1) as (D2 & t2 & T2 & F2). split; [exact D2|].
    exists (t1 ++ t2). rewrite T2, T1, app_assoc. split; [reflexivity|].
    apply Forall_app. auto.
  - split; [exact D1|]. exists t1. auto.
  - split; [exact D1|]. exists t1. auto.
Qed.

Lemma confined_get_Device {A} (k : Device_Handle_t -> M A) :
  confined P d (k d) -> confined P d (bind get_Device k).
Proof.
  intros H m Hd. unfold bind, get_Device. rewrite Hd. apply H. exact Hd.
Qed.

Lemma confined_get_Index : confined P d get_Index.
Proof. apply confined_silent. intros m. auto. Qed.

Lemma confined_get_Flag : confined P d get_Flag.
Proof. apply confined_silent. intros m. auto. Qed.

Lemma confined_get_SavedControl : confined P d get_SavedControl.
Proof. apply confined_silent. intros m. auto. Qed.

Lemma confined_put_Index i : confined P d (put_Index i).
Proof. apply confined_silent. intros m. auto. Qed.

Lemma confined_put_Flag f : confined P d (put_Flag f).
Proof. apply confined_silent. intros m. auto. Qed.

Lemma confined_State_Set s : confined P d (EIP76_State_Set s).
Proof. apply confined_silent. intros m. auto. Qed.

Lemma confined_store_Events p v : confined P d (store_Events p v).
Proof.
  apply confined_silent. intros m. unfold store_Events.
  destruct (is_null p); auto.
Qed.

Lemma confined_store_BlockCount p v : confined P d (store_BlockCount p v).
Proof.
  apply confined_silent. intros m. unfold store_BlockCount.
  destruct (is_null p); auto.
Qed.

Lemma confined_load p i : confined P d (load p i).
Proof.
  apply confined_silent. intros m. unfold load.
  destruct p as [l|]; [|auto]. destruct (i <? 0); [auto|].
  destruct (nth_error l (Z.to_nat i)); auto.
Qed.

Lemma confined_store_Data p i v : confined P d (store_Data p i v).
Proof.
  apply confined_silent. intros m. unfold store_Data.
  destruct (is_null p); [auto|].
  destruct ((i <? 0) || (Z.of_nat (length (Data m)) <=? i)); auto.
Qed.

Lemma confined_event {A} (a : A) e :
  P d e -> confined P d (fun m => Done a (log e m)).
Proof.
  intros He m Hd. cbn. split; [exact Hd|]. exists [e]. auto.
Qed.

Lemma confined_Read32 d' offset :
  (forall v, P d (EvRead d' offset v)) ->
  confined P d (EIP76_Read32 hw d' offset).
Proof.
  intros He m Hd. cbn. split; [exact Hd|]. eexists [_]. auto.
Qed.

Lemma confined_Write32 d' offset v :
  P d (EvWrite d' offset v) -> confined P d (EIP76_Write32 d' offset v).
Proof. apply confined_event. Qed.

Lemma confined_printf line : P d (EvPrintf line) -> confined P d (printf line).
Proof. apply confined_event. Qed.

Hypothesis P_read : forall offset v, P d (EvRead d offset v).
Hypothesis P_write : forall offset v, P d (EvWrite d offset v).

Lemma confined_PS_AI_Write_from p n : forall i,
  confined P d (PS_AI_Write_from K n i d p).
Proof.
  induction n as [|n IH]; intros i; cbn [PS_AI_Write_from].
  - apply confined_ret.
  - apply confined_bind; [apply confined_load|]. intros w.
    apply confined_bind; [apply confined_Write32, P_write|]. intros _.
    apply IH.
Qed.

Lemma confined_KEY_WR_from p n : forall i,
  confined P d (EIP76_KEY_WR_from K n i d p).
Proof.
  induction n as [|n IH]; intros i; cbn [EIP76_KEY_WR_from].
  - apply confined_ret.
  - apply confined_bind; [apply confined_load|]. intros w.
    apply confined_bind; [apply confined_Write32, P_write|]. intros _.
    apply IH.
Qed.

Lemma confined_Reseed_Start_wait Mask fuel : forall RegVal,
  confined P d (Reseed_Start_wait K hw fuel d Mask RegVal).
Proof.
  induction fuel as [|fuel IH]; intros RegVal; cbn [Reseed_Start_wait];
    destruct (Z.land RegVal Mask =? 0);
    try apply confined_ret; try apply confined_spin.
  apply confined_bind; [apply confined_Read32, P_read|]. exact IH.
Qed.

Lemma confined_Reseed_Write_wait fuel :
  (forall v, P d (EvRead None (EIP76_REG_CONTROL K) v)) ->
  confined P d (Reseed_Write_wait K hw fuel).
Proof.
  intros HN. induction fuel as [|fuel IH]; cbn [Reseed_Write_wait].
  - apply confined_spin.
  - apply confined_bind; [apply confined_Read32, HN|]. intros v.
    destruct (Z.land v 32768 =? 0); [apply confined_ret | exact IH].
Qed.

End Confined.

Section Short_Buffer.

Variable K : EIP76_Constants.

Lemma skipn_nth_error (l : list Z) : forall k w,
  nth_error l k = Some w -> skipn k l = w :: skipn (S k) l.
Proof.
  induction l as [|h t IH]; intros [|k] w N; cbn in *; try discriminate.
  - injection N as ->. reflexivity.
  - apply (IH k w N).
Qed.

(** A buffer that ends before the word count is reached: the words it has
    are written, then the read past its end faults. *)
Lemma PS_AI_Write_from_short n : forall i d l m,
  0 <= i -> (Z.to_nat i <= length l)%nat -> (length l < Z.to_nat i + n)%nat ->
  PS_AI_Write_from K n i d (Some l) m =
  Fault (add_trace (PS_AI_events K d i (skipn (Z.to_nat i) l)) m).
Proof.
  induction n as [|n IH]; intros i d l m Hi Hl Hn; [lia|].
  cbn [PS_AI_Write_from].
  destruct (nth_error l (Z.to_nat i)) as [w|] eqn:N.
  - rewrite (bind_Done _ _ _ _ _ (load_ok _ _ _ m Hi N)).
    unfold EIP76_Write32. cbn [bind].
    assert (Z.to_nat i < length l)%nat
      by (apply nth_error_Some; congruence).
    rewrite IH; [|lia|rewrite Z_to_nat_succ by lia; lia
                 |rewrite Z_to_nat_succ by lia; lia].
    rewrite log_add_trace, add_trace_app, Z_to_nat_succ by lia.
    rewrite (skipn_nth_error _ _ _ N). reflexivity.
  - unfold bind, load. destruct (i <? 0) eqn:E; [apply Z.ltb_lt in E; lia|].
    rewrite N. apply nth_error_None in N.
    rewrite skipn_all2 by exact N. cbn [PS_AI_events].
    rewrite add_trace_nil. reflexivity.
Qed.

End Short_Buffer.
(** ** What every call does *)

Section All_Calls.

Variable PP : EIP76_PostProcessor_Type.
Variable K : EIP76_Constants.
Variable hw : list io_event -> Device_Handle_t -> Z -> Z.

(** X1. The state machine as the module drives it.  Whenever a call
    returns, the operation and the status it returns fix the state it
    leaves behind by the table [state_after], whatever the state before: a
    success or a progress report installs one fixed state; an invalid
    parameter, an illegal-in-state and the busy returns of
    [EIP76_PostProcessor_IsBusy], [EIP76_PostProcessor_IsReady] and
    [EIP76_PostProcessor_BCDF_Generate_Start] keep the state;
    [EIP76_PostProcessor_BlockCount_Get] and [EIP76_PostProcessor_Key_Write]
    never change it; and no call returns a status outside its row of the
    table. *)
Theorem state_after_call fuel c m st m' :
  run PP K hw fuel c m = Done st m' ->
  state_after PP c st (State (IOArea m)) = Some (State (IOArea m')).
Proof.
  intros H. destruct c; destruct_args; destruct PP; unfold_ops H; exec H.
  all: reflexivity.
Qed.

(** X2. An invalid-parameter return has done nothing: the machine is the
    one the call started from, without a register access or a store.  The
    one exception is the block-count check of
    [EIP76_PostProcessor_BCDF_Generate_Start], which comes after the
    function has read the control and status registers and stored the event
    word; even then no register is written and the I/O area is as it
    was. *)
Theorem invalid_parameter_no_effect fuel c m m' :
  run PP K hw fuel c m = Done EIP76_INVALID_PARAMETER m' ->
  match c with
  | BCDF_Generate_Start IOArea_p WordCount _ =>
      (IOArea_p = NULL /\ m' = m) \/
      (IOArea_p = PTR /\
       let d := Device (IOArea m) in
       exists cv s,
         m' = set_Events (Z.land s (EIP76_EVENTS_MASK K))
                (add_trace [EvRead d (EIP76_REG_CONTROL K) cv;
                            EvRead d (EIP76_REG_STATUS K) s] m) /\
         EIP76_REQUEST_DATA_MAX_BLK_COUNT K <
           wrap32 (wrap32 (WordCount + 3) / 4 -
                   wrap32 (Z.land s MASK_1_BIT +
                           Z.land (Z.shiftr s 16) MASK_8_BITS)))
  | _ => m' = m
  end.
Proof.
  intros H. destruct c; destruct_args; destruct PP; unfold_ops H; exec H.
  all: try reflexivity.
  all: try (left; split; reflexivity).
  all: right; split; [reflexivity|]; cbv zeta; do 2 eexists.
  all: split; [destruct m; machine_norm;
               rewrite <- app_assoc; reflexivity
              | apply Z.ltb_lt; assumption].
Qed.

(** X3. The caller's memory.  A returning call never changes the length of
    the output buffer; only [EIP76_PostProcessor_Result_Read] (and only when
    it succeeds) and [EIP76_PostProcessor_BCDF_Result_Read] change its
    contents.  Only [EIP76_PostProcessor_BlockCount_Get] changes the block
    count, to 0 in the build without post-processor and to the word read
    from the block-count register otherwise.
    [EIP76_PostProcessor_BlockCount_Get], [EIP76_PostProcessor_Key_Write]
    and [EIP76_PostProcessor_BCDF_Noise_Write] leave the event word
    alone. *)
Theorem caller_memory_frame fuel c m st m' :
  run PP K hw fuel c m = Done st m' ->
  length (Data m') = length (Data m) /\
  match c with
  | Result_Read _ _ _ =>
      BlockCount m' = BlockCount m /\
      (st <> EIP76_NO_ERROR -> Data m' = Data m)
  | BCDF_Result_Read _ _ _ _ => BlockCount m' = BlockCount m
  | BlockCount_Get _ _ =>
      Data m' = Data m /\ Events m' = Events m /\
      (st = EIP76_NO_ERROR ->
       BlockCount m' =
       match PP with
       | EIP76_POST_PROCESSOR_NONE => 0
       | _ => wrap32 (hw (trace m) (Device (IOArea m)) (EIP76_REG_BLOCKCNT K))
       end)
  | Key_Write _ _ | BCDF_Noise_Write _ _ _ =>
      Data m' = Data m /\ BlockCount m' = BlockCount m /\
      Events m' = Events m
  | _ => Data m' = Data m /\ BlockCount m' = BlockCount m
  end.
Proof.
  intros H. destruct c; destruct_args; destruct PP; unfold_ops H; exec H.
  all: eip_simpl; rewrite ?length_list_set.
  all: repeat split; try reflexivity; try congruence.
  all: try (intros; match goal with
                    | Hv : read_of _ _ _ _ ?v |- _ = ?v => symmetry; exact Hv
                    end).
Qed.

(** X4. The event word.  Every call that reports events and returns a
    status other than invalid-parameter leaves in the event word the masked
    word of a status read it made itself, before it wrote any register: the
    events are the status as the call found it, not as it left it.  (For
    [EIP76_PostProcessor_Reseed_Start] this is the status before the reseed
    was started, not the one that ended the wait.)
    [EIP76_PostProcessor_BCDF_Generate_Start] returning busy has not read
    the status and keeps the old word. *)
Theorem events_from_status_before_writes fuel c m st m' :
  run PP K hw fuel c m = Done st m' ->
  st <> EIP76_INVALID_PARAMETER ->
  match c with
  | BlockCount_Get _ _ | Key_Write _ _ | BCDF_Noise_Write _ _ _ =>
      Events m' = Events m
  | BCDF_Generate_Start _ _ _ =>
      (st = EIP76_BUSY_RETRY_LATER /\ Events m' = Events m) \/
      events_from_status K hw m m'
  | _ => events_from_status K hw m m'
  end.
Proof.
  intros H N. destruct c; destruct_args; destruct PP; unfold_ops H; exec H.
  all: try congruence.
  all: try reflexivity.
  all: try (left; split; reflexivity).
  all: try right.
  all: unfold events_from_status; eip_simpl.
  all: rewrite <- ?app_assoc; cbn [app].
  all: lazymatch goal with
       | Hv : read_of _ (trace ?m0) _ (EIP76_REG_STATUS K) ?v |- _ =>
           exists [], v; eexists; rewrite app_nil_r;
           split; [reflexivity|]; split; [exact Hv|]; split; reflexivity
       | Hv : read_of _ ((((trace ?m0 ++ [?a]) ++ [?b]) ++ [?c]) ++ [?e]) _
                (EIP76_REG_STATUS K) ?v |- _ =>
           exists [a; b; c; e], v; eexists; rewrite <- !app_assoc in Hv;
           split; [reflexivity|]; split; [exact Hv|]; split; reflexivity
       | Hv : read_of _ (trace ?m0 ++ [?a]) _ (EIP76_REG_STATUS K) ?v |- _ =>
           exists [a], v; eexists;
           split; [reflexivity|]; split; [exact Hv|]; split; reflexivity
       end.
Qed.

End All_Calls.

(** X1 on a run: a status poll in the middle of the noise loop reports
    progress and leaves [EIP76_STATE_KAT_SP80090_BCDF_RESEEDED]. *)
Lemma state_after_call_witness :
  exists m',
    run EIP76_POST_PROCESSOR_BC_DF EIP76_Example_Constants (hw_const 0x100)
      0%nat (BCDF_Status_Get PTR PTR)
      (example_machine EIP76_STATE_KAT_SP80090_BCDF_NOISE 2 false []) =
    Done EIP76_PROCESSING m' /\
    state_after EIP76_POST_PROCESSOR_BC_DF (BCDF_Status_Get PTR PTR)
      EIP76_PROCESSING EIP76_STATE_KAT_SP80090_BCDF_NOISE =
    Some (State (IOArea m')).
Proof.
  assert (E : exists m',
    run EIP76_POST_PROCESSOR_BC_DF EIP76_Example_Constants (hw_const 0x100)
      0%nat (BCDF_Status_Get PTR PTR)
      (example_machine EIP76_STATE_KAT_SP80090_BCDF_NOISE 2 false []) =
    Done EIP76_PROCESSING m').
  { eexists. vm_compute. reflexivity. }
  destruct E as (m' & E). exists m'. split; [exact E|].
  exact (state_after_call _ _ _ _ _ _ _ _ E).
Defined.

(** X2 on a run: a word count of 13 is refused and nothing has happened. *)
Lemma invalid_parameter_no_effect_witness :
  exists m',
    run EIP76_POST_PROCESSOR_SP80090 EIP76_Example_Constants (hw_const 0x100)
      1%nat (Reseed_Write PTR (Some [1; 2; 3]) 13 PTR)
      (example_machine EIP76_STATE_SP80090_RESEED_READY 0 false []) =
    Done EIP76_INVALID_PARAMETER m' /\
    m' = example_machine EIP76_STATE_SP80090_RESEED_READY 0 false [].
Proof.
  assert (E : exists m',
    run EIP76_POST_PROCESSOR_SP80090 EIP76_Example_Constants (hw_const 0x100)
      1%nat (Reseed_Write PTR (Some [1; 2; 3]) 13 PTR)
      (example_machine EIP76_STATE_SP80090_RESEED_READY 0 false []) =
    Done EIP76_INVALID_PARAMETER m').
  { eexists. vm_compute. reflexivity. }
  destruct E as (m' & E). exists m'. split; [exact E|].
  exact (invalid_parameter_no_effect _ _ _ _ _ _ _ E).
Defined.

(** X3 on a run: a successful result read keeps the buffer's length and
    the block count. *)
Lemma caller_memory_frame_witness :
  exists m',
    run EIP76_POST_PROCESSOR_SP80090 EIP76_Example_Constants (hw_const 0x100)
      0%nat (Result_Read PTR PTR PTR)
      (example_machine EIP76_STATE_KAT_SP80090_PROCESSING 0 false
         [0; 0; 0; 0; 0]) =
    Done EIP76_NO_ERROR m' /\
    length (Data m') = 5%nat.
Proof.
  assert (E : exists m',
    run EIP76_POST_PROCESSOR_SP80090 EIP76_Example_Constants (hw_const 0x100)
      0%nat (Result_Read PTR PTR PTR)
      (example_machine EIP76_STATE_KAT_SP80090_PROCESSING 0 false
         [0; 0; 0; 0; 0]) =
    Done EIP76_NO_ERROR m').
  { eexists. vm_compute. reflexivity. }
  destruct E as (m' & E). exists m'. split; [exact E|].
  exact (proj1 (caller_memory_frame _ _ _ _ _ _ _ _ E)).
Defined.

(** X4 on a run: the events of a reseed start are those of the status read
    before the reseed was requested. *)
Lemma events_from_status_before_writes_witness :
  exists m',
    run EIP76_POST_PROCESSOR_SP80090 EIP76_Example_Constants (hw_after 8 0x100)
      3%nat (Reseed_Start PTR PTR)
      (example_machine EIP76_STATE_RANDOM_GENERATING 0 false []) =
    Done EIP76_NO_ERROR m' /\
    events_from_status EIP76_Example_Constants (hw_after 8 0x100)
      (example_machine EIP76_STATE_RANDOM_GENERATING 0 false []) m'.
Proof.
  assert (E : exists m',
    run EIP76_POST_PROCESSOR_SP80090 EIP76_Example_Constants (hw_after 8 0x100)
      3%nat (Reseed_Start PTR PTR)
      (example_machine EIP76_STATE_RANDOM_GENERATING 0 false []) =
    Done EIP76_NO_ERROR m').
  { eexists. vm_compute. reflexivity. }
  destruct E as (m' & E). exists m'. split; [exact E|].
  apply (events_from_status_before_writes _ _ _ _ _ _ _ _ E). discriminate.
Defined.

(** ** The device handle *)

Ltac on_device_fact :=
  intros; cbn [on_device on_device_or_null];
  first [ reflexivity | exact I | left; reflexivity
        | right; split; reflexivity ].

(** Confinement of a function body, statement by statement: [fact] settles
    what is asked of a single access, [loops] the word loops and the
    waits. *)
Ltac confine_with fact loops :=
  repeat first
    [ apply confined_ret
    | apply confined_spin
    | apply confined_get_Device
    | apply confined_get_Index
    | apply confined_get_Flag
    | apply confined_get_SavedControl
    | apply confined_put_Index
    | apply confined_put_Flag
    | apply confined_State_Set
    | apply confined_store_Events
    | apply confined_store_BlockCount
    | apply confined_load
    | apply confined_store_Data
    | apply confined_Read32; fact
    | apply confined_Write32; fact
    | apply confined_printf; fact
    | loops
    | apply confined_bind; [| intros ?]
    | match goal with
      | |- confined _ _ (if ?b then _ else _) => destruct b
      | |- confined _ _ (match ?x with _ => _ end) => destruct x
      end ].

Ltac unfold_bodies :=
  unfold run, EIP76_PostProcessor_BlockCount_Get,
    EIP76_PostProcessor_IsBusy,
    EIP76_PostProcessor_Reseed_Start, EIP76_PostProcessor_Reseed_Write,
    EIP76_PostProcessor_NIST_Write, EIP76_PostProcessor_PS_AI_Write,
    EIP76_PostProcessor_Key_Write, EIP76_PostProcessor_Input_Write,
    EIP76_PostProcessor_Result_Read, EIP76_PostProcessor_IsReady,
    EIP76_PostProcessor_BCDF_PS_AI_Write,
    EIP76_PostProcessor_BCDF_Noise_Write,
    EIP76_PostProcessor_BCDF_Status_Get,
    EIP76_PostProcessor_BCDF_Generate_Start,
    EIP76_PostProcessor_BCDF_Result_Read, EIP76Lib_PS_AI_Write,
    EIP76_Internal_PostProcessor_PS_AI_Write, EIP76_KEY_WR,
    BCDF_Result_Read_stay, EIP76_CHECK_POINTER, EIP76_CHECK_INT_INRANGE,
    EIP76_CHECK_INT_ATMOST, EIP76_CONTROL_WR, EIP76_TEST_WR,
    EIP76_INTACK_WR, EIP76_INPUT_0_WR, EIP76_INPUT_1_WR, EIP76_INPUT_2_WR,
    EIP76_INPUT_3_WR, EIP76_MAINSHIFTREG_L_WR, EIP76_MAINSHIFTREG_H_WR;
  unfold_reads; cbv zeta.

Ltac handle_loops :=
  first
    [ apply confined_PS_AI_Write_from; on_device_fact
    | apply confined_KEY_WR_from; on_device_fact
    | apply confined_Reseed_Start_wait; on_device_fact
    | apply confined_Reseed_Write_wait; on_device_fact ].

Section Handles.

Variable PP : EIP76_PostProcessor_Type.
Variable K : EIP76_Constants.
Variable hw : list io_event -> Device_Handle_t -> Z -> Z.

(** X5. The device handle.  However a call ends (it returns, it faults or
    its wait is still spinning), it only adds to the trace, and every
    register access it adds goes through the handle stored in the I/O area.
    The two exceptions are [EIP76_PostProcessor_Reseed_Start] and
    [EIP76_PostProcessor_Reseed_Write], which also access the control
    register through the null handle and print; no other call prints or
    uses another handle. *)
Theorem device_handle_discipline fuel c m :
  exists t,
    trace (machine_of (run PP K hw fuel c m)) = trace m ++ t /\
    Forall (match c with
            | Reseed_Start _ _ | Reseed_Write _ _ _ _ =>
                on_device_or_null K (Device (IOArea m))
            | _ => on_device (Device (IOArea m))
            end) t.
Proof.
  assert (C : confined
                (match c with
                 | Reseed_Start _ _ | Reseed_Write _ _ _ _ =>
                     on_device_or_null K
                 | _ => on_device
                 end) (Device (IOArea m)) (run PP K hw fuel c)).
  { destruct c; unfold_bodies; confine_with on_device_fact handle_loops. }
  destruct (C m eq_refl) as (_ & t & T & F). exists t.
  split; [exact T|]. destruct c; exact F.
Qed.

End Handles.

(** ** Where a call can fault *)

Lemma bind_Fault_inv {A B} (c : M A) (k : A -> M B) m m' :
  bind c k m = Fault m' ->
  c m = Fault m' \/ exists a m1, c m = Done a m1 /\ k a m1 = Fault m'.
Proof.
  unfold bind. destruct (c m) as [a m1|m1|m1]; intros H.
  - right. exists a, m1. auto.
  - left. injection H as <-. reflexivity.
  - discriminate H.
Qed.

Lemma load_Fault_inv p i m m' :
  load p i m = Fault m' ->
  p = None \/
  exists l, p = Some l /\ (i < 0 \/ Z.of_nat (length l) <= i).
Proof.
  unfold load. destruct p as [l|]; [|auto]. intros H. right. exists l.
  split; [reflexivity|].
  destruct (i <? 0) eqn:E; [left; apply Z.ltb_lt; exact E|].
  apply Z.ltb_ge in E.
  destruct (nth_error l (Z.to_nat i)) eqn:N; [discriminate H|].
  apply nth_error_None in N. right. lia.
Qed.

Lemma store_Data_Fault_inv p i v m m' :
  store_Data p i v m = Fault m' ->
  m' = m /\ (p = NULL \/ i < 0 \/ Z.of_nat (length (Data m)) <= i).
Proof.
  unfold store_Data. destruct p; cbn [is_null].
  - intros H. injection H as <-. auto.
  - destruct (i <? 0) eqn:E1; cbn [orb].
    + intros H. injection H as <-. apply Z.ltb_lt in E1. auto.
    + destruct (Z.of_nat (length (Data m)) <=? i) eqn:E2; [|discriminate].
      intros H. injection H as <-. apply Z.leb_le in E2. auto.
Qed.

Section Faults.

Variable PP : EIP76_PostProcessor_Type.
Variable K : EIP76_Constants.
Variable hw : list io_event -> Device_Handle_t -> Z -> Z.

Lemma PS_AI_Write_from_Fault_inv n i d l m m' :
  PS_AI_Write_from K n i d (Some l) m = Fault m' ->
  0 <= i -> (length l < Z.to_nat i + n)%nat.
Proof.
  intros H Hi. destruct (le_lt_dec (Z.to_nat i + n) (length l)) as [L|L].
  - rewrite (PS_AI_Write_from_ok K n i d l m Hi L) in H. discriminate H.
  - exact L.
Qed.

Lemma EIP76_KEY_WR_from_Fault_inv n : forall i d l m m',
  EIP76_KEY_WR_from K n i d (Some l) m = Fault m' ->
  0 <= i -> (length l < Z.to_nat i + n)%nat.
Proof.
  induction n as [|n IH]; intros i d l m m' H Hi;
    cbn [EIP76_KEY_WR_from] in H; [discriminate H|].
  apply bind_Fault_inv in H. destruct H as [H|(w & m1 & E & H)].
  - apply load_Fault_inv in H. destruct H as [H|(l' & E & [H|H])];
      [discriminate H | lia | injection E as <-; lia].
  - apply load_Some_inv in E. destruct E as (-> & _ & N).
    unfold EIP76_Write32 in H. cbn [bind] in H.
    apply IH in H; [|lia]. rewrite Z_to_nat_succ in H by lia. lia.
Qed.

Lemma Reseed_Start_wait_no_fault fuel : forall d Mask RegVal m m',
  Reseed_Start_wait K hw fuel d Mask RegVal m <> Fault m'.
Proof.
  induction fuel as [|fuel IH]; intros d Mask RegVal m m';
    cbn [Reseed_Start_wait]; destruct (Z.land RegVal Mask =? 0);
    try discriminate.
  unfold EIP76_STATUS_RD, EIP76_Read32, bind. cbv zeta. apply IH.
Qed.

Lemma Reseed_Write_wait_no_fault fuel : forall m m',
  Reseed_Write_wait K hw fuel m <> Fault m'.
Proof.
  induction fuel as [|fuel IH]; intros m m'; cbn [Reseed_Write_wait];
    [discriminate|].
  unfold EIP76_Read32, bind. cbv zeta.
  match goal with |- (if ?c then _ else _) _ <> _ => destruct c end;
    [discriminate | apply IH].
Qed.

End Faults.

(** Inversion of a faulting run: [exec_fault H] follows the code along
    [H : c m = Fault m'] to the access that faults. *)
Ltac exec_fault H :=
  eip_simpl in H;
  lazymatch type of H with
  | Done _ _ = Fault _ => discriminate H
  | Spin _ = Fault _ => discriminate H
  | Fault _ = Fault _ => inversion H; clear H; subst
  | bind (EIP76_Read32 ?hw ?d ?off) _ ?m = Fault _ =>
      let v := fresh "v" in
      let Hv := fresh "Hv" in
      let E := fresh "E" in
      destruct (EIP76_Read32_step hw d off m) as (v & Hv & E);
      rewrite (bind_Done _ _ _ _ _ E) in H; clear E; eip_simpl in Hv;
      exec_fault H
  | bind _ _ _ = Fault _ =>
      let a := fresh "a" in
      let m1 := fresh "m" in
      let E := fresh "E" in
      apply bind_Fault_inv in H; destruct H as [H | (a & m1 & E & H)];
      [exec_fault H | exec E; exec_fault H]
  | (if ?c then _ else _) _ = Fault _ =>
      let C := fresh "C" in destruct c eqn:C; exec_fault H
  | (match ?x with _ => _ end) _ = Fault _ =>
      let C := fresh "C" in destruct x eqn:C; exec_fault H
  | store_Data _ _ _ _ = Fault _ =>
      let R := fresh "R" in
      apply store_Data_Fault_inv in H; destruct H as (? & R); subst
  | load _ _ _ = Fault _ =>
      let R := fresh "R" in
      apply load_Fault_inv in H; rename H into R
  | EIP76_Read32 _ _ _ _ = Fault _ => discriminate H
  | EIP76_Internal_PostProcessor_PS_AI_Write _ _ (Some _) _ _ = Fault _ =>
      unfold EIP76_Internal_PostProcessor_PS_AI_Write in H;
      apply PS_AI_Write_from_Fault_inv in H; [|lia]
  | EIP76_KEY_WR _ _ (Some _) _ _ = Fault _ =>
      unfold EIP76_KEY_WR in H;
      apply EIP76_KEY_WR_from_Fault_inv in H; [|lia]
  | Reseed_Start_wait _ _ _ _ _ _ _ = Fault _ =>
      exfalso; exact (Reseed_Start_wait_no_fault _ _ _ _ _ _ _ _ H)
  | Reseed_Write_wait _ _ _ _ = Fault _ =>
      exfalso; exact (Reseed_Write_wait_no_fault _ _ _ _ _ H)
  | _ =>
      tryif progress
        (cbv beta delta
           [ret spin EIP76_State_Set EIP76_Write32 EIP76_CONTROL_WR
            EIP76_TEST_WR EIP76_INTACK_WR put_Index put_Flag store_Events
            store_BlockCount printf] in H)
      then exec_fault H else idtac
  end.

Section Fault_Causes.

Variable PP : EIP76_PostProcessor_Type.
Variable K : EIP76_Constants.
Variable hw : list io_event -> Device_Handle_t -> Z -> Z.

(** X6. Where a call can fault.  A null or out-of-bounds dereference
    happens only in these cases: [EIP76_PostProcessor_BlockCount_Get] with a
    null [BlockCount_p] in the build without post-processor; a PS/AI, key or
    input buffer shorter than the words the function reads from it (the
    word count, 8 and 4); an output buffer of fewer than four words in
    [EIP76_PostProcessor_Result_Read]; in
    [EIP76_PostProcessor_BCDF_Noise_Write] a null sample buffer or one that
    does not reach [Index + 1]; a null [Events_p] in
    [EIP76_PostProcessor_BCDF_Generate_Start]; in
    [EIP76_PostProcessor_BCDF_Result_Read] a null [Data_p] or a buffer
    without the four words at [Index].  [EIP76_PostProcessor_IsBusy],
    [EIP76_PostProcessor_Reseed_Start], [EIP76_PostProcessor_IsReady] and
    [EIP76_PostProcessor_BCDF_Status_Get] never fault, and no call faults on
    a null [IOArea_p]. *)
Theorem faults_only_on_unchecked_memory fuel c m m' :
  run PP K hw fuel c m = Fault m' ->
  match c with
  | BlockCount_Get _ b => PP = EIP76_POST_PROCESSOR_NONE /\ b = NULL
  | IsBusy _ _ | Reseed_Start _ _ | IsReady _ _ | BCDF_Status_Get _ _ => False
  | Reseed_Write _ p n _ | NIST_Write _ p n _ _ | PS_AI_Write _ p n _
  | BCDF_PS_AI_Write _ p n _ =>
      exists data, p = Some data /\ (length data < Z.to_nat n)%nat
  | Key_Write _ p => exists data, p = Some data /\ (length data < 8)%nat
  | Input_Write _ p _ => exists data, p = Some data /\ (length data < 4)%nat
  | Result_Read _ _ _ => (length (Data m) < 4)%nat
  | BCDF_Noise_Write _ p _ =>
      p = None \/
      exists data, p = Some data /\
        let i := Index (IOArea m) in
        (i < 0 \/ Z.of_nat (length data) <= i \/
         Z.of_nat (length data) <= wrap32 (i + 1))
  | BCDF_Generate_Start _ _ e => e = NULL
  | BCDF_Result_Read _ _ p _ => p = NULL \/ ~ room m
  end.
Proof.
  intros H. destruct c; destruct_args; destruct PP; unfold_ops H;
    exec_fault H.
  all: try (split; reflexivity).
  all: try reflexivity.
  all: try (left; reflexivity).
  all: try (eexists; split; [reflexivity|];
            change (Z.to_nat 0) with 0%nat in *;
            change (Z.to_nat 8) with 8%nat in *; lia).
  all: try (eexists; split; [reflexivity|];
            match goal with
            | R : _ \/ _ |- _ =>
                destruct R as [R|(l' & E & [R|R])];
                [discriminate R | lia | injection E as <-; lia]
            end).
  all: try match goal with
            | R : PTR = NULL \/ _ \/ _ |- (_ < 4)%nat =>
                eip_simpl in R; rewrite ?length_list_set in R;
                destruct R as [R|[R|R]]; [discriminate R | lia | lia]
            end.
  all: try (right; eexists; split; [reflexivity|]; cbv zeta;
            pose proof (wrap32_range (Index (IOArea m) + 1));
            match goal with
            | R : _ \/ _ |- _ =>
                destruct R as [R|(l' & E & [R|R])];
                [discriminate R | lia | injection E as <-; lia]
            end).
  all: right; intros Rm; pose proof (room_stores m Rm) as S;
    pose proof (S 0 ltac:(simpl; auto)); pose proof (S 1 ltac:(simpl; auto));
    pose proof (S 2 ltac:(simpl; auto)); pose proof (S 3 ltac:(simpl; auto)).
  all: match goal with
       | R : PTR = NULL \/ _ \/ _ |- _ =>
           eip_simpl in R; rewrite ?length_list_set in R;
           destruct R as [R|[R|R]]; [discriminate R | lia | lia]
       end.
Qed.

End Fault_Causes.

(** X6 on a run: a result read into a two-word buffer. *)
Lemma faults_only_on_unchecked_memory_witness :
  exists m',
    run EIP76_POST_PROCESSOR_SP80090 EIP76_Example_Constants (hw_const 0x100)
      0%nat (Result_Read PTR PTR PTR)
      (example_machine EIP76_STATE_KAT_SP80090_PROCESSING 0 false [0; 0]) =
    Fault m' /\
    (length (Data (example_machine EIP76_STATE_KAT_SP80090_PROCESSING 0%Z
                     false [0%Z; 0%Z])) < 4)%nat.
Proof.
  assert (E : exists m',
    run EIP76_POST_PROCESSOR_SP80090 EIP76_Example_Constants (hw_const 0x100)
      0%nat (Result_Read PTR PTR PTR)
      (example_machine EIP76_STATE_KAT_SP80090_PROCESSING 0 false [0; 0]) =
    Fault m').
  { eexists. vm_compute. reflexivity. }
  destruct E as (m' & E). exists m'. split; [exact E|].
  exact (faults_only_on_unchecked_memory _ _ _ _ _ _ _ E).
Defined.

(** ** The registers a call writes *)

Section Footprint.

Variable PP : EIP76_PostProcessor_Type.
Variable K : EIP76_Constants.
Variable hw : list io_event -> Device_Handle_t -> Z -> Z.
Variable P : Device_Handle_t -> io_event -> Prop.
Variable d : Device_Handle_t.

Lemma confined_PS_AI_Write_slots d' p n : forall i,
  (forall j w, i <= j < i + Z.of_nat n ->
     P d (EvWrite d' (wrap32 (EIP76_REG_PS_AI_0 K + j * 4)) w)) ->
  confined P d (PS_AI_Write_from K n i d' p).
Proof.
  induction n as [|n IH]; intros i H; cbn [PS_AI_Write_from].
  - apply confined_ret.
  - apply confined_bind; [apply confined_load|]. intros w.
    apply confined_bind; [apply confined_Write32, H; lia|]. intros _.
    apply IH. intros j w' Hj. apply H. lia.
Qed.

Lemma confined_KEY_WR_slots d' p n : forall i,
  (forall j w, i <= j < i + Z.of_nat n ->
     P d (EvWrite d' (wrap32 (EIP76_REG_KEY_0 K + j * 4)) w)) ->
  confined P d (EIP76_KEY_WR_from K n i d' p).
Proof.
  induction n as [|n IH]; intros i H; cbn [EIP76_KEY_WR_from].
  - apply confined_ret.
  - apply confined_bind; [apply confined_load|]. intros w.
    apply confined_bind; [apply confined_Write32, H; lia|]. intros _.
    apply IH. intros j w' Hj. apply H. lia.
Qed.

Lemma confined_Reseed_Start_wait_reads Mask fuel : forall RegVal,
  (forall offset v, P d (EvRead d offset v)) ->
  confined P d (Reseed_Start_wait K hw fuel d Mask RegVal).
Proof.
  intros RegVal H. revert RegVal.
  induction fuel as [|fuel IH]; intros RegVal; cbn [Reseed_Start_wait];
    destruct (Z.land RegVal Mask =? 0);
    try apply confined_ret; try apply confined_spin.
  apply confined_bind; [apply confined_Read32, H|]. exact IH.
Qed.

End Footprint.

Ltac footprint_fact :=
  intros; cbn [within_footprint may_write In];
  first [ exact I | reflexivity | left; reflexivity
        | right; left; reflexivity | right; right; left; reflexivity
        | right; right; right; left; reflexivity ].

Ltac slot_fact :=
  let j := fresh "j" in
  let w := fresh "w" in
  let Hj := fresh "Hj" in
  intros j w Hj; cbn [within_footprint may_write];
  try right; exists j; split; [lia | reflexivity].

Ltac footprint_loops :=
  first
    [ apply confined_PS_AI_Write_slots; slot_fact
    | apply confined_KEY_WR_slots; slot_fact
    | apply confined_Reseed_Start_wait_reads; footprint_fact
    | apply confined_Reseed_Write_wait; footprint_fact ].

Section Write_Footprint.

Variable PP : EIP76_PostProcessor_Type.
Variable K : EIP76_Constants.
Variable hw : list io_event -> Device_Handle_t -> Z -> Z.

(** X7. The registers a call writes.  However a call ends, its register
    writes stay within the registers of [may_write]:
    [EIP76_PostProcessor_BlockCount_Get], [EIP76_PostProcessor_IsBusy],
    [EIP76_PostProcessor_IsReady] and [EIP76_PostProcessor_BCDF_Status_Get]
    write nothing; [EIP76_PostProcessor_Reseed_Start] and
    [EIP76_PostProcessor_BCDF_Generate_Start] write the control register
    only; the four PS/AI writes write slot 11 and the slots below the word
    count; [EIP76_PostProcessor_Key_Write] the eight key slots;
    [EIP76_PostProcessor_Input_Write] the four input registers;
    [EIP76_PostProcessor_BCDF_Noise_Write] the two shift-register halves;
    and only the two result reads write the test register (with the control
    register, and for the BC_DF one the acknowledge register). *)
Theorem register_write_footprint fuel c m :
  exists t,
    trace (machine_of (run PP K hw fuel c m)) = trace m ++ t /\
    Forall (within_footprint K c (Device (IOArea m))) t.
Proof.
  assert (C : confined (within_footprint K c) (Device (IOArea m))
                (run PP K hw fuel c)).
  { destruct c; unfold_bodies; confine_with footprint_fact footprint_loops. }
  destruct (C m eq_refl) as (_ & t & T & F). exists t. auto.
Qed.

End Write_Footprint.

(** ** The two waits *)

Section Reseed_Start_Wait.

Variable PP : EIP76_PostProcessor_Type.
Variable K : EIP76_Constants.
Variable hw : list io_event -> Device_Handle_t -> Z -> Z.

(** The wait of [EIP76_PostProcessor_Reseed_Start], when it ends: every
    status word polled but the last lacks the bits of [Mask]. *)
Lemma Reseed_Start_wait_polls fuel : forall d Mask RegVal m u m',
  Reseed_Start_wait K hw fuel d Mask RegVal m = Done u m' ->
  exists t polls s,
    m' = add_trace t m /\
    EvRead d (EIP76_REG_STATUS K) RegVal :: t =
      polls ++ [EvRead d (EIP76_REG_STATUS K) s] /\
    Z.land s Mask <> 0 /\
    Forall (idle_poll K d Mask) polls /\ (length polls <= fuel)%nat.
Proof.
  induction fuel as [|fuel IH]; intros d Mask RegVal m u m' H;
    cbn [Reseed_Start_wait] in H;
    destruct (Z.land RegVal Mask =? 0) eqn:E; try discriminate H.
  - injection H as _ <-. exists [], [], RegVal. rewrite add_trace_nil.
    apply Z.eqb_neq in E. repeat split; auto; simpl; lia.
  - unfold EIP76_STATUS_RD, EIP76_Read32, bind in H. cbv zeta in H.
    apply IH in H. destruct H as (t & polls & s & -> & Et & Hs & F & L).
    rewrite log_add_trace, add_trace_app.
    eexists. exists (EvRead d (EIP76_REG_STATUS K) RegVal :: polls), s.
    split; [reflexivity|]. split; [cbn [app]; rewrite Et; reflexivity|].
    split; [exact Hs|]. split.
    + constructor; [|exact F]. exists RegVal. apply Z.eqb_eq in E. auto.
    + simpl. lia.
  - injection H as _ <-. exists [], [], RegVal. rewrite add_trace_nil.
    apply Z.eqb_neq in E. repeat split; auto; simpl; lia.
Qed.

(** The same wait on a device that never shows the bits of [Mask]: it uses
    up whatever fuel there is. *)
Lemma Reseed_Start_wait_idle d Mask fuel : forall RegVal m,
  (forall t, Z.land (wrap32 (hw t d (EIP76_REG_STATUS K))) Mask = 0) ->
  Z.land RegVal Mask = 0 ->
  exists t,
    Reseed_Start_wait K hw fuel d Mask RegVal m = Spin (add_trace t m) /\
    Forall (idle_poll K d Mask) t /\ length t = fuel.
Proof.
  induction fuel as [|fuel IH]; intros RegVal m Q E;
    cbn [Reseed_Start_wait]; rewrite E; cbn [Z.eqb].
  - exists []. rewrite add_trace_nil. auto.
  - unfold EIP76_STATUS_RD, EIP76_Read32, bind. cbv zeta.
    destruct (IH (wrap32 (hw (trace m) d (EIP76_REG_STATUS K)))
                (log (EvRead d (EIP76_REG_STATUS K)
                        (wrap32 (hw (trace m) d (EIP76_REG_STATUS K)))) m)
                Q (Q _)) as (t & -> & F & L).
    rewrite log_add_trace, add_trace_app. eexists. split; [reflexivity|].
    split; [|simpl; lia]. constructor; [|exact F]. eexists. split; [reflexivity|].
    apply Q.
Qed.

(** The poll of the status register and the wait that follows it end once
    the device shows the bit, given fuel for the polls before. *)
Lemma Reseed_Start_wait_ends d Mask N fuel : forall m,
  (forall t, (N <= length t)%nat ->
     Z.land (wrap32 (hw t d (EIP76_REG_STATUS K))) Mask <> 0) ->
  (N <= length (trace m) + fuel)%nat ->
  exists m',
    bind (EIP76_STATUS_RD K hw d) (Reseed_Start_wait K hw fuel d Mask) m =
    Done tt m'.
Proof.
  induction fuel as [|fuel IH]; intros m Q L;
    unfold EIP76_STATUS_RD, EIP76_Read32, bind; cbv zeta;
    cbn [Reseed_Start_wait];
    destruct (Z.land (wrap32 (hw (trace m) d (EIP76_REG_STATUS K))) Mask =? 0)
      eqn:E; try (eexists; reflexivity).
  - apply Z.eqb_eq in E. exfalso. apply (Q (trace m)); [lia | exact E].
  - apply (IH _ Q). cbn [log trace]. rewrite length_app. simpl. lia.
Qed.

Lemma idle_polls_write_nothing d Mask t :
  Forall (idle_poll K d Mask) t -> writes_of t = [].
Proof.
  induction 1 as [|e t (s & -> & _) _ IH]; [reflexivity | exact IH].
Qed.

(** X8. [EIP76_PostProcessor_Reseed_Start], whenever it returns (valid
    pointers): it returns success, never busy; the state is
    [EIP76_STATE_SP80090_RESEED_READY]; the event word is that of the status
    read before the reseed was requested; the accesses are that status
    read, the write of [0x10000] to the control register through the null
    handle between the two printed lines, the reseed-enable write through
    the device handle, and then status polls of which every one but the
    last lacks the bit waited for (reseed-AI in the BC_DF build, test-ready
    otherwise) and the last one has it. *)
Theorem Reseed_Start_returns fuel m st m' :
  EIP76_PostProcessor_Reseed_Start PP K hw fuel PTR PTR m = Done st m' ->
  let d := Device (IOArea m) in
  st = EIP76_NO_ERROR /\
  IOArea m' = set_State EIP76_STATE_SP80090_RESEED_READY (IOArea m) /\
  Events m' = Z.land (next_status K hw m) (EIP76_EVENTS_MASK K) /\
  BlockCount m' = BlockCount m /\ Data m' = Data m /\
  exists polls s,
    trace m' = trace m ++
      [EvRead d (EIP76_REG_STATUS K) (next_status K hw m);
       EvPrintf 231; EvWrite None (EIP76_REG_CONTROL K) 0x10000;
       EvPrintf 233;
       EvWrite d (EIP76_REG_CONTROL K) (EIP76_CONTROL_ENABLE_RESEED K)] ++
      polls ++ [EvRead d (EIP76_REG_STATUS K) s] /\
    Forall (idle_poll K d (Reseed_Start_Mask PP K)) polls /\
    (length polls <= fuel)%nat /\
    Z.land s (Reseed_Start_Mask PP K) <> 0.
Proof.
  unfold next_status. destruct m as [[d s0 sc i f] ev bc dat tr].
  unfold EIP76_PostProcessor_Reseed_Start. cbv zeta.
  fold (Reseed_Start_Mask PP K). generalize (Reseed_Start_Mask PP K) as Mask.
  intros Mask. eip_run. intros H.
  apply bind_inv in H. destruct H as (u & m1 & W & H).
  apply Reseed_Start_wait_polls in W.
  destruct W as (t & polls & s & -> & Et & Hs & F & L).
  cbv beta delta [EIP76_State_Set] in H. inversion H; subst; clear H.
  unfold read_of in Hv. subst v. machine_norm.
  repeat (split; [reflexivity|]).
  exists polls, s. split; [|auto].
  rewrite <- !app_assoc. cbn [app]. rewrite <- Et. reflexivity.
Qed.

(** X9. [EIP76_PostProcessor_Reseed_Start] on a device that never shows
    the bit it waits for: the call does not return, whatever the number of
    polls allowed (the busy return is not in the code).  By then it has set
    the state to [EIP76_STATE_SP80090_RESEED_START] and made both control
    writes. *)
Theorem Reseed_Start_blocks fuel m :
  (forall t, Z.land (wrap32 (hw t (Device (IOArea m)) (EIP76_REG_STATUS K)))
               (Reseed_Start_Mask PP K) = 0) ->
  let d := Device (IOArea m) in
  exists m' t,
    EIP76_PostProcessor_Reseed_Start PP K hw fuel PTR PTR m = Spin m' /\
    IOArea m' = set_State EIP76_STATE_SP80090_RESEED_START (IOArea m) /\
    trace m' = trace m ++ t /\
    writes_of t =
      [EvWrite None (EIP76_REG_CONTROL K) 0x10000;
       EvWrite d (EIP76_REG_CONTROL K) (EIP76_CONTROL_ENABLE_RESEED K)].
Proof.
  destruct m as [[d s0 sc i f] ev bc dat tr]. cbn [IOArea Device].
  intros Q. cbv zeta.
  unfold EIP76_PostProcessor_Reseed_Start. cbv zeta.
  fold (Reseed_Start_Mask PP K). eip_run.
  match goal with
  | |- context [bind (Reseed_Start_wait K hw ?n0 d ?M ?r) _ ?m1] =>
      destruct (Reseed_Start_wait_idle d M n0 r m1 Q) as (t & E & F & L)
  end.
  { unfold read_of in Hv0. subst v0. apply Q. }
  unfold bind at 1. rewrite E. machine_norm.
  do 2 eexists. split; [reflexivity|]. split; [reflexivity|].
  rewrite <- !app_assoc. split; [reflexivity|].
  cbn [app]. unfold writes_of at 1. cbn [filter is_write].
  fold (writes_of t). rewrite (idle_polls_write_nothing _ _ _ F).
  reflexivity.
Qed.

(** X10. [EIP76_PostProcessor_Reseed_Start] on a device that shows the bit
    it waits for once [N] accesses have been made: given room for [N]
    polls the call returns success in
    [EIP76_STATE_SP80090_RESEED_READY]. *)
Theorem Reseed_Start_ends N fuel m :
  (forall t, (N <= length t)%nat ->
     Z.land (wrap32 (hw t (Device (IOArea m)) (EIP76_REG_STATUS K)))
       (Reseed_Start_Mask PP K) <> 0) ->
  (N <= fuel)%nat ->
  exists m',
    EIP76_PostProcessor_Reseed_Start PP K hw fuel PTR PTR m =
    Done EIP76_NO_ERROR m' /\
    State (IOArea m') = EIP76_STATE_SP80090_RESEED_READY.
Proof.
  destruct m as [[d s0 sc i f] ev bc dat tr]. cbn [IOArea Device trace].
  intros Q L.
  unfold EIP76_PostProcessor_Reseed_Start. cbv zeta.
  fold (Reseed_Start_Mask PP K). eip_simpl. unfold_reads.
  rewrite ?bind_assoc. step_read. eip_simpl. rewrite ?bind_assoc.
  match goal with
  | |- context [bind (EIP76_Read32 hw d ?off) ?k ?m1] =>
      destruct (Reseed_Start_wait_ends d (Reseed_Start_Mask PP K) N fuel m1 Q)
        as (m' & E)
  end.
  { eip_simpl. rewrite !length_app. simpl. lia. }
  unfold EIP76_STATUS_RD in E.
  rewrite <- (bind_assoc (EIP76_Read32 hw d _)
                (Reseed_Start_wait K hw fuel d _) _).
  rewrite (bind_Done _ _ _ _ _ E). eip_tail.
  eexists. split; reflexivity.
Qed.

End Reseed_Start_Wait.

(** X8 on a run: the device shows test-ready at the ninth access, after
    three idle polls. *)
Lemma Reseed_Start_returns_witness :
  exists m',
    EIP76_PostProcessor_Reseed_Start EIP76_POST_PROCESSOR_SP80090
      EIP76_Example_Constants (hw_after 8 0x100) 3%nat PTR PTR
      (example_machine EIP76_STATE_RANDOM_GENERATING 0 false []) =
    Done EIP76_NO_ERROR m' /\
    IOArea m' = example_IOArea EIP76_STATE_SP80090_RESEED_READY 0 false.
Proof.
  assert (E : exists m',
    EIP76_PostProcessor_Reseed_Start EIP76_POST_PROCESSOR_SP80090
      EIP76_Example_Constants (hw_after 8 0x100) 3%nat PTR PTR
      (example_machine EIP76_STATE_RANDOM_GENERATING 0 false []) =
    Done EIP76_NO_ERROR m').
  { eexists. vm_compute. reflexivity. }
  destruct E as (m' & E). exists m'. split; [exact E|].
  exact (proj1 (proj2 (Reseed_Start_returns _ _ _ _ _ _ _ E))).
Defined.

(** X9 on a run: a silent device and room for five polls. *)
Lemma Reseed_Start_blocks_witness :
  exists m' t,
    EIP76_PostProcessor_Reseed_Start EIP76_POST_PROCESSOR_SP80090
      EIP76_Example_Constants (hw_const 0) 5%nat PTR PTR
      (example_machine EIP76_STATE_RANDOM_GENERATING 0 false []) = Spin m' /\
    IOArea m' =
      set_State EIP76_STATE_SP80090_RESEED_START
        (IOArea (example_machine EIP76_STATE_RANDOM_GENERATING 0 false [])) /\
    trace m' =
      trace (example_machine EIP76_STATE_RANDOM_GENERATING 0 false []) ++ t /\
    writes_of t =
      [EvWrite None (EIP76_REG_CONTROL EIP76_Example_Constants) 0x10000;
       EvWrite
         (Device (IOArea (example_machine EIP76_STATE_RANDOM_GENERATING 0
                            false [])))
         (EIP76_REG_CONTROL EIP76_Example_Constants)
         (EIP76_CONTROL_ENABLE_RESEED EIP76_Example_Constants)].
Proof.
  apply (Reseed_Start_blocks EIP76_POST_PROCESSOR_SP80090
           EIP76_Example_Constants (hw_const 0) 5%nat
           (example_machine EIP76_STATE_RANDOM_GENERATING 0 false [])).
  intros t. reflexivity.
Defined.

(** X10 on a run: the device shows test-ready once eight accesses have been
    made. *)
Lemma Reseed_Start_ends_witness :
  exists m',
    EIP76_PostProcessor_Reseed_Start EIP76_POST_PROCESSOR_SP80090
      EIP76_Example_Constants (hw_after 8 0x100) 8%nat PTR PTR
      (example_machine EIP76_STATE_RANDOM_GENERATING 0 false []) =
    Done EIP76_NO_ERROR m' /\
    State (IOArea m') = EIP76_STATE_SP80090_RESEED_READY.
Proof.
  apply (Reseed_Start_ends EIP76_POST_PROCESSOR_SP80090
           EIP76_Example_Constants (hw_after 8 0x100) 8%nat 8%nat
           (example_machine EIP76_STATE_RANDOM_GENERATING 0 false [])).
  - intros t L. unfold hw_after.
    destruct (Nat.ltb_spec (length t) 8) as [A|A]; [lia|].
    vm_compute. discriminate.
  - lia.
Defined.

(** ** The wait of the reseed write *)

Section Reseed_Write_Wait.

Variable K : EIP76_Constants.
Variable hw : list io_event -> Device_Handle_t -> Z -> Z.

(** The wait of [EIP76_PostProcessor_Reseed_Write], when it ends: every
    control word polled but the last has bit 15 set. *)
Lemma Reseed_Write_wait_polls fuel : forall m u m',
  Reseed_Write_wait K hw fuel m = Done u m' ->
  exists polls v,
    m' = add_trace (polls ++ [EvRead None (EIP76_REG_CONTROL K) v]) m /\
    Forall (busy_poll K) polls /\ Z.land v 0x00008000 = 0 /\
    (length polls < fuel)%nat.
Proof.
  induction fuel as [|fuel IH]; intros m u m' H; cbn [Reseed_Write_wait] in H;
    [discriminate H|].
  unfold EIP76_Read32, bind in H. cbv zeta in H.
  match type of H with
  | (if ?c then _ else _) _ = _ => destruct c eqn:E
  end.
  - injection H as _ <-. exists []. eexists. rewrite log_add_trace.
    split; [reflexivity|]. apply Z.eqb_eq in E. repeat split; auto; simpl; lia.
  - apply IH in H. destruct H as (polls & v & -> & F & Hv & L).
    rewrite log_add_trace, add_trace_app. eexists (_ :: polls), v.
    split; [reflexivity|]. split.
    + constructor; [|exact F]. eexists. split; [reflexivity|].
      apply Z.eqb_neq in E. exact E.
    + split; [exact Hv|]. simpl. lia.
Qed.

(** The same wait while the control register keeps showing bit 15 through
    the null handle: it uses up whatever fuel there is. *)
Lemma Reseed_Write_wait_busy fuel : forall m,
  (forall t, Z.land (wrap32 (hw t None (EIP76_REG_CONTROL K))) 0x00008000 <> 0) ->
  exists t,
    Reseed_Write_wait K hw fuel m = Spin (add_trace t m) /\
    Forall (busy_poll K) t /\ length t = fuel.
Proof.
  induction fuel as [|fuel IH]; intros m Q; cbn [Reseed_Write_wait].
  - exists []. rewrite add_trace_nil. auto.
  - unfold EIP76_Read32, bind. cbv zeta.
    pose proof (Q (trace m)) as E. apply Z.eqb_neq in E. rewrite E.
    destruct (IH (log (EvRead None (EIP76_REG_CONTROL K)
                         (wrap32 (hw (trace m) None (EIP76_REG_CONTROL K)))) m)
                Q) as (t & -> & F & L).
    rewrite log_add_trace, add_trace_app. eexists. split; [reflexivity|].
    split; [|simpl; lia]. constructor; [|exact F].
    eexists. split; [reflexivity|]. apply Q.
Qed.

(** The wait ends once the control register shows bit 15 clear, given
    fuel for the polls before. *)
Lemma Reseed_Write_wait_ends N fuel : forall m,
  (forall t, (N <= length t)%nat ->
     Z.land (wrap32 (hw t None (EIP76_REG_CONTROL K))) 0x00008000 = 0) ->
  (N <= length (trace m) + fuel)%nat ->
  exists m', Reseed_Write_wait K hw (S fuel) m = Done tt m'.
Proof.
  induction fuel as [|fuel IH]; intros m Q L;
    cbn [Reseed_Write_wait]; unfold EIP76_Read32, bind; cbv zeta;
    destruct (Z.land (wrap32 (hw (trace m) None (EIP76_REG_CONTROL K))) 32768
              =? 0) eqn:E; try (eexists; reflexivity).
  - apply Z.eqb_neq in E. exfalso. apply E, Q. lia.
  - apply (IH _ Q). cbn [log trace]. rewrite length_app. simpl. lia.
Qed.

Lemma busy_polls_write_nothing t : Forall (busy_poll K) t -> writes_of t = [].
Proof.
  induction 1 as [|e t (v & -> & _) _ IH]; [reflexivity | exact IH].
Qed.

(** X11. [EIP76_PostProcessor_Reseed_Write], whenever it succeeds: the
    word count was in range and the status read showed test-ready or
    reseed-AI; the state is [EIP76_STATE_SP80090_RESEED_WRITING]; the
    accesses are the status read, the supplied words to the PS/AI slots (and
    the zero for slot 11 below the maximum count), and then, between the two
    printed lines, polls of the control register through the null handle, of
    which every one but the last shows bit 15 ([0x00008000], written as a
    literal) and the last one shows it clear.  At least one poll is
    made. *)
Theorem Reseed_Write_returns fuel data n m m' :
  EIP76_PostProcessor_Reseed_Write K hw fuel PTR (Some data) n PTR m =
    Done EIP76_NO_ERROR m' ->
  let d := Device (IOArea m) in
  let s := next_status K hw m in
  in_range n (EIP76_MIN_PS_AI_WORD_COUNT K) (EIP76_MAX_PS_AI_WORD_COUNT K)
    = true /\
  (Z.land s (EIP76_STATUS_TEST_READY K) <> 0 \/
   Z.land s (EIP76_STATUS_RESEED_AI K) <> 0) /\
  IOArea m' = set_State EIP76_STATE_SP80090_RESEED_WRITING (IOArea m) /\
  Events m' = Z.land s (EIP76_EVENTS_MASK K) /\
  BlockCount m' = BlockCount m /\ Data m' = Data m /\
  exists polls v,
    trace m' = trace m ++
      EvRead d (EIP76_REG_STATUS K) s ::
      PS_AI_events K d 0 (firstn (Z.to_nat n) data) ++
      (if n <? EIP76_MAX_PS_AI_WORD_COUNT K
       then [EvWrite d (EIP76_REG_PS_AI_11 K) 0] else []) ++
      EvPrintf 292 :: polls ++
      [EvRead None (EIP76_REG_CONTROL K) v; EvPrintf 296] /\
    Forall (busy_poll K) polls /\ (length polls < fuel)%nat /\
    Z.land v 0x00008000 = 0.
Proof.
  unfold next_status. destruct m as [[d s0 sc i f] ev bc dat tr].
  unfold EIP76_PostProcessor_Reseed_Write, EIP76Lib_PS_AI_Write,
    EIP76_CHECK_INT_INRANGE, EIP76_Internal_PostProcessor_PS_AI_Write.
  rewrite range_check_in_range.
  destruct (in_range n (EIP76_MIN_PS_AI_WORD_COUNT K)
              (EIP76_MAX_PS_AI_WORD_COUNT K)); cbn [negb];
    [|intros H; discriminate H].
  eip_run. unfold read_of in Hv. subst v.
  set (s := wrap32 (hw tr d (EIP76_REG_STATUS K))).
  destruct (Z.land s (EIP76_STATUS_TEST_READY K) =? 0) eqn:E1;
    [destruct (Z.land s (EIP76_STATUS_RESEED_AI K) =? 0) eqn:E2|];
    cbn [andb]; eip_tail; try (intros H; discriminate H).
  all: intros H; rewrite ?bind_assoc in H.
  all: apply bind_inv in H; destruct H as (u & m1 & W & H).
  all: apply PS_AI_Write_from_inv in W; destruct W as (t & -> & W).
  all: specialize (W data eq_refl (Z.le_refl 0)); cbn [Z.to_nat skipn] in W;
    subst t.
  all: destruct (n <? EIP76_MAX_PS_AI_WORD_COUNT K);
    cbv beta delta [EIP76_Write32 ret printf] in H; eip_simpl in H.
  all: apply bind_inv in H; destruct H as (u' & m2 & W & H).
  all: apply Reseed_Write_wait_polls in W;
    destruct W as (polls & v & -> & F & Hv & L).
  all: cbv beta delta [EIP76_Write32 ret printf EIP76_State_Set] in H;
    eip_simpl in H; inversion H; subst; clear H.
  all: machine_norm; split; [reflexivity|].
  all: split;
    [first [ left; apply Z.eqb_neq; assumption
           | right; apply Z.eqb_neq; assumption ]|].
  all: repeat (split; [reflexivity|]).
  all: exists polls, v; split; [|auto].
  all: rewrite <- ?app_assoc; cbn [app]; rewrite <- ?app_assoc; reflexivity.
Qed.

(** X12. [EIP76_PostProcessor_Reseed_Write] while the control register,
    read through the null handle, keeps showing bit 15: with valid arguments
    and a ready status the call does not return, whatever the number of
    polls allowed.  By then the PS/AI words (and the zero for slot 11) have
    been written, and the I/O area is as it was: the state has not
    moved. *)
Theorem Reseed_Write_blocks fuel data n m :
  (forall t, Z.land (wrap32 (hw t None (EIP76_REG_CONTROL K))) 0x00008000 <> 0) ->
  in_range n (EIP76_MIN_PS_AI_WORD_COUNT K) (EIP76_MAX_PS_AI_WORD_COUNT K)
    = true ->
  (Z.to_nat n <= length data)%nat ->
  Z.land (next_status K hw m) (EIP76_STATUS_TEST_READY K) <> 0 \/
  Z.land (next_status K hw m) (EIP76_STATUS_RESEED_AI K) <> 0 ->
  let d := Device (IOArea m) in
  exists m' t,
    EIP76_PostProcessor_Reseed_Write K hw fuel PTR (Some data) n PTR m =
      Spin m' /\
    IOArea m' = IOArea m /\
    trace m' = trace m ++ t /\
    writes_of t =
      PS_AI_events K d 0 (firstn (Z.to_nat n) data) ++
      (if n <? EIP76_MAX_PS_AI_WORD_COUNT K
       then [EvWrite d (EIP76_REG_PS_AI_11 K) 0] else []).
Proof.
  unfold next_status. destruct m as [[d s0 sc i f] ev bc dat tr].
  cbn [IOArea Device trace]. intros Q R L S. cbv zeta.
  unfold EIP76_PostProcessor_Reseed_Write, EIP76Lib_PS_AI_Write,
    EIP76_CHECK_INT_INRANGE, EIP76_Internal_PostProcessor_PS_AI_Write.
  rewrite range_check_in_range, R. cbn [negb].
  eip_run. unfold read_of in Hv. subst v.
  set (s := wrap32 (hw tr d (EIP76_REG_STATUS K))) in *.
  assert (E : (Z.land s (EIP76_STATUS_TEST_READY K) =? 0) &&
              (Z.land s (EIP76_STATUS_RESEED_AI K) =? 0) = false).
  { apply andb_false_iff.
    destruct S as [S|S]; [left|right]; apply Z.eqb_neq; exact S. }
  rewrite E. rewrite ?bind_assoc.
  rewrite (bind_Done _ _ _ _ _
             (PS_AI_Write_from_ok K (Z.to_nat n) 0 d data _ (Z.le_refl 0) L)).
  cbn [Z.to_nat skipn]. rewrite ?bind_assoc.
  destruct (n <? EIP76_MAX_PS_AI_WORD_COUNT K);
    cbv beta delta [EIP76_Write32 ret printf]; eip_simpl.
  all: match goal with
       | |- context [bind (Reseed_Write_wait K hw ?n0) _ ?m1] =>
           destruct (Reseed_Write_wait_busy n0 m1 Q) as (t & E' & F & _)
       end.
  all: unfold bind at 1; rewrite E'; machine_norm.
  all: do 2 eexists; split; [reflexivity|]; split; [reflexivity|].
  all: rewrite <- ?app_assoc; split; [reflexivity|].
  all: cbn [app]; unfold writes_of at 1; cbn [filter is_write].
  all: fold (writes_of (PS_AI_events K d 0 (firstn (Z.to_nat n) data) ++
                        EvWrite d (EIP76_REG_PS_AI_11 K) 0 :: EvPrintf 292 :: t));
       fold (writes_of (PS_AI_events K d 0 (firstn (Z.to_nat n) data) ++
                        EvPrintf 292 :: t)).
  all: rewrite writes_of_app, writes_of_PS_AI_events.
  all: unfold writes_of at 1; cbn [filter is_write]; fold (writes_of t).
  all: rewrite (busy_polls_write_nothing t F), ?app_nil_r; reflexivity.
Qed.

(** X13. [EIP76_PostProcessor_Reseed_Write] on a device whose control
    register shows bit 15 clear once [N] accesses have been made: with valid
    arguments, a ready status and room for more than [N] polls the call
    returns success in [EIP76_STATE_SP80090_RESEED_WRITING]. *)
Theorem Reseed_Write_ends N fuel data n m :
  (forall t, (N <= length t)%nat ->
     Z.land (wrap32 (hw t None (EIP76_REG_CONTROL K))) 0x00008000 = 0) ->
  (N < fuel)%nat ->
  in_range n (EIP76_MIN_PS_AI_WORD_COUNT K) (EIP76_MAX_PS_AI_WORD_COUNT K)
    = true ->
  (Z.to_nat n <= length data)%nat ->
  Z.land (next_status K hw m) (EIP76_STATUS_TEST_READY K) <> 0 \/
  Z.land (next_status K hw m) (EIP76_STATUS_RESEED_AI K) <> 0 ->
  exists m',
    EIP76_PostProcessor_Reseed_Write K hw fuel PTR (Some data) n PTR m =
      Done EIP76_NO_ERROR m' /\
    State (IOArea m') = EIP76_STATE_SP80090_RESEED_WRITING.
Proof.
  unfold next_status. destruct m as [[d s0 sc i f] ev bc dat tr].
  cbn [IOArea Device trace]. intros Q Hf R L S.
  destruct fuel as [|fuel]; [lia|].
  unfold EIP76_PostProcessor_Reseed_Write, EIP76Lib_PS_AI_Write,
    EIP76_CHECK_INT_INRANGE, EIP76_Internal_PostProcessor_PS_AI_Write.
  rewrite range_check_in_range, R. cbn [negb].
  eip_run. unfold read_of in Hv. subst v.
  set (s := wrap32 (hw tr d (EIP76_REG_STATUS K))) in *.
  assert (E : (Z.land s (EIP76_STATUS_TEST_READY K) =? 0) &&
              (Z.land s (EIP76_STATUS_RESEED_AI K) =? 0) = false).
  { apply andb_false_iff.
    destruct S as [S|S]; [left|right]; apply Z.eqb_neq; exact S. }
  rewrite E. rewrite ?bind_assoc.
  rewrite (bind_Done _ _ _ _ _
             (PS_AI_Write_from_ok K (Z.to_nat n) 0 d data _ (Z.le_refl 0) L)).
  cbn [Z.to_nat skipn]. rewrite ?bind_assoc.
  destruct (n <? EIP76_MAX_PS_AI_WORD_COUNT K);
    cbv beta delta [EIP76_Write32 ret printf]; eip_simpl.
  all: match goal with
       | |- context [bind (Reseed_Write_wait K hw (S ?n0)) _ ?m1] =>
           destruct (Reseed_Write_wait_ends N n0 m1 Q) as (m' & E');
             [cbn [trace]; lia|]
       end.
  all: unfold bind at 1; rewrite E'; eip_tail.
  all: eexists; split; reflexivity.
Qed.

End Reseed_Write_Wait.

(** X11 on a run: the reseed is under way for the first eight accesses. *)
Lemma Reseed_Write_returns_witness :
  exists m',
    EIP76_PostProcessor_Reseed_Write EIP76_Example_Constants (hw_reseeding 8)
      9%nat PTR (Some [7; 8; 9; 10]) 4 PTR
      (example_machine EIP76_STATE_SP80090_RESEED_READY 0 false []) =
    Done EIP76_NO_ERROR m' /\
    IOArea m' = example_IOArea EIP76_STATE_SP80090_RESEED_WRITING 0 false.
Proof.
  assert (E : exists m',
    EIP76_PostProcessor_Reseed_Write EIP76_Example_Constants (hw_reseeding 8)
      9%nat PTR (Some [7; 8; 9; 10]) 4 PTR
      (example_machine EIP76_STATE_SP80090_RESEED_READY 0 false []) =
    Done EIP76_NO_ERROR m').
  { eexists. vm_compute. reflexivity. }
  destruct E as (m' & E). exists m'. split; [exact E|].
  exact (proj1 (proj2 (proj2 (Reseed_Write_returns _ _ _ _ _ _ _ E)))).
Defined.

(** X12 on a run: a device that answers every read with test-ready and
    bit 15. *)
Lemma Reseed_Write_blocks_witness :
  exists m' t,
    EIP76_PostProcessor_Reseed_Write EIP76_Example_Constants (hw_const 0x8100)
      3%nat PTR (Some [7; 8; 9; 10]) 4 PTR
      (example_machine EIP76_STATE_SP80090_RESEED_READY 0 false []) =
    Spin m' /\
    IOArea m' =
      IOArea (example_machine EIP76_STATE_SP80090_RESEED_READY 0 false []) /\
    trace m' =
      trace (example_machine EIP76_STATE_SP80090_RESEED_READY 0 false [])
      ++ t /\
    writes_of t =
      PS_AI_events EIP76_Example_Constants
        (Device (IOArea (example_machine EIP76_STATE_SP80090_RESEED_READY 0
                           false [])))
        0 (firstn (Z.to_nat 4) [7; 8; 9; 10]) ++
      (if 4 <? EIP76_MAX_PS_AI_WORD_COUNT EIP76_Example_Constants
       then [EvWrite
               (Device (IOArea (example_machine
                                  EIP76_STATE_SP80090_RESEED_READY 0 false [])))
               (EIP76_REG_PS_AI_11 EIP76_Example_Constants) 0]
       else []).
Proof.
  apply (Reseed_Write_blocks EIP76_Example_Constants (hw_const 0x8100) 3%nat
           [7; 8; 9; 10] 4
           (example_machine EIP76_STATE_SP80090_RESEED_READY 0 false [])).
  - intros t. vm_compute. discriminate.
  - reflexivity.
  - simpl. lia.
  - left. vm_compute. discriminate.
Defined.

(** X13 on a run: the reseed is over once eight accesses have been made. *)
Lemma Reseed_Write_ends_witness :
  exists m',
    EIP76_PostProcessor_Reseed_Write EIP76_Example_Constants (hw_reseeding 8)
      9%nat PTR (Some [7; 8; 9; 10]) 4 PTR
      (example_machine EIP76_STATE_SP80090_RESEED_READY 0 false []) =
    Done EIP76_NO_ERROR m' /\
    State (IOArea m') = EIP76_STATE_SP80090_RESEED_WRITING.
Proof.
  apply (Reseed_Write_ends EIP76_Example_Constants (hw_reseeding 8) 8%nat
           9%nat [7; 8; 9; 10] 4
           (example_machine EIP76_STATE_SP80090_RESEED_READY 0 false [])).
  - intros t L. unfold hw_reseeding.
    change (EIP76_REG_CONTROL EIP76_Example_Constants =?
            EIP76_REG_CONTROL EIP76_Example_Constants) with true.
    cbv iota.
    destruct (Nat.ltb_spec (length t) 8) as [A|A]; [lia|].
    reflexivity.
  - lia.
  - reflexivity.
  - simpl. lia.
  - left. vm_compute. discriminate.
Defined.

(** ** The polls *)

Section Polls.

Variable PP : EIP76_PostProcessor_Type.
Variable K : EIP76_Constants.
Variable hw : list io_event -> Device_Handle_t -> Z -> Z.

(** X14. [EIP76_PostProcessor_IsBusy] with valid pointers always returns,
    after one read of the status register and then one of the control
    register and no write.  The control word alone decides: with the
    reseed-enable bit clear the call succeeds and sets
    [EIP76_STATE_RANDOM_GENERATING] from whatever state it finds; with the
    bit set it returns busy and leaves the I/O area alone.  The status word
    only supplies the events. *)
Theorem IsBusy_follows_control (m : machine) :
  let d := Device (IOArea m) in
  let s := next_status K hw m in
  let c := next_control K hw (log (EvRead d (EIP76_REG_STATUS K) s) m) in
  let idle := Z.land c (EIP76_CONTROL_ENABLE_RESEED K) =? 0 in
  EIP76_PostProcessor_IsBusy K hw PTR PTR m =
  Done (if idle then EIP76_NO_ERROR else EIP76_BUSY_RETRY_LATER)
    (mkMachine
       (if idle then set_State EIP76_STATE_RANDOM_GENERATING (IOArea m)
        else IOArea m)
       (Z.land s (EIP76_EVENTS_MASK K)) (BlockCount m) (Data m)
       (trace m ++ [EvRead d (EIP76_REG_STATUS K) s;
                    EvRead d (EIP76_REG_CONTROL K) c])).
Proof.
  unfold next_status, next_control.
  destruct m as [[d s0 sc i f] ev bc dat tr]. cbv zeta. eip_simpl.
  unfold EIP76_PostProcessor_IsBusy. eip_run.
  unfold read_of in Hv, Hv0. subst v. subst v0.
  match goal with |- context [if ?b then _ else _] => destruct b end;
    eip_tail; machine_norm; rewrite <- !app_assoc; reflexivity.
Qed.

(** X15. [EIP76_PostProcessor_IsReady] with valid pointers always returns
    after a single status read and no write, and tests the bit that
    [EIP76_PostProcessor_Reseed_Start] waits for: reseed-AI in the BC_DF
    build, where success leads to [EIP76_STATE_SP80090_RESEED_READY], and
    test-ready in the other builds, where success leads to
    [EIP76_STATE_RANDOM_GENERATING].  Without the bit the call returns busy
    and leaves the I/O area alone. *)
Theorem IsReady_follows_build_variant (m : machine) :
  let d := Device (IOArea m) in
  let s := next_status K hw m in
  let ready := negb (Z.land s (Reseed_Start_Mask PP K) =? 0) in
  EIP76_PostProcessor_IsReady PP K hw PTR PTR m =
  Done (if ready then EIP76_NO_ERROR else EIP76_BUSY_RETRY_LATER)
    (mkMachine
       (if ready
        then set_State
               match PP with
               | EIP76_POST_PROCESSOR_BC_DF => EIP76_STATE_SP80090_RESEED_READY
               | _ => EIP76_STATE_RANDOM_GENERATING
               end (IOArea m)
        else IOArea m)
       (Z.land s (EIP76_EVENTS_MASK K)) (BlockCount m) (Data m)
       (trace m ++ [EvRead d (EIP76_REG_STATUS K) s])).
Proof.
  unfold next_status, Reseed_Start_Mask.
  destruct m as [[d s0 sc i f] ev bc dat tr]. cbv zeta. eip_simpl.
  unfold EIP76_PostProcessor_IsReady. eip_run.
  unfold read_of in Hv. subst v.
  destruct PP;
    match goal with |- context [if negb ?b then _ else _] => destruct b end;
    cbn [negb]; eip_tail; machine_norm; reflexivity.
Qed.

(** X16. [EIP76_PostProcessor_BCDF_Status_Get] with valid pointers always
    returns after a single status read and no write, and sets the state on
    each of its three paths: without test-ready, busy and
    [EIP76_STATE_KAT_SP80090_BCDF_NOISE]; with test-ready and [Index] back
    at 0, success and [EIP76_STATE_KAT_SP80090_BCDF_READY]; with test-ready
    and [Index] in mid-loop, processing and
    [EIP76_STATE_KAT_SP80090_BCDF_RESEEDED].  [Index], [Flag] and
    [SavedControl] are untouched. *)
Theorem BCDF_Status_Get_three_way (m : machine) :
  let d := Device (IOArea m) in
  let s := next_status K hw m in
  let i := Index (IOArea m) in
  let '(st, state) :=
    if Z.land s (EIP76_STATUS_TEST_READY K) =? 0
    then (EIP76_BUSY_RETRY_LATER, EIP76_STATE_KAT_SP80090_BCDF_NOISE)
    else if i =? 0
    then (EIP76_NO_ERROR, EIP76_STATE_KAT_SP80090_BCDF_READY)
    else (EIP76_PROCESSING, EIP76_STATE_KAT_SP80090_BCDF_RESEEDED) in
  EIP76_PostProcessor_BCDF_Status_Get K hw PTR PTR m =
  Done st
    (mkMachine (set_State state (IOArea m))
       (Z.land s (EIP76_EVENTS_MASK K)) (BlockCount m) (Data m)
       (trace m ++ [EvRead d (EIP76_REG_STATUS K) s])).
Proof.
  unfold next_status.
  destruct m as [[d s0 sc i f] ev bc dat tr]. cbv zeta. eip_simpl.
  unfold EIP76_PostProcessor_BCDF_Status_Get. eip_run.
  unfold read_of in Hv. subst v.
  destruct (Z.land (wrap32 (hw tr d (EIP76_REG_STATUS K)))
              (EIP76_STATUS_TEST_READY K) =? 0); cbn [negb]; eip_run;
    [|destruct (i =? 0); cbn [negb]; eip_run];
    eip_tail; machine_norm; reflexivity.
Qed.

End Polls.

(** ** The writes to the device *)

Section Writes.

Variable PP : EIP76_PostProcessor_Type.
Variable K : EIP76_Constants.
Variable hw : list io_event -> Device_Handle_t -> Z -> Z.

(** X17. [EIP76_PostProcessor_NIST_Write] with valid arguments.  For a
    vector type other than 0 the four output registers are read, in order,
    before anything else, and this has happened even when the call then
    returns illegal-in-state; for vector type 0 the status read comes first.
    The event word is that of the status read.  After the status read come
    register writes only: none when the call returns illegal-in-state (the
    I/O area is then untouched), and otherwise the call has succeeded in
    [EIP76_STATE_KAT_SP80090_PROCESSING]. *)
Theorem NIST_Write_drains_output data n vt m st m' :
  EIP76_PostProcessor_NIST_Write K hw PTR (Some data) n vt PTR m =
    Done st m' ->
  st <> EIP76_INVALID_PARAMETER ->
  let d := Device (IOArea m) in
  exists drained s t,
    trace m' = trace m ++ drained ++ EvRead d (EIP76_REG_STATUS K) s :: t /\
    (if vt =? 0 then drained = []
     else exists v0 v1 v2 v3,
       drained = [EvRead d (EIP76_REG_OUTPUT_0 K) v0;
                  EvRead d (EIP76_REG_OUTPUT_1 K) v1;
                  EvRead d (EIP76_REG_OUTPUT_2 K) v2;
                  EvRead d (EIP76_REG_OUTPUT_3 K) v3]) /\
    Events m' = Z.land s (EIP76_EVENTS_MASK K) /\
    writes_of t = t /\
    match st with
    | EIP76_ILLEGAL_IN_STATE => t = [] /\ IOArea m' = IOArea m
    | _ =>
        st = EIP76_NO_ERROR /\
        IOArea m' = set_State EIP76_STATE_KAT_SP80090_PROCESSING (IOArea m)
    end.
Proof.
  intros H N. cbv zeta.
  unfold EIP76_PostProcessor_NIST_Write, EIP76Lib_PS_AI_Write,
    EIP76_CHECK_INT_INRANGE, EIP76_CHECK_POINTER in H.
  unfold_reads_in H. exec H; try congruence.
  all: eip_simpl.
  all: match goal with
       | W : forall l, Some ?d = Some l -> _ |- _ =>
           specialize (W d eq_refl (Z.le_refl 0)); cbn [Z.to_nat skipn] in W;
           subst
       | _ => idtac
       end.
  all: rewrite <- ?app_assoc; cbn [app].
  all: destruct (vt =? 0); try discriminate.
  all: ((exists []; do 2 eexists) + (eexists [_; _; _; _]; do 2 eexists));
    (split; [cbn [app]; reflexivity|]);
    (split; [first [reflexivity | do 4 eexists; reflexivity]|]);
    (split; [reflexivity|]);
    rewrite ?writes_of_app, ?writes_of_PS_AI_events, ?app_nil_r;
    repeat split; reflexivity.
Qed.

(** X18. [EIP76_PostProcessor_Input_Write] with valid pointers does not
    look at the status it reads: given four input words it always succeeds,
    writes them to the input registers 0 to 3 in that order after the one
    status read, and sets [EIP76_STATE_KAT_SP80090_PROCESSING], from any
    state.  Given fewer words it writes those there are and then reads past
    the end of the buffer, with the state unchanged. *)
Theorem Input_Write_unconditional data m :
  let d := Device (IOArea m) in
  let s := next_status K hw m in
  match data with
  | w0 :: w1 :: w2 :: w3 :: _ =>
      EIP76_PostProcessor_Input_Write K hw PTR (Some data) PTR m =
      Done EIP76_NO_ERROR
        (mkMachine (set_State EIP76_STATE_KAT_SP80090_PROCESSING (IOArea m))
           (Z.land s (EIP76_EVENTS_MASK K)) (BlockCount m) (Data m)
           (trace m ++ [EvRead d (EIP76_REG_STATUS K) s;
                        EvWrite d (EIP76_REG_INPUT_0 K) w0;
                        EvWrite d (EIP76_REG_INPUT_1 K) w1;
                        EvWrite d (EIP76_REG_INPUT_2 K) w2;
                        EvWrite d (EIP76_REG_INPUT_3 K) w3]))
  | _ =>
      exists m',
        EIP76_PostProcessor_Input_Write K hw PTR (Some data) PTR m = Fault m' /\
        IOArea m' = IOArea m /\
        (length (writes_of (trace m')) =
         length (writes_of (trace m)) + length data)%nat
  end.
Proof.
  unfold next_status. destruct m as [[d s0 sc i f] ev bc dat tr].
  cbv zeta. eip_simpl.
  destruct data as [|w0 [|w1 [|w2 [|w3 rest]]]];
    unfold EIP76_PostProcessor_Input_Write; eip_run;
    unfold read_of in Hv; subst v;
    unfold load; change (Z.to_nat 0) with 0%nat;
    change (Z.to_nat 1) with 1%nat; change (Z.to_nat 2) with 2%nat;
    change (Z.to_nat 3) with 3%nat; cbn [Z.ltb Z.compare nth_error]; eip_run.
  5: { eip_tail. machine_norm. rewrite <- !app_assoc. reflexivity. }
  all: eexists; (split; [reflexivity|]); (split; [reflexivity|]).
  all: machine_norm; rewrite <- ?app_assoc; cbn [app].
  all: rewrite !writes_of_app, !length_app; cbn; lia.
Qed.

(** X19. [EIP76_Internal_PostProcessor_PS_AI_Write] writes word [i] of
    the buffer to slot [i] ([EIP76_REG_PS_AI_0 + 4 * i]), for [i] from 0
    below the word count, and does nothing else: no read, no write for a
    word count of 0.  When the buffer is shorter than the word count every
    word it has is written before the read past its end. *)
Theorem Internal_PS_AI_Write_words d data n m :
  EIP76_Internal_PostProcessor_PS_AI_Write K d (Some data) n m =
  if (Z.to_nat n <=? length data)%nat
  then Done tt (add_trace (PS_AI_events K d 0 (firstn (Z.to_nat n) data)) m)
  else Fault (add_trace (PS_AI_events K d 0 data) m).
Proof.
  unfold EIP76_Internal_PostProcessor_PS_AI_Write.
  destruct (Z.to_nat n <=? length data)%nat eqn:E.
  - apply Nat.leb_le in E.
    rewrite (PS_AI_Write_from_ok K (Z.to_nat n) 0 d data m (Z.le_refl 0) E).
    reflexivity.
  - apply Nat.leb_gt in E.
    rewrite (PS_AI_Write_from_short K (Z.to_nat n) 0 d data m (Z.le_refl 0));
      [reflexivity | simpl; lia | simpl; lia].
Qed.

(** X20. [EIP76_PostProcessor_BCDF_PS_AI_Write] with valid pointers,
    whenever it returns: a word count other than
    [EIP76_MAX_PS_AI_WORD_COUNT] is refused with nothing done; the full
    count is written to the slots after one status read that is not
    tested, without a dummy write, and the call resets [Index] to 0 and
    sets [EIP76_STATE_KAT_SP80090_BCDF_RESEEDED]. *)
Theorem BCDF_PS_AI_Write_full_block data n m st m' :
  EIP76_PostProcessor_BCDF_PS_AI_Write K hw PTR (Some data) n PTR m =
    Done st m' ->
  let d := Device (IOArea m) in
  let s := next_status K hw m in
  (st = EIP76_INVALID_PARAMETER /\ n <> EIP76_MAX_PS_AI_WORD_COUNT K /\
   m' = m) \/
  (st = EIP76_NO_ERROR /\ n = EIP76_MAX_PS_AI_WORD_COUNT K /\
   (Z.to_nat n <= length data)%nat /\
   m' = mkMachine
          (set_State EIP76_STATE_KAT_SP80090_BCDF_RESEEDED
             (set_Index 0 (IOArea m)))
          (Z.land s (EIP76_EVENTS_MASK K)) (BlockCount m) (Data m)
          (trace m ++ EvRead d (EIP76_REG_STATUS K) s ::
             PS_AI_events K d 0 (firstn (Z.to_nat n) data))).
Proof.
  cbv zeta. unfold next_status. destruct m as [[d s0 sc i f] ev bc dat tr].
  eip_simpl.
  unfold EIP76_PostProcessor_BCDF_PS_AI_Write, EIP76_CHECK_INT_INRANGE,
    EIP76_Internal_PostProcessor_PS_AI_Write.
  destruct ((n <? EIP76_MAX_PS_AI_WORD_COUNT K) ||
            (EIP76_MAX_PS_AI_WORD_COUNT K <? n)) eqn:C; eip_simpl.
  - intros H. inversion H; subst; clear H. left.
    split; [reflexivity|]. split; [|reflexivity].
    apply orb_true_iff in C. destruct C as [C|C]; apply Z.ltb_lt in C; lia.
  - apply orb_false_iff in C. destruct C as [C1 C2].
    apply Z.ltb_ge in C1, C2. eip_run. unfold read_of in Hv. subst v.
    destruct (le_lt_dec (Z.to_nat n) (length data)) as [L|L].
    + rewrite (bind_Done _ _ _ _ _
                 (PS_AI_Write_from_ok K (Z.to_nat n) 0 d data _ (Z.le_refl 0) L)).
      cbn [Z.to_nat skipn]. eip_tail. machine_norm.
      intros H. inversion H; subst; clear H. right.
      split; [reflexivity|]. split; [lia|]. split; [exact L|].
      rewrite <- app_assoc. reflexivity.
    + unfold bind at 1.
      rewrite (PS_AI_Write_from_short K (Z.to_nat n) 0 d data _ (Z.le_refl 0));
        [intros H; discriminate H | simpl; lia | simpl; lia].
Qed.

End Writes.

(** X17 on a run: a second test vector on a device that is not ready. *)
Lemma NIST_Write_drains_output_witness :
  exists m' drained s t,
    EIP76_PostProcessor_NIST_Write EIP76_Example_Constants (hw_const 0)
      PTR (Some [7; 8; 9; 10]) 4 1 PTR
      (example_machine EIP76_STATE_KAT_START 0 false []) =
    Done EIP76_ILLEGAL_IN_STATE m' /\
    trace m' = drained ++ EvRead (Some O) 0x10 s :: t /\
    length drained = 4%nat.
Proof.
  assert (E : exists m',
    EIP76_PostProcessor_NIST_Write EIP76_Example_Constants (hw_const 0)
      PTR (Some [7; 8; 9; 10]) 4 1 PTR
      (example_machine EIP76_STATE_KAT_START 0 false []) =
    Done EIP76_ILLEGAL_IN_STATE m').
  { eexists. vm_compute. reflexivity. }
  destruct E as (m' & E). exists m'.
  destruct (NIST_Write_drains_output _ _ _ _ _ _ _ _ E)
    as (drained & s & t & T & D & _); [discriminate|].
  exists drained, s, t. split; [exact E|]. split; [exact T|].
  cbn in D. destruct D as (v0 & v1 & v2 & v3 & ->). reflexivity.
Defined.

(** X20 on a run: the twelve words of a BC_DF personalization string. *)
Lemma BCDF_PS_AI_Write_full_block_witness :
  exists m',
    EIP76_PostProcessor_BCDF_PS_AI_Write EIP76_Example_Constants (hw_const 0)
      PTR (Some [1; 2; 3; 4; 5; 6; 7; 8; 9; 10; 11; 12]) 12 PTR
      (example_machine EIP76_STATE_KAT_START 6 false []) =
    Done EIP76_NO_ERROR m' /\
    IOArea m' = example_IOArea EIP76_STATE_KAT_SP80090_BCDF_RESEEDED 0 false.
Proof.
  assert (E : exists m',
    EIP76_PostProcessor_BCDF_PS_AI_Write EIP76_Example_Constants (hw_const 0)
      PTR (Some [1; 2; 3; 4; 5; 6; 7; 8; 9; 10; 11; 12]) 12 PTR
      (example_machine EIP76_STATE_KAT_START 6 false []) =
    Done EIP76_NO_ERROR m').
  { eexists. vm_compute. reflexivity. }
  destruct E as (m' & E). exists m'. split; [exact E|].
  destruct (BCDF_PS_AI_Write_full_block _ _ _ _ _ _ _ E)
    as [(A & _)|(_ & _ & _ & ->)]; [discriminate A | reflexivity].
Defined.

(** ** Slot 11 of the PS/AI registers *)

Section Slot_11.

Variable PP : EIP76_PostProcessor_Type.
Variable K : EIP76_Constants.
Variable hw : list io_event -> Device_Handle_t -> Z -> Z.

Lemma Internal_PS_AI_Write_inv d data n m u m' :
  EIP76_Internal_PostProcessor_PS_AI_Write K d (Some data) n m = Done u m' ->
  (Z.to_nat n <= length data)%nat /\
  m' = add_trace (PS_AI_events K d 0 (firstn (Z.to_nat n) data)) m.
Proof.
  unfold EIP76_Internal_PostProcessor_PS_AI_Write. intros H.
  destruct (le_lt_dec (Z.to_nat n) (length data)) as [L|L].
  - rewrite (PS_AI_Write_from_ok K (Z.to_nat n) 0 d data m (Z.le_refl 0) L)
      in H.
    injection H as _ <-. auto.
  - rewrite (PS_AI_Write_from_short K (Z.to_nat n) 0 d data m (Z.le_refl 0))
      in H; [discriminate H | simpl; lia | simpl; lia].
Qed.

Lemma wrap32_apart a b : 0 < b - a < 2 ^ 32 -> wrap32 a <> wrap32 b.
Proof.
  unfold wrap32. intros H E.
  pose proof (Z.div_mod a (2 ^ 32) ltac:(lia)) as A.
  pose proof (Z.div_mod b (2 ^ 32) ltac:(lia)) as B.
  rewrite E in A. change (2 ^ 32) with 4294967296 in *. lia.
Qed.

Lemma PS_AI_events_snoc d ws w : forall j,
  PS_AI_events K d j (ws ++ [w]) =
  PS_AI_events K d j ws ++
  [EvWrite d (wrap32 (EIP76_REG_PS_AI_0 K + (j + Z.of_nat (length ws)) * 4)) w].
Proof.
  induction ws as [|x ws IH]; intros j; cbn [PS_AI_events app length].
  - rewrite Z.add_0_r. reflexivity.
  - rewrite IH.
    replace (j + Z.of_nat (S (length ws))) with (j + 1 + Z.of_nat (length ws))
      by lia.
    reflexivity.
Qed.

Lemma PS_AI_events_below d ws : forall j,
  0 <= j -> j + Z.of_nat (length ws) <= 11 ->
  Forall (fun e => match e with
                   | EvWrite _ offset _ =>
                       offset <> wrap32 (EIP76_REG_PS_AI_0 K + 11 * 4)
                   | _ => True
                   end) (PS_AI_events K d j ws).
Proof.
  induction ws as [|x ws IH]; intros j H0 H1; cbn [PS_AI_events length] in *.
  - constructor.
  - constructor; [apply wrap32_apart; lia | apply IH; lia].
Qed.

Lemma firstn_snoc_nth (l : list Z) k :
  (k < length l)%nat -> firstn (S k) l = firstn k l ++ [nth k l 0].
Proof.
  revert k. induction l as [|h t IH]; intros [|k] L; cbn in *; try lia.
  - reflexivity.
  - rewrite IH by lia. reflexivity.
Qed.

End Slot_11.

(** [exec], keeping what a returning
    [EIP76_Internal_PostProcessor_PS_AI_Write] says about the length of its
    buffer. *)
Ltac exec_len H :=
  eip_simpl in H;
  lazymatch type of H with
  | Done _ _ = Done _ _ => inversion H; clear H; subst
  | Fault _ = Done _ _ => discriminate H
  | Spin _ = Done _ _ => discriminate H
  | bind (EIP76_Read32 ?hw ?d ?off) _ ?m = Done _ _ =>
      let v := fresh "v" in
      let Hv := fresh "Hv" in
      let E := fresh "E" in
      destruct (EIP76_Read32_step hw d off m) as (v & Hv & E);
      rewrite (bind_Done _ _ _ _ _ E) in H; clear E; eip_simpl in Hv;
      exec_len H
  | bind _ _ _ = Done _ _ =>
      let a := fresh "a" in
      let m1 := fresh "m" in
      let E := fresh "E" in
      apply bind_inv in H; destruct H as (a & m1 & E & H);
      exec_len E; exec_len H
  | (if ?c then _ else _) _ = Done _ _ =>
      let C := fresh "C" in destruct c eqn:C; exec_len H
  | (match ?x with _ => _ end) _ = Done _ _ =>
      let C := fresh "C" in destruct x eqn:C; exec_len H
  | EIP76_Internal_PostProcessor_PS_AI_Write _ _ (Some _) _ _ = Done _ _ =>
      let L := fresh "L" in
      apply Internal_PS_AI_Write_inv in H; destruct H as (L & ?); subst
  | Reseed_Write_wait _ _ _ _ = Done _ _ =>
      let W := fresh "W" in
      apply Reseed_Write_wait_inv in H; destruct H as (? & ? & W); subst
  | _ =>
      tryif progress
        (cbv beta delta
           [ret spin EIP76_State_Set EIP76_Write32 put_Index store_Events
            printf] in H)
      then exec_len H else idtac
  end.

Section Slot_11_Last.

Variable PP : EIP76_PostProcessor_Type.
Variable K : EIP76_Constants.
Variable hw : list io_event -> Device_Handle_t -> Z -> Z.

(** X21. The last PS/AI word.  On a register map with twelve PS/AI slots
    in a row ([EIP76_REG_PS_AI_11] four bytes after each of the eleven
    before it), every successful call that writes the PS/AI registers
    writes slot 11 once, as the last of its register writes: the twelfth
    supplied word when the count is twelve, the dummy zero otherwise.  The
    writes before it are the first words supplied, to slots below 11. *)
Theorem PS_AI_slot_11_written_last fuel c data n m m' :
  PS_AI_args c = Some (Some data, n) ->
  EIP76_MAX_PS_AI_WORD_COUNT K = 12 ->
  EIP76_REG_PS_AI_11 K = wrap32 (EIP76_REG_PS_AI_0 K + 11 * 4) ->
  run PP K hw fuel c m = Done EIP76_NO_ERROR m' ->
  let d := Device (IOArea m) in
  let ws := firstn (Z.to_nat (Z.min n 11)) data in
  exists t,
    trace m' = trace m ++ t /\
    writes_of t =
      PS_AI_events K d 0 ws ++
      [EvWrite d (EIP76_REG_PS_AI_11 K) (if n <? 12 then 0 else nth 11 data 0)]
    /\
    Forall (fun e => match e with
                     | EvWrite _ offset _ => offset <> EIP76_REG_PS_AI_11 K
                     | _ => True
                     end) (PS_AI_events K d 0 ws).
Proof.
  intros A M S11 H. cbv zeta.
  assert (B : Forall (fun e => match e with
                     | EvWrite _ offset _ =>
                         offset <> wrap32 (EIP76_REG_PS_AI_0 K + 11 * 4)
                     | _ => True
                     end)
                (PS_AI_events K (Device (IOArea m)) 0
                   (firstn (Z.to_nat (Z.min n 11)) data))).
  { apply PS_AI_events_below; [lia|]. rewrite length_firstn. lia. }
  destruct c; try discriminate A; cbn [PS_AI_args] in A;
    inversion A; subst; clear A; destruct_args; unfold_ops H;
    rewrite ?M in H; exec_len H.
  all: repeat match goal with
    | C : (_ <? _) = false |- _ => apply Z.ltb_ge in C
    | C : (_ <? _) = true |- _ => apply Z.ltb_lt in C
    | C : (_ || _) = false |- _ => apply orb_false_elim in C; destruct C
    end.
  all: eip_simpl; rewrite <- ?app_assoc; eexists; (split; [reflexivity|]).
  all: (split; [|rewrite S11; exact B]).
  all: rewrite ?writes_of_app, ?writes_of_PS_AI_events.
  all: repeat match goal with W : writes_of _ = [] |- _ => rewrite W end.
  all: cbn [app writes_of filter is_write]; rewrite ?app_nil_r.
  all: try (replace (Z.min n 11) with n by lia; reflexivity).
  all: assert (n = 12) by lia; subst n; change (Z.min 12 11) with 11;
    change (Z.to_nat 12) with 12%nat in *;
    change (Z.to_nat 11) with 11%nat.
  all: rewrite (firstn_snoc_nth data 11) by lia.
  all: rewrite PS_AI_events_snoc, length_firstn, Nat.min_l by lia.
  all: rewrite S11; reflexivity.
Qed.

End Slot_11_Last.

(** X21 on a run: four words, then slot 11. *)
Lemma PS_AI_slot_11_written_last_witness :
  exists m' t,
    run EIP76_POST_PROCESSOR_SP80090 EIP76_Example_Constants (hw_const 0)
      0%nat (PS_AI_Write PTR (Some [7; 8; 9; 10]) 4 PTR)
      (example_machine EIP76_STATE_RANDOM_GENERATING 0 false []) =
    Done EIP76_NO_ERROR m' /\
    trace m' = t /\
    writes_of t =
      [EvWrite (Some O) 0x40 7; EvWrite (Some O) 0x44 8;
       EvWrite (Some O) 0x48 9; EvWrite (Some O) 0x4C 10;
       EvWrite (Some O) 0x6C 0].
Proof.
  assert (E : exists m',
    run EIP76_POST_PROCESSOR_SP80090 EIP76_Example_Constants (hw_const 0)
      0%nat (PS_AI_Write PTR (Some [7; 8; 9; 10]) 4 PTR)
      (example_machine EIP76_STATE_RANDOM_GENERATING 0 false []) =
    Done EIP76_NO_ERROR m').
  { eexists. vm_compute. reflexivity. }
  destruct E as (m' & E). exists m'.
  destruct (PS_AI_slot_11_written_last EIP76_POST_PROCESSOR_SP80090
              EIP76_Example_Constants (hw_const 0) 0%nat
              (PS_AI_Write PTR (Some [7; 8; 9; 10]) 4 PTR) [7; 8; 9; 10] 4
              _ _ eq_refl eq_refl eq_refl E) as (t & T & W & _).
  exists t. split; [exact E|]. split; [exact T|]. exact W.
Defined.

(** ** Leaving test mode *)

Section Test_Mode.

Variable K : EIP76_Constants.

Lemma not32_bits x i :
  Z.testbit (not32 x) i = (0 <=? i) && (i <? 32) && negb (Z.testbit x i).
Proof.
  unfold not32, wrap32. rewrite Z.testbit_mod_pow2 by lia.
  destruct (Z.leb_spec 0 i) as [P|N].
  - rewrite Z.lnot_spec by exact P. reflexivity.
  - rewrite (Z.testbit_neg_r (Z.lnot x)) by exact N.
    rewrite andb_false_r. reflexivity.
Qed.

(** X22. Leaving test mode.  The word that
    [EIP76_PostProcessor_Result_Read] and
    [EIP76_PostProcessor_BCDF_Result_Read] write back to the test register,
    [RegVal & ~(EIP76_TEST_POST_PROC | EIP76_TEST_SP_800_90 |
    EIP76_TEST_KNOWN_NOISE)] for the 32-bit word [RegVal] they read, has the
    three test bits clear and every other bit as it was read, and is again a
    32-bit word. *)
Theorem leave_test_mode_bits t :
  0 <= t < 2 ^ 32 ->
  let r := Z.land t (not32 (EIP76_TEST_ALL K)) in
  Z.land r (EIP76_TEST_POST_PROC K) = 0 /\
  Z.land r (EIP76_TEST_SP_800_90 K) = 0 /\
  Z.land r (EIP76_TEST_KNOWN_NOISE K) = 0 /\
  (forall i, Z.testbit (EIP76_TEST_ALL K) i = false ->
             Z.testbit r i = Z.testbit t i) /\
  0 <= r < 2 ^ 32.
Proof.
  intros Ht. cbv zeta.
  assert (B : forall i, Z.testbit (Z.land t (not32 (EIP76_TEST_ALL K))) i =
                        Z.testbit t i && negb (Z.testbit (EIP76_TEST_ALL K) i)).
  { intros i. rewrite Z.land_spec, not32_bits.
    destruct (Z.leb_spec 0 i) as [P|N].
    - destruct (Z.ltb_spec i 32) as [L|G]; [reflexivity|].
      cbn [andb]. rewrite andb_false_r.
      replace (Z.testbit t i) with false; [reflexivity|].
      symmetry. rewrite <- (Z.mod_small t (2 ^ 32)) by exact Ht.
      apply Z.mod_pow2_bits_high. lia.
    - rewrite (Z.testbit_neg_r t) by exact N. reflexivity. }
  assert (A : forall i, Z.testbit (EIP76_TEST_ALL K) i =
                Z.testbit (EIP76_TEST_POST_PROC K) i ||
                Z.testbit (EIP76_TEST_SP_800_90 K) i ||
                Z.testbit (EIP76_TEST_KNOWN_NOISE K) i).
  { intros i. unfold EIP76_TEST_ALL. rewrite !Z.lor_spec. reflexivity. }
  repeat split.
  1-3: apply Z.bits_inj; intros i; rewrite Z.land_spec, B, A, Z.bits_0;
    destruct (Z.testbit t i), (Z.testbit (EIP76_TEST_POST_PROC K) i),
      (Z.testbit (EIP76_TEST_SP_800_90 K) i),
      (Z.testbit (EIP76_TEST_KNOWN_NOISE K) i); reflexivity.
  - intros i Hi. rewrite B, Hi. apply andb_true_r.
  - apply Z.land_nonneg. left. lia.
  - unfold not32, wrap32. rewrite <- Z.land_ones by lia.
    rewrite Z.land_assoc. apply land_mask_range. lia.
Qed.

End Test_Mode.

(** X22 on a word with all three test bits and bit 0. *)
Lemma leave_test_mode_bits_witness :
  0 <= 0xE1 < 2 ^ 32 /\
  Z.land (Z.land 0xE1 (not32 (EIP76_TEST_ALL EIP76_Example_Constants)))
         (EIP76_TEST_POST_PROC EIP76_Example_Constants) = 0.
Proof.
  split; [lia|].
  refine (proj1 (leave_test_mode_bits EIP76_Example_Constants 0xE1 _)).
  lia.
Defined.

(** ** The noise loop *)

Section Noise_Loop.

Variable PP : EIP76_PostProcessor_Type.
Variable K : EIP76_Constants.
Variable hw : list io_event -> Device_Handle_t -> Z -> Z.

Lemma skipn_two (l : list Z) j :
  (j + 2 <= length l)%nat ->
  exists a b,
    nth_error l j = Some a /\ nth_error l (S j) = Some b /\
    skipn j l = a :: b :: skipn (j + 2) l.
Proof.
  intros L.
  destruct (nth_error l j) as [a|] eqn:A;
    [|apply nth_error_None in A; lia].
  destruct (nth_error l (S j)) as [b|] eqn:B;
    [|apply nth_error_None in B; lia].
  exists a, b. split; [reflexivity|]. split; [reflexivity|].
  rewrite (skipn_nth_error _ _ _ A), (skipn_nth_error _ _ _ B).
  replace (j + 2)%nat with (S (S j)) by lia. reflexivity.
Qed.

(** One noise write from sample [2 * j]. *)
Lemma BCDF_Noise_Write_pair data n j m :
  n < 2 ^ 32 -> Z.of_nat (2 * j)%nat < n ->
  Index (IOArea m) = Z.of_nat (2 * j)%nat ->
  (2 * j + 2 <= length data)%nat ->
  let a := IOArea m in
  let i' := Z.of_nat (2 * j + 2)%nat in
  EIP76_PostProcessor_BCDF_Noise_Write K PTR (Some data) n m =
  Done EIP76_NO_ERROR
    (mkMachine
       (mkIOArea (Device a) EIP76_STATE_KAT_SP80090_BCDF_NOISE (SavedControl a)
          (if n <=? i' then 0 else i') (Flag a))
       (Events m) (BlockCount m) (Data m)
       (trace m ++
        noise_events K (Device a) (firstn 2 (skipn (2 * j)%nat data)))).
Proof.
  intros Hn H0 Hi Hl. cbv zeta.
  destruct (skipn_two data (2 * j)%nat) as (x & y & X & Y & Sk); [lia|].
  assert (W1 : wrap32 (Index (IOArea m) + 1) = Z.of_nat (S (2 * j)%nat)).
  { rewrite Hi, wrap32_small by lia. lia. }
  assert (E := BCDF_Noise_Write_run K m data n x y). cbv zeta in E.
  rewrite E; clear E.
  2:{ rewrite Hi. lia. }
  2:{ rewrite Hi, Nat2Z.id. exact X. }
  2:{ rewrite W1, Nat2Z.id. exact Y. }
  rewrite Sk. cbn [firstn noise_events].
  replace (Index (IOArea m) + 2) with (Z.of_nat (2 * j + 2)%nat)
    by (rewrite Hi; lia).
  f_equal. f_equal. f_equal.
  destruct (Z.eq_dec (Z.of_nat (2 * j + 2)%nat) (2 ^ 32)) as [E|E].
  - rewrite E. change (wrap32 (2 ^ 32)) with 0.
    destruct (n <=? 0) eqn:A; destruct (n <=? 2 ^ 32) eqn:B;
      try reflexivity.
    + apply Z.leb_le in A. lia.
    + apply Z.leb_gt in B. lia.
  - rewrite wrap32_small by lia. reflexivity.
Qed.

(** [k + 1] noise writes in a row from sample [2 * j], none of the first
    [k] reaching the sample count. *)
Lemma BCDF_Noise_Write_from fuel data n k : forall j m,
  n < 2 ^ 32 ->
  Index (IOArea m) = Z.of_nat (2 * j)%nat ->
  Z.of_nat (2 * (j + k))%nat < n ->
  (2 * (j + k) + 2 <= length data)%nat ->
  let a := IOArea m in
  let i' := Z.of_nat (2 * (j + k) + 2)%nat in
  run_all PP K hw fuel
    (repeat (BCDF_Noise_Write PTR (Some data) n) (S k)) m =
  Done (repeat EIP76_NO_ERROR (S k))
    (mkMachine
       (mkIOArea (Device a) EIP76_STATE_KAT_SP80090_BCDF_NOISE (SavedControl a)
          (if n <=? i' then 0 else i') (Flag a))
       (Events m) (BlockCount m) (Data m)
       (trace m ++
        noise_events K (Device a)
          (firstn (2 * S k)%nat (skipn (2 * j)%nat data)))).
Proof.
  induction k as [|k IH]; intros j m Hn Hi Hk Hl; cbv zeta.
  - cbn [repeat run_all run].
    assert (E := BCDF_Noise_Write_pair data n j m). cbv zeta in E.
    rewrite (bind_Done _ _ _ _ _ (E Hn ltac:(lia) Hi ltac:(lia))).
    cbn [bind ret]. replace (2 * (j + 0) + 2)%nat with (2 * j + 2)%nat by lia.
    reflexivity.
  - change (repeat (BCDF_Noise_Write PTR (Some data) n) (S (S k)))
      with (BCDF_Noise_Write PTR (Some data) n
            :: repeat (BCDF_Noise_Write PTR (Some data) n) (S k)).
    cbn [run_all run].
    assert (E := BCDF_Noise_Write_pair data n j m). cbv zeta in E.
    rewrite (bind_Done _ _ _ _ _ (E Hn ltac:(lia) Hi ltac:(lia))). clear E.
    replace (n <=? Z.of_nat (2 * j + 2)%nat) with false
      by (symmetry; apply Z.leb_gt; lia).
    cbv beta.
    match goal with
    | |- bind _ _ ?m1 = _ => assert (E := IH (S j) m1 Hn)
    end.
    cbv zeta in E. cbn [IOArea Index] in E.
    rewrite (bind_Done _ _ _ _ _
               (E ltac:(f_equal; lia) ltac:(lia) ltac:(lia))). clear E.
    cbn [bind ret IOArea Device SavedControl Flag Events BlockCount Data trace].
    replace (2 * (S j + k) + 2)%nat with (2 * (j + S k) + 2)%nat by lia.
    rewrite <- app_assoc.
    destruct (skipn_two data (2 * j)%nat) as (x & y & X & Y & Sk); [lia|].
    rewrite Sk.
    replace (2 * S (S k))%nat with (S (S (2 * S k))) by lia.
    cbn [firstn noise_events app].
    replace (2 * j + 2)%nat with (2 * S j)%nat by lia.
    reflexivity.
Qed.

(** X23. The noise loop.  From [Index] 0, [k] calls of
    [EIP76_PostProcessor_BCDF_Noise_Write] in a row for a sample count [n],
    [k] at most [(n + 1) / 2], all succeed, touch nothing but [Index] and
    the state, and write the first [2 * k] samples to the two shift-register
    halves pair by pair, each pair packed both ways.  [Index] is [2 * k]
    after each call but the [(n + 1) / 2]-th, which takes it back to 0; so
    the loop closes after [n / 2] calls for an even [n], and for an odd [n]
    its last call also reads sample [n], one past the count. *)
Theorem BCDF_Noise_Write_loop fuel data n k m :
  0 < n < 2 ^ 32 ->
  Index (IOArea m) = 0 ->
  let h := Z.to_nat ((n + 1) / 2) in
  (0 < k <= h)%nat ->
  (2 * k <= length data)%nat ->
  let a := IOArea m in
  run_all PP K hw fuel (repeat (BCDF_Noise_Write PTR (Some data) n) k) m =
  Done (repeat EIP76_NO_ERROR k)
    (mkMachine
       (mkIOArea (Device a) EIP76_STATE_KAT_SP80090_BCDF_NOISE (SavedControl a)
          (if (k =? h)%nat then 0 else Z.of_nat (2 * k)%nat) (Flag a))
       (Events m) (BlockCount m) (Data m)
       (trace m ++ noise_events K (Device a) (firstn (2 * k)%nat data))).
Proof.
  intros Hn Hi h Hk Hl. cbv zeta.
  assert (Hh : 2 * Z.of_nat h <= n + 1 /\ n <= 2 * Z.of_nat h).
  { unfold h. rewrite Z2Nat.id by (apply Z.div_pos; lia).
    pose proof (Z.div_mod (n + 1) 2 ltac:(lia)).
    pose proof (Z.mod_pos_bound (n + 1) 2 ltac:(lia)). lia. }
  destruct k as [|k]; [lia|].
  assert (E := BCDF_Noise_Write_from fuel data n k 0%nat m). cbv zeta in E.
  rewrite E; try lia.
  replace (2 * (0 + k) + 2)%nat with (2 * S k)%nat by lia.
  change (skipn (2 * 0) data) with data. f_equal. f_equal. f_equal.
  destruct (Nat.eqb_spec (S k) h) as [A|A].
  - replace (n <=? Z.of_nat (2 * S k)%nat) with true; [reflexivity|].
    symmetry. apply Z.leb_le. lia.
  - replace (n <=? Z.of_nat (2 * S k)%nat) with false; [reflexivity|].
    symmetry. apply Z.leb_gt. lia.
Qed.

End Noise_Loop.

(** X23 on a run: four samples in two calls. *)
Lemma BCDF_Noise_Write_loop_witness :
  run_all EIP76_POST_PROCESSOR_BC_DF EIP76_Example_Constants (hw_const 0)
    0%nat (repeat (BCDF_Noise_Write PTR (Some [1; 2; 3; 4]) 4) 2)
    (example_machine EIP76_STATE_KAT_SP80090_BCDF_RESEEDED 0 false []) =
  Done [EIP76_NO_ERROR; EIP76_NO_ERROR]
    (mkMachine (example_IOArea EIP76_STATE_KAT_SP80090_BCDF_NOISE 0 false)
       0 0 []
       [EvWrite (Some O) 0x30 (BCDF_Noise_Pack 1 2);
        EvWrite (Some O) 0x34 (BCDF_Noise_Pack 2 1);
        EvWrite (Some O) 0x30 (BCDF_Noise_Pack 3 4);
        EvWrite (Some O) 0x34 (BCDF_Noise_Pack 4 3)]).
Proof.
  apply (BCDF_Noise_Write_loop EIP76_POST_PROCESSOR_BC_DF
           EIP76_Example_Constants (hw_const 0) 0%nat [1; 2; 3; 4] 4 2%nat
           (example_machine EIP76_STATE_KAT_SP80090_BCDF_RESEEDED 0 false [])).
  - lia.
  - reflexivity.
  - change (Z.to_nat ((4 + 1) / 2)) with 2%nat. lia.
  - simpl. lia.
Defined.

(** ** A pass of result reads *)

Section Result_Pass.

Variable PP : EIP76_PostProcessor_Type.
Variable K : EIP76_Constants.
Variable hw : list io_event -> Device_Handle_t -> Z -> Z.

Lemma run_all_app fuel cs1 : forall cs2 m s1 m1 s2 m2,
  run_all PP K hw fuel cs1 m = Done s1 m1 ->
  run_all PP K hw fuel cs2 m1 = Done s2 m2 ->
  run_all PP K hw fuel (cs1 ++ cs2) m = Done (s1 ++ s2) m2.
Proof.
  induction cs1 as [|c cs1 IH]; intros cs2 m s1 m1 s2 m2 H1 H2.
  - cbn in H1. injection H1 as <- <-. exact H2.
  - cbn [run_all app] in *.
    apply bind_inv in H1. destruct H1 as (st & ma & R & H1).
    apply bind_inv in H1. destruct H1 as (sts & mb & R1 & H1).
    cbn in H1. injection H1 as <- <-.
    rewrite (bind_Done _ _ _ _ _ R).
    rewrite (bind_Done _ _ _ _ _ (IH _ _ _ _ _ _ R1 H2)). reflexivity.
Qed.

Lemma room_from m :
  0 <= Index (IOArea m) ->
  Index (IOArea m) + 4 <= Z.of_nat (length (Data m)) ->
  Index (IOArea m) + 4 < 2 ^ 32 ->
  room m.
Proof.
  intros H0 H1 H2. unfold room.
  repeat (apply Forall_cons; [rewrite wrap32_small; lia|]).
  apply Forall_nil.
Qed.

(** A ready read that stays short of the word count. *)
Lemma BCDF_Result_Read_next_block m n :
  n <= MASK_31_BITS ->
  EIP76_STATUS_IS_READY K (next_status K hw m) = true ->
  room m ->
  wrap32 (Index (IOArea m) + 4) < n ->
  let a := IOArea m in
  let d := Device a in
  exists v0 v1 v2 v3,
    EIP76_PostProcessor_BCDF_Result_Read K hw PTR PTR PTR n m =
    Done EIP76_BUSY_RETRY_LATER
      (mkMachine
         (mkIOArea d EIP76_STATE_KAT_SP80090_BCDF_PROCESSING (SavedControl a)
            (wrap32 (Index a + 4)) (Flag a))
         (Z.land (next_status K hw m) (EIP76_EVENTS_MASK K)) (BlockCount m)
         (stored (Data m) (Index a) v0 v1 v2 v3)
         (trace m ++
          [EvRead d (EIP76_REG_STATUS K) (next_status K hw m);
           EvRead d (EIP76_REG_OUTPUT_0 K) v0;
           EvRead d (EIP76_REG_OUTPUT_1 K) v1;
           EvRead d (EIP76_REG_OUTPUT_2 K) v2;
           EvRead d (EIP76_REG_OUTPUT_3 K) v3;
           EvWrite d (EIP76_REG_INTACK K) (CLEAR_READY_BIT K)])).
Proof.
  intros Hn Hr R. pose proof (room_stores m R) as S.
  unfold next_status in *. revert Hr S. clear R. unfold stored.
  destruct m as [[d s sc i f] ev bc dat tr]. eip_simpl. intros Hr S Hi.
  pose proof (S 0 ltac:(simpl; auto)). pose proof (S 1 ltac:(simpl; auto)).
  pose proof (S 2 ltac:(simpl; auto)). pose proof (S 3 ltac:(simpl; auto)).
  unfold EIP76_PostProcessor_BCDF_Result_Read, EIP76_CHECK_INT_ATMOST.
  replace (MASK_31_BITS <? n) with false by (symmetry; apply Z.ltb_ge; lia).
  eip_run. unfold read_of in Hv. rewrite <- Hv in Hr |- *. rewrite Hr. eip_run.
  do 4 step_store.
  replace (n <=? wrap32 (i + 4)) with false
    by (symmetry; apply Z.leb_gt; exact Hi).
  eip_tail. machine_norm. do 4 eexists. rewrite <- !app_assoc. reflexivity.
Qed.

Lemma length_stored dat i v0 v1 v2 v3 :
  length (stored dat i v0 v1 v2 v3) = length dat.
Proof. unfold stored. rewrite !length_list_set. reflexivity. Qed.

(** [k] ready reads in a row, none of them reaching the word count. *)
Lemma BCDF_Result_Read_blocks fuel n d k : forall m,
  n <= MASK_31_BITS -> always_ready K hw d -> Device (IOArea m) = d ->
  0 <= Index (IOArea m) ->
  Index (IOArea m) + 4 * Z.of_nat k < n ->
  Index (IOArea m) + 4 * Z.of_nat k <= Z.of_nat (length (Data m)) ->
  exists m' t,
    run_all PP K hw fuel (repeat (BCDF_Result_Read PTR PTR PTR n) k) m =
      Done (repeat EIP76_BUSY_RETRY_LATER k) m' /\
    Device (IOArea m') = d /\
    SavedControl (IOArea m') = SavedControl (IOArea m) /\
    Flag (IOArea m') = Flag (IOArea m) /\
    Index (IOArea m') = Index (IOArea m) + 4 * Z.of_nat k /\
    length (Data m') = length (Data m) /\
    trace m' = trace m ++ t /\
    writes_of t = repeat (EvWrite d (EIP76_REG_INTACK K) (CLEAR_READY_BIT K)) k.
Proof.
  induction k as [|k IH]; intros m Hn A D H0 Hk Hl.
  - exists m, []. cbn. rewrite app_nil_r, Z.add_0_r. auto 10.
  - assert (M : MASK_31_BITS = 2 ^ 31 - 1) by reflexivity.
    assert (W : wrap32 (Index (IOArea m) + 4) = Index (IOArea m) + 4)
      by (apply wrap32_small; lia).
    destruct (BCDF_Result_Read_next_block m n Hn) as (v0 & v1 & v2 & v3 & E).
    { unfold next_status. rewrite D. apply A. }
    { apply room_from; lia. }
    { rewrite W. lia. }
    cbv zeta in E. rewrite W in E.
    match type of E with _ = Done _ ?m1 =>
      destruct (IH m1 Hn A) as (m' & t & R & D' & S' & F' & I' & L' & T' & W')
    end.
    1-4: cbn [IOArea Device Index Data]; rewrite ?length_stored; try lia;
      try assumption.
    cbn [IOArea Device SavedControl Flag Index Data trace] in *.
    exists m'. eexists. cbn [repeat run_all run].
    rewrite (bind_Done _ _ _ _ _ E), (bind_Done _ _ _ _ _ R). cbn [ret].
    split; [reflexivity|]. split; [exact D'|]. split; [exact S'|].
    split; [exact F'|]. split; [lia|].
    split; [rewrite L'; apply length_stored|].
    rewrite T', <- app_assoc. split; [reflexivity|].
    rewrite writes_of_app, W', D. reflexivity.
Qed.

(** X24. A pass of [EIP76_PostProcessor_BCDF_Result_Read].  On a device
    that shows a block ready at every status read, from [Index] 0 and for a
    word count [n] above 0, it takes exactly [(n + 3) / 4] calls to complete
    the pass (the block count [EIP76_PostProcessor_BCDF_Generate_Start]
    computes for [n]): the calls before the last return busy, the last one
    returns processing on the first pass and success on the second, flips
    [Flag], takes [Index] back to 0 and sets [EIP76_STATE_KAT_START] or
    [EIP76_STATE_SP80090_RESEED_START].  Each call acknowledges its block
    with one write; the last adds the reseed request on the first pass, and
    on the second the test-register write and the restore of the saved
    control word.  The buffer needs room for whole blocks,
    [4 * ((n + 3) / 4)] words. *)
Theorem BCDF_Result_Read_pass fuel n m :
  0 < n <= MASK_31_BITS ->
  always_ready K hw (Device (IOArea m)) ->
  Index (IOArea m) = 0 ->
  let h := Z.to_nat ((n + 3) / 4) in
  (4 * h <= length (Data m))%nat ->
  let a := IOArea m in
  let d := Device a in
  exists m' t tv,
    run_all PP K hw fuel (repeat (BCDF_Result_Read PTR PTR PTR n) h) m =
      Done (repeat EIP76_BUSY_RETRY_LATER (h - 1) ++
            [if Flag a then EIP76_NO_ERROR else EIP76_PROCESSING]) m' /\
    IOArea m' =
      mkIOArea d
        (if Flag a then EIP76_STATE_SP80090_RESEED_START
         else EIP76_STATE_KAT_START)
        (SavedControl a) 0 (negb (Flag a)) /\
    length (Data m') = length (Data m) /\
    trace m' = trace m ++ t /\
    writes_of t =
      repeat (EvWrite d (EIP76_REG_INTACK K) (CLEAR_READY_BIT K)) h ++
      (if Flag a
       then [EvWrite d (EIP76_REG_TEST K)
               (Z.land tv (not32 (EIP76_TEST_ALL K)));
             EvWrite d (EIP76_REG_CONTROL K) (SavedControl a)]
       else [EvWrite d (EIP76_REG_CONTROL K)
               (EIP76_CONTROL_ENABLE_RESEED K)]).
Proof.
  intros Hn A Hi h Hl. cbv zeta.
  assert (M : MASK_31_BITS = 2 ^ 31 - 1) by reflexivity.
  assert (Hh : 4 * Z.of_nat h < n + 4 /\ n <= 4 * Z.of_nat h).
  { unfold h. rewrite Z2Nat.id by (apply Z.div_pos; lia).
    pose proof (Z.div_mod (n + 3) 4 ltac:(lia)).
    pose proof (Z.mod_pos_bound (n + 3) 4 ltac:(lia)). lia. }
  assert (H1 : (1 <= h)%nat) by lia.
  destruct (BCDF_Result_Read_blocks fuel n (Device (IOArea m)) (h - 1) m)
    as (m1 & t1 & R & D1 & S1 & F1 & I1 & L1 & T1 & W1); try lia;
    try assumption; try reflexivity.
  rewrite Hi in I1.
  assert (C : completes K hw (BCDF_Result_Read PTR PTR PTR n) m1).
  { unfold completes. split; [lia|]. split.
    - unfold next_status. rewrite D1. apply A.
    - rewrite I1, wrap32_small; lia. }
  assert (Ro : room m1) by (apply room_from; lia).
  assert (Rp : forall (A : Type) (x : A),
            repeat x h = repeat x (h - 1) ++ [x]).
  { intros B x. replace h with (h - 1 + 1)%nat at 1 by lia.
    apply repeat_app. }
  rewrite !Rp.
  destruct (Flag (IOArea m)) eqn:F.
  - destruct (BCDF_Result_Read_second_pass K hw m1 n) as
      (v0 & v1 & v2 & v3 & tv & E); [congruence | exact C | exact Ro |].
    cbv zeta in E. eexists. eexists. exists tv.
    split.
    { apply (run_all_app fuel _ _ _ _ _ _ _ R). cbn [run_all run].
      rewrite (bind_Done _ _ _ _ _ E). reflexivity. }
    cbn [IOArea Data trace negb]. rewrite D1, S1, length_stored, L1, T1.
    split; [reflexivity|]. split; [reflexivity|].
    rewrite <- app_assoc. split; [reflexivity|].
    rewrite writes_of_app, W1, <- app_assoc. reflexivity.
  - destruct (BCDF_Result_Read_first_pass K hw m1 n) as
      (v0 & v1 & v2 & v3 & E); [congruence | exact C | exact Ro |].
    cbv zeta in E. eexists. eexists. exists 0.
    split.
    { apply (run_all_app fuel _ _ _ _ _ _ _ R). cbn [run_all run].
      rewrite (bind_Done _ _ _ _ _ E). reflexivity. }
    cbn [IOArea Data trace negb]. rewrite D1, S1, length_stored, L1, T1.
    split; [reflexivity|]. split; [reflexivity|].
    rewrite <- app_assoc. split; [reflexivity|].
    rewrite writes_of_app, W1, <- app_assoc. reflexivity.
Qed.

End Result_Pass.

(** X24 on a run: six words take two calls. *)
Lemma BCDF_Result_Read_pass_witness :
  exists m',
    run_all EIP76_POST_PROCESSOR_BC_DF EIP76_Example_Constants (hw_const 1)
      0%nat (repeat (BCDF_Result_Read PTR PTR PTR 6) 2)
      (example_machine EIP76_STATE_KAT_SP80090_BCDF_PROCESSING 0 false
         [0; 0; 0; 0; 0; 0; 0; 0]) =
    Done [EIP76_BUSY_RETRY_LATER; EIP76_PROCESSING] m' /\
    IOArea m' = example_IOArea EIP76_STATE_KAT_START 0 true.
Proof.
  destruct (BCDF_Result_Read_pass EIP76_POST_PROCESSOR_BC_DF
              EIP76_Example_Constants (hw_const 1) 0%nat 6
              (example_machine EIP76_STATE_KAT_SP80090_BCDF_PROCESSING 0 false
                 [0; 0; 0; 0; 0; 0; 0; 0]))
    as (m' & t & tv & R & A & _).
  - split; [lia|]. vm_compute. discriminate.
  - intros t. reflexivity.
  - reflexivity.
  - change (Z.to_nat ((6 + 3) / 4)) with 2%nat. simpl. lia.
  - exists m'. split; [exact R | exact A].
Defined.

(** ** Room for whole blocks *)

Section Whole_Block.

Variable K : EIP76_Constants.
Variable hw : list io_event -> Device_Handle_t -> Z -> Z.

Lemma store_Data_out_of_range i v m :
  Z.of_nat (length (Data m)) <= i -> store_Data PTR i v m = Fault m.
Proof.
  intros H. unfold store_Data. cbn [is_null].
  replace (Z.of_nat (length (Data m)) <=? i) with true
    by (symmetry; apply Z.leb_le; exact H).
  rewrite orb_true_r. reflexivity.
Qed.

(** X25. [EIP76_PostProcessor_BCDF_Result_Read] stores whole blocks.  On
    a ready status the four words go to [Data_p[Index]] up to
    [Data_p[Index + 3]] before [Index] is compared with the word count, so
    in a buffer with fewer than [Index + 4] words the call runs past the
    end, whatever the word count asked for; it has then neither
    acknowledged the block nor changed the I/O area. *)
Theorem BCDF_Result_Read_needs_whole_block m n :
  n <= MASK_31_BITS ->
  EIP76_STATUS_IS_READY K (next_status K hw m) = true ->
  0 <= Index (IOArea m) -> Index (IOArea m) + 4 <= 2 ^ 32 ->
  Z.of_nat (length (Data m)) < Index (IOArea m) + 4 ->
  exists m' t,
    EIP76_PostProcessor_BCDF_Result_Read K hw PTR PTR PTR n m = Fault m' /\
    IOArea m' = IOArea m /\
    trace m' = trace m ++ t /\ writes_of t = [].
Proof.
  unfold next_status. destruct m as [[d s sc i f] ev bc dat tr]. eip_simpl.
  intros Hn Hr H0 H1 Hl.
  unfold EIP76_PostProcessor_BCDF_Result_Read, EIP76_CHECK_INT_ATMOST.
  replace (MASK_31_BITS <? n) with false by (symmetry; apply Z.ltb_ge; lia).
  eip_run. unfold read_of in Hv. rewrite <- Hv in Hr. rewrite Hr. eip_run.
  rewrite !wrap32_small by lia.
  destruct (Z_lt_le_dec (i + 0) (Z.of_nat (length dat))) as [L0|L0].
  2:{ unfold bind at 1. rewrite store_Data_out_of_range by exact L0.
      machine_norm. do 2 eexists. split; [reflexivity|].
      split; [reflexivity|]. rewrite <- ?app_assoc.
      split; reflexivity. }
  step_store.
  destruct (Z_lt_le_dec (i + 1) (Z.of_nat (length dat))) as [L1|L1].
  2:{ unfold bind at 1. rewrite store_Data_out_of_range
        by (eip_simpl; rewrite ?length_list_set; exact L1).
      machine_norm. do 2 eexists. split; [reflexivity|].
      split; [reflexivity|]. rewrite <- ?app_assoc.
      split; reflexivity. }
  step_store.
  destruct (Z_lt_le_dec (i + 2) (Z.of_nat (length dat))) as [L2|L2].
  2:{ unfold bind at 1. rewrite store_Data_out_of_range
        by (eip_simpl; rewrite ?length_list_set; exact L2).
      machine_norm. do 2 eexists. split; [reflexivity|].
      split; [reflexivity|]. rewrite <- ?app_assoc.
      split; reflexivity. }
  step_store.
  unfold bind at 1. rewrite store_Data_out_of_range
    by (eip_simpl; rewrite ?length_list_set; lia).
  machine_norm. do 2 eexists. split; [reflexivity|].
  split; [reflexivity|]. rewrite <- ?app_assoc. split; reflexivity.
Qed.

End Whole_Block.

(** X25 on a run: the second block of a six-word request into a six-word
    buffer. *)
Lemma BCDF_Result_Read_needs_whole_block_witness :
  exists m' t,
    EIP76_PostProcessor_BCDF_Result_Read EIP76_Example_Constants (hw_const 1)
      PTR PTR PTR 6
      (example_machine EIP76_STATE_KAT_SP80090_BCDF_PROCESSING 4 false
         [0; 0; 0; 0; 0; 0]) = Fault m' /\
    IOArea m' =
      IOArea (example_machine EIP76_STATE_KAT_SP80090_BCDF_PROCESSING 4 false
                [0; 0; 0; 0; 0; 0]) /\
    trace m' =
      trace (example_machine EIP76_STATE_KAT_SP80090_BCDF_PROCESSING 4 false
               [0; 0; 0; 0; 0; 0]) ++ t /\
    writes_of t = [].
Proof.
  apply (BCDF_Result_Read_needs_whole_block EIP76_Example_Constants
           (hw_const 1)
           (example_machine EIP76_STATE_KAT_SP80090_BCDF_PROCESSING 4 false
              [0; 0; 0; 0; 0; 0]) 6).
  - vm_compute. discriminate.
  - reflexivity.
  - simpl. lia.
  - simpl. lia.
  - simpl. lia.
Defined.

